(** * NIDAAN-AI: the triage pipelines, the translation adapter, the AI client

    A shallow embedding of the request pipelines of [main.py] and
    [main_multilanguage.py], of [call_llm] ([llm.py]) and of the Sarvam
    translation adapter ([sarvam_translator.py]), together with the
    properties the specification states about them.

    Python values are modelled as they are used by the code: a [str] is a
    sequence of Unicode code points, a JSON document is a [pyval], a [dict]
    keeps its insertion order, an exception is a value that either escapes a
    function ([Raise]) or is turned into a result by a handler.  Calls to the
    three third-party providers are recorded in a history, so that "no
    provider is contacted" is a statement about that history.  Logging has no
    influence on any result and is modelled only where evaluating a log
    message can itself raise. *)

From Stdlib Require Import List String Ascii NArith ZArith Bool Lia.
From Stdlib Require Import DecimalString.
From Stdlib Require Strings.Byte.
Import ListNotations.

Set Implicit Arguments.
Set Warnings "-register-all".

(* ================================================================== *)
(** ** Python strings *)

(** A character is a Unicode code point; a [str] is a list of them, so
    [length] is Python's [len] and [++] is concatenation. *)
Definition char := N.
Definition str := list char.

(** [lit "abc"] is the Python literal ["abc"] (ASCII literals only; other
    code points are written as numbers). *)
Definition lit (x : string) : str :=
  map (fun a => N_of_ascii a) (list_ascii_of_string x).

Fixpoint str_eqb (a b : str) : bool :=
  match a, b with
  | [], [] => true
  | x :: a', y :: b' => N.eqb x y && str_eqb a' b'
  | _, _ => false
  end.

(** [p in t] on strings: [p] occurs in [t] as a contiguous run. *)
Fixpoint startswith (t p : str) {struct p} : bool :=
  match p, t with
  | [], _ => true
  | x :: p', y :: t' => N.eqb x y && startswith t' p'
  | _ :: _, [] => false
  end.

Fixpoint contains (p t : str) : bool :=
  startswith t p ||
  match t with
  | [] => false
  | _ :: t' => contains p t'
  end.

(** [x in xs] for a list of strings. *)
Definition str_in (x : str) (xs : list str) : bool :=
  existsb (str_eqb x) xs.

(** [str.isspace] for one character: the code points Python treats as
    whitespace. *)
Definition isspace (c : char) : bool :=
  ((9 <=? c) && (c <=? 13) || (28 <=? c) && (c <=? 32) ||
   (c =? 0x85) || (c =? 0xa0) || (c =? 0x1680) ||
   (0x2000 <=? c) && (c <=? 0x200a) || (c =? 0x2028) || (c =? 0x2029) ||
   (c =? 0x202f) || (c =? 0x205f) || (c =? 0x3000))%N.

Fixpoint lstrip (t : str) : str :=
  match t with
  | [] => []
  | c :: t' => if isspace c then lstrip t' else t
  end.

Definition rstrip (t : str) : str := rev (lstrip (rev t)).

(** [str.strip()] *)
Definition strip (t : str) : str := rstrip (lstrip t).

(** [str.lower()], as far as the code can observe it: both services use
    the lower-cased text only to look for ASCII phrases in it.  The table
    is exact for every code point whose image contains an ASCII character
    (the ASCII letters and the two other code points listed); every other
    code point is kept, where Python may put one or more other non-ASCII
    code points, which no search for an ASCII phrase can tell apart. *)
Definition lower_char (c : char) : str :=
  (if (65 <=? c) && (c <=? 90) then [c + 32]
   else if c =? 0x130 then [0x69; 0x307]
   else if c =? 0x212a then [0x6b]
   else [c])%N.

Definition lower (t : str) : str := flat_map lower_char t.

(** [str.upper()], which maps each code point on its own.  Outside ASCII
    the mapping is the one of the Unicode Character Database 14.0.0, the
    version CPython 3.11 carries: [upper_runs] lists the code points with
    a single-character upper case as runs [(first, last, step, image of
    first)], every [step]-th code point from [first] to [last] being moved
    by the same distance as [first]; [upper_special] lists the code points
    whose upper case has more than one character. *)
Definition upper_runs : list (N * N * N * N) :=
  [ (0xb5, 0xb5, 1, 0x39c); (0xe0, 0xf6, 1, 0xc0); (0xf8, 0xfe, 1, 0xd8);
    (0xff, 0xff, 1, 0x178); (0x101, 0x12f, 2, 0x100);
    (0x131, 0x131, 1, 0x49); (0x133, 0x137, 2, 0x132);
    (0x13a, 0x148, 2, 0x139); (0x14b, 0x177, 2, 0x14a);
    (0x17a, 0x17e, 2, 0x179); (0x17f, 0x17f, 1, 0x53);
    (0x180, 0x180, 1, 0x243); (0x183, 0x185, 2, 0x182);
    (0x188, 0x188, 1, 0x187); (0x18c, 0x18c, 1, 0x18b);
    (0x192, 0x192, 1, 0x191); (0x195, 0x195, 1, 0x1f6);
    (0x199, 0x199, 1, 0x198); (0x19a, 0x19a, 1, 0x23d);
    (0x19e, 0x19e, 1, 0x220); (0x1a1, 0x1a5, 2, 0x1a0);
    (0x1a8, 0x1a8, 1, 0x1a7); (0x1ad, 0x1ad, 1, 0x1ac);
    (0x1b0, 0x1b0, 1, 0x1af); (0x1b4, 0x1b6, 2, 0x1b3);
    (0x1b9, 0x1b9, 1, 0x1b8); (0x1bd, 0x1bd, 1, 0x1bc);
    (0x1bf, 0x1bf, 1, 0x1f7); (0x1c5, 0x1c5, 1, 0x1c4);
    (0x1c6, 0x1c6, 1, 0x1c4); (0x1c8, 0x1c8, 1, 0x1c7);
    (0x1c9, 0x1c9, 1, 0x1c7); (0x1cb, 0x1cb, 1, 0x1ca);
    (0x1cc, 0x1cc, 1, 0x1ca); (0x1ce, 0x1dc, 2, 0x1cd);
    (0x1dd, 0x1dd, 1, 0x18e); (0x1df, 0x1ef, 2, 0x1de);
    (0x1f2, 0x1f2, 1, 0x1f1); (0x1f3, 0x1f3, 1, 0x1f1);
    (0x1f5, 0x1f5, 1, 0x1f4); (0x1f9, 0x21f, 2, 0x1f8);
    (0x223, 0x233, 2, 0x222); (0x23c, 0x23c, 1, 0x23b);
    (0x23f, 0x240, 1, 0x2c7e); (0x242, 0x242, 1, 0x241);
    (0x247, 0x24f, 2, 0x246); (0x250, 0x250, 1, 0x2c6f);
    (0x251, 0x251, 1, 0x2c6d); (0x252, 0x252, 1, 0x2c70);
    (0x253, 0x253, 1, 0x181); (0x254, 0x254, 1, 0x186);
    (0x256, 0x257, 1, 0x189); (0x259, 0x259, 1, 0x18f);
    (0x25b, 0x25b, 1, 0x190); (0x25c, 0x25c, 1, 0xa7ab);
    (0x260, 0x260, 1, 0x193); (0x261, 0x261, 1, 0xa7ac);
    (0x263, 0x263, 1, 0x194); (0x265, 0x265, 1, 0xa78d);
    (0x266, 0x266, 1, 0xa7aa); (0x268, 0x268, 1, 0x197);
    (0x269, 0x269, 1, 0x196); (0x26a, 0x26a, 1, 0xa7ae);
    (0x26b, 0x26b, 1, 0x2c62); (0x26c, 0x26c, 1, 0xa7ad);
    (0x26f, 0x26f, 1, 0x19c); (0x271, 0x271, 1, 0x2c6e);
    (0x272, 0x272, 1, 0x19d); (0x275, 0x275, 1, 0x19f);
    (0x27d, 0x27d, 1, 0x2c64); (0x280, 0x280, 1, 0x1a6);
    (0x282, 0x282, 1, 0xa7c5); (0x283, 0x283, 1, 0x1a9);
    (0x287, 0x287, 1, 0xa7b1); (0x288, 0x288, 1, 0x1ae);
    (0x289, 0x289, 1, 0x244); (0x28a, 0x28b, 1, 0x1b1);
    (0x28c, 0x28c, 1, 0x245); (0x292, 0x292, 1, 0x1b7);
    (0x29d, 0x29d, 1, 0xa7b2); (0x29e, 0x29e, 1, 0xa7b0);
    (0x345, 0x345, 1, 0x399); (0x371, 0x373, 2, 0x370);
    (0x377, 0x377, 1, 0x376); (0x37b, 0x37d, 1, 0x3fd);
    (0x3ac, 0x3ac, 1, 0x386); (0x3ad, 0x3af, 1, 0x388);
    (0x3b1, 0x3c1, 1, 0x391); (0x3c2, 0x3c2, 1, 0x3a3);
    (0x3c3, 0x3cb, 1, 0x3a3); (0x3cc, 0x3cc, 1, 0x38c);
    (0x3cd, 0x3ce, 1, 0x38e); (0x3d0, 0x3d0, 1, 0x392);
    (0x3d1, 0x3d1, 1, 0x398); (0x3d5, 0x3d5, 1, 0x3a6);
    (0x3d6, 0x3d6, 1, 0x3a0); (0x3d7, 0x3d7, 1, 0x3cf);
    (0x3d9, 0x3ef, 2, 0x3d8); (0x3f0, 0x3f0, 1, 0x39a);
    (0x3f1, 0x3f1, 1, 0x3a1); (0x3f2, 0x3f2, 1, 0x3f9);
    (0x3f3, 0x3f3, 1, 0x37f); (0x3f5, 0x3f5, 1, 0x395);
    (0x3f8, 0x3f8, 1, 0x3f7); (0x3fb, 0x3fb, 1, 0x3fa);
    (0x430, 0x44f, 1, 0x410); (0x450, 0x45f, 1, 0x400);
    (0x461, 0x481, 2, 0x460); (0x48b, 0x4bf, 2, 0x48a);
    (0x4c2, 0x4ce, 2, 0x4c1); (0x4cf, 0x4cf, 1, 0x4c0);
    (0x4d1, 0x52f, 2, 0x4d0); (0x561, 0x586, 1, 0x531);
    (0x10d0, 0x10fa, 1, 0x1c90); (0x10fd, 0x10ff, 1, 0x1cbd);
    (0x13f8, 0x13fd, 1, 0x13f0); (0x1c80, 0x1c80, 1, 0x412);
    (0x1c81, 0x1c81, 1, 0x414); (0x1c82, 0x1c82, 1, 0x41e);
    (0x1c83, 0x1c84, 1, 0x421); (0x1c85, 0x1c85, 1, 0x422);
    (0x1c86, 0x1c86, 1, 0x42a); (0x1c87, 0x1c87, 1, 0x462);
    (0x1c88, 0x1c88, 1, 0xa64a); (0x1d79, 0x1d79, 1, 0xa77d);
    (0x1d7d, 0x1d7d, 1, 0x2c63); (0x1d8e, 0x1d8e, 1, 0xa7c6);
    (0x1e01, 0x1e95, 2, 0x1e00); (0x1e9b, 0x1e9b, 1, 0x1e60);
    (0x1ea1, 0x1eff, 2, 0x1ea0); (0x1f00, 0x1f07, 1, 0x1f08);
    (0x1f10, 0x1f15, 1, 0x1f18); (0x1f20, 0x1f27, 1, 0x1f28);
    (0x1f30, 0x1f37, 1, 0x1f38); (0x1f40, 0x1f45, 1, 0x1f48);
    (0x1f51, 0x1f57, 2, 0x1f59); (0x1f60, 0x1f67, 1, 0x1f68);
    (0x1f70, 0x1f71, 1, 0x1fba); (0x1f72, 0x1f75, 1, 0x1fc8);
    (0x1f76, 0x1f77, 1, 0x1fda); (0x1f78, 0x1f79, 1, 0x1ff8);
    (0x1f7a, 0x1f7b, 1, 0x1fea); (0x1f7c, 0x1f7d, 1, 0x1ffa);
    (0x1fb0, 0x1fb1, 1, 0x1fb8); (0x1fbe, 0x1fbe, 1, 0x399);
    (0x1fd0, 0x1fd1, 1, 0x1fd8); (0x1fe0, 0x1fe1, 1, 0x1fe8);
    (0x1fe5, 0x1fe5, 1, 0x1fec); (0x214e, 0x214e, 1, 0x2132);
    (0x2170, 0x217f, 1, 0x2160); (0x2184, 0x2184, 1, 0x2183);
    (0x24d0, 0x24e9, 1, 0x24b6); (0x2c30, 0x2c5f, 1, 0x2c00);
    (0x2c61, 0x2c61, 1, 0x2c60); (0x2c65, 0x2c65, 1, 0x23a);
    (0x2c66, 0x2c66, 1, 0x23e); (0x2c68, 0x2c6c, 2, 0x2c67);
    (0x2c73, 0x2c73, 1, 0x2c72); (0x2c76, 0x2c76, 1, 0x2c75);
    (0x2c81, 0x2ce3, 2, 0x2c80); (0x2cec, 0x2cee, 2, 0x2ceb);
    (0x2cf3, 0x2cf3, 1, 0x2cf2); (0x2d00, 0x2d25, 1, 0x10a0);
    (0x2d27, 0x2d27, 1, 0x10c7); (0x2d2d, 0x2d2d, 1, 0x10cd);
    (0xa641, 0xa66d, 2, 0xa640); (0xa681, 0xa69b, 2, 0xa680);
    (0xa723, 0xa72f, 2, 0xa722); (0xa733, 0xa76f, 2, 0xa732);
    (0xa77a, 0xa77c, 2, 0xa779); (0xa77f, 0xa787, 2, 0xa77e);
    (0xa78c, 0xa78c, 1, 0xa78b); (0xa791, 0xa793, 2, 0xa790);
    (0xa794, 0xa794, 1, 0xa7c4); (0xa797, 0xa7a9, 2, 0xa796);
    (0xa7b5, 0xa7c3, 2, 0xa7b4); (0xa7c8, 0xa7ca, 2, 0xa7c7);
    (0xa7d1, 0xa7d1, 1, 0xa7d0); (0xa7d7, 0xa7d9, 2, 0xa7d6);
    (0xa7f6, 0xa7f6, 1, 0xa7f5); (0xab53, 0xab53, 1, 0xa7b3);
    (0xab70, 0xabbf, 1, 0x13a0); (0xff41, 0xff5a, 1, 0xff21);
    (0x10428, 0x1044f, 1, 0x10400); (0x104d8, 0x104fb, 1, 0x104b0);
    (0x10597, 0x105a1, 1, 0x10570); (0x105a3, 0x105b1, 1, 0x1057c);
    (0x105b3, 0x105b9, 1, 0x1058c); (0x105bb, 0x105bc, 1, 0x10594);
    (0x10cc0, 0x10cf2, 1, 0x10c80); (0x118c0, 0x118df, 1, 0x118a0);
    (0x16e60, 0x16e7f, 1, 0x16e40); (0x1e922, 0x1e943, 1, 0x1e900) ]%N.

Definition upper_special : list (N * list N) :=
  [ (0xdf, [0x53; 0x53]); (0x149, [0x2bc; 0x4e]); (0x1f0, [0x4a; 0x30c]);
    (0x390, [0x399; 0x308; 0x301]); (0x3b0, [0x3a5; 0x308; 0x301]);
    (0x587, [0x535; 0x552]); (0x1e96, [0x48; 0x331]);
    (0x1e97, [0x54; 0x308]); (0x1e98, [0x57; 0x30a]);
    (0x1e99, [0x59; 0x30a]); (0x1e9a, [0x41; 0x2be]);
    (0x1f50, [0x3a5; 0x313]); (0x1f52, [0x3a5; 0x313; 0x300]);
    (0x1f54, [0x3a5; 0x313; 0x301]); (0x1f56, [0x3a5; 0x313; 0x342]);
    (0x1f80, [0x1f08; 0x399]); (0x1f81, [0x1f09; 0x399]);
    (0x1f82, [0x1f0a; 0x399]); (0x1f83, [0x1f0b; 0x399]);
    (0x1f84, [0x1f0c; 0x399]); (0x1f85, [0x1f0d; 0x399]);
    (0x1f86, [0x1f0e; 0x399]); (0x1f87, [0x1f0f; 0x399]);
    (0x1f88, [0x1f08; 0x399]); (0x1f89, [0x1f09; 0x399]);
    (0x1f8a, [0x1f0a; 0x399]); (0x1f8b, [0x1f0b; 0x399]);
    (0x1f8c, [0x1f0c; 0x399]); (0x1f8d, [0x1f0d; 0x399]);
    (0x1f8e, [0x1f0e; 0x399]); (0x1f8f, [0x1f0f; 0x399]);
    (0x1f90, [0x1f28; 0x399]); (0x1f91, [0x1f29; 0x399]);
    (0x1f92, [0x1f2a; 0x399]); (0x1f93, [0x1f2b; 0x399]);
    (0x1f94, [0x1f2c; 0x399]); (0x1f95, [0x1f2d; 0x399]);
    (0x1f96, [0x1f2e; 0x399]); (0x1f97, [0x1f2f; 0x399]);
    (0x1f98, [0x1f28; 0x399]); (0x1f99, [0x1f29; 0x399]);
    (0x1f9a, [0x1f2a; 0x399]); (0x1f9b, [0x1f2b; 0x399]);
    (0x1f9c, [0x1f2c; 0x399]); (0x1f9d, [0x1f2d; 0x399]);
    (0x1f9e, [0x1f2e; 0x399]); (0x1f9f, [0x1f2f; 0x399]);
    (0x1fa0, [0x1f68; 0x399]); (0x1fa1, [0x1f69; 0x399]);
    (0x1fa2, [0x1f6a; 0x399]); (0x1fa3, [0x1f6b; 0x399]);
    (0x1fa4, [0x1f6c; 0x399]); (0x1fa5, [0x1f6d; 0x399]);
    (0x1fa6, [0x1f6e; 0x399]); (0x1fa7, [0x1f6f; 0x399]);
    (0x1fa8, [0x1f68; 0x399]); (0x1fa9, [0x1f69; 0x399]);
    (0x1faa, [0x1f6a; 0x399]); (0x1fab, [0x1f6b; 0x399]);
    (0x1fac, [0x1f6c; 0x399]); (0x1fad, [0x1f6d; 0x399]);
    (0x1fae, [0x1f6e; 0x399]); (0x1faf, [0x1f6f; 0x399]);
    (0x1fb2, [0x1fba; 0x399]); (0x1fb3, [0x391; 0x399]);
    (0x1fb4, [0x386; 0x399]); (0x1fb6, [0x391; 0x342]);
    (0x1fb7, [0x391; 0x342; 0x399]); (0x1fbc, [0x391; 0x399]);
    (0x1fc2, [0x1fca; 0x399]); (0x1fc3, [0x397; 0x399]);
    (0x1fc4, [0x389; 0x399]); (0x1fc6, [0x397; 0x342]);
    (0x1fc7, [0x397; 0x342; 0x399]); (0x1fcc, [0x397; 0x399]);
    (0x1fd2, [0x399; 0x308; 0x300]); (0x1fd3, [0x399; 0x308; 0x301]);
    (0x1fd6, [0x399; 0x342]); (0x1fd7, [0x399; 0x308; 0x342]);
    (0x1fe2, [0x3a5; 0x308; 0x300]); (0x1fe3, [0x3a5; 0x308; 0x301]);
    (0x1fe4, [0x3a1; 0x313]); (0x1fe6, [0x3a5; 0x342]);
    (0x1fe7, [0x3a5; 0x308; 0x342]); (0x1ff2, [0x1ffa; 0x399]);
    (0x1ff3, [0x3a9; 0x399]); (0x1ff4, [0x38f; 0x399]);
    (0x1ff6, [0x3a9; 0x342]); (0x1ff7, [0x3a9; 0x342; 0x399]);
    (0x1ffc, [0x3a9; 0x399]); (0xfb00, [0x46; 0x46]); (0xfb01, [0x46; 0x49]);
    (0xfb02, [0x46; 0x4c]); (0xfb03, [0x46; 0x46; 0x49]);
    (0xfb04, [0x46; 0x46; 0x4c]); (0xfb05, [0x53; 0x54]);
    (0xfb06, [0x53; 0x54]); (0xfb13, [0x544; 0x546]);
    (0xfb14, [0x544; 0x535]); (0xfb15, [0x544; 0x53b]);
    (0xfb16, [0x54e; 0x546]); (0xfb17, [0x544; 0x53d]) ]%N.

Fixpoint upper_in_runs (c : char) (runs : list (N * N * N * N))
  : option char :=
  match runs with
  | [] => None
  | (first, last, step, image) :: runs' =>
      if ((first <=? c) && (c <=? last) && ((c - first) mod step =? 0))%N
      then Some (image + (c - first))%N
      else upper_in_runs c runs'
  end.

Fixpoint upper_in_special (c : char) (table : list (N * list N))
  : option str :=
  match table with
  | [] => None
  | (c', image) :: table' =>
      if (c =? c')%N then Some image else upper_in_special c table'
  end.

Definition upper_char (c : char) : str :=
  if (c <? 128)%N then
    (if (97 <=? c) && (c <=? 122) then [c - 32] else [c])%N
  else
    match upper_in_special c upper_special with
    | Some image => image
    | None =>
        match upper_in_runs c upper_runs with
        | Some c' => [c']
        | None => [c]
        end
    end.

Definition upper (t : str) : str := flat_map upper_char t.

(** Decimal rendering of an integer, as an f-string prints an [int]. *)
Definition str_of_Z (z : Z) : str :=
  lit (NilZero.string_of_int (Z.to_int z)).

(* ================================================================== *)
(** ** Python values, dictionaries, exceptions *)

(** A value as [json.loads] produces it and as the handlers pass it on.
    A float is kept as its IEEE-754 binary64 bit pattern. *)
Inductive pyval : Type :=
| PNone
| PBool (b : bool)
| PInt (z : Z)
| PFloat (bits : Z)
| PStr (t : str)
| PList (l : list pyval)
| PDict (d : list (str * pyval)).

(** A [dict] with string keys, in insertion order. *)
Definition dict := list (str * pyval).

(** [d.get(k)] as an option ([None] when the key is absent). *)
Fixpoint get (k : str) (d : dict) : option pyval :=
  match d with
  | [] => None
  | (k', v) :: d' => if str_eqb k k' then Some v else get k d'
  end.

(** [d.get(k, default)] *)
Definition get_default (k : str) (default : pyval) (d : dict) : pyval :=
  match get k d with
  | Some v => v
  | None => default
  end.

(** [d.get(k)], which is [None] (the Python value) for an absent key. *)
Definition get_or_none (k : str) (d : dict) : pyval := get_default k PNone d.

(** [k in d] *)
Definition has_key (k : str) (d : dict) : bool :=
  match get k d with
  | Some _ => true
  | None => false
  end.

(** Truth value of a Python object, as [if x:] tests it. *)
Definition truthy (v : pyval) : bool :=
  match v with
  | PNone => false
  | PBool b => b
  | PInt z => negb (Z.eqb z 0)
  | PFloat bits => negb (Z.eqb bits 0 || Z.eqb bits 0x8000000000000000)
  | PStr t => match t with [] => false | _ => true end
  | PList l => match l with [] => false | _ => true end
  | PDict d => match d with [] => false | _ => true end
  end.

(** [type(v).__name__] *)
Definition type_name (v : pyval) : str :=
  match v with
  | PNone => lit "NoneType"
  | PBool _ => lit "bool"
  | PInt _ => lit "int"
  | PFloat _ => lit "float"
  | PStr _ => lit "str"
  | PList _ => lit "list"
  | PDict _ => lit "dict"
  end.

(** The [except] clauses of the program name three exception classes
    besides [Exception] itself; [exc_base] says which of them, if any, the
    raised exception is an instance of.  Every exception modelled is an
    instance of [Exception]. *)
Inductive exc_class : Type :=
| TimeoutException      (* httpx.TimeoutException and its subclasses *)
| JSONDecodeError       (* json.JSONDecodeError and its subclasses *)
| TwilioRestException   (* twilio.base.exceptions.TwilioRestException *)
| OtherException.

Record exn : Type := mk_exn {
  exc_type_name : str;      (* type(e).__name__ *)
  exc_str : str;            (* str(e) *)
  exc_base : exc_class
}.

Definition AttributeError (v : pyval) (attr : string) : exn :=
  mk_exn (lit "AttributeError")
         (lit "'" ++ type_name v ++ lit "' object has no attribute '" ++
          lit attr ++ lit "'")
         OtherException.

Definition TypeError (msg : str) : exn :=
  mk_exn (lit "TypeError") msg OtherException.

Definition UnboundLocalError (var : string) : exn :=
  mk_exn (lit "UnboundLocalError")
         (lit "cannot access local variable '" ++ lit var ++
          lit "' where it is not associated with a value")
         OtherException.

Inductive result (A : Type) : Type :=
| Ret (a : A)
| Raise (e : exn).
Arguments Raise {A} e.

(** [len(v)]: defined for strings, lists and dicts, a [TypeError]
    otherwise. *)
Definition py_len (v : pyval) : result nat :=
  match v with
  | PStr t => Ret (List.length t)
  | PList l => Ret (List.length l)
  | PDict d => Ret (List.length d)
  | _ => Raise (TypeError (lit "object of type '" ++ type_name v ++
                           lit "' has no len()"))
  end.

(** [v[:n]]: defined for strings and lists (the slice itself is only
    logged, so only its success matters). *)
Definition py_slice (v : pyval) : result unit :=
  match v with
  | PStr _ | PList _ => Ret tt
  | PDict _ => Raise (TypeError (lit "unhashable type: 'slice'"))
  | _ => Raise (TypeError (lit "'" ++ type_name v ++
                           lit "' object is not subscriptable"))
  end.

(** [v.upper()]: a method of [str] only. *)
Definition py_upper (v : pyval) : result str :=
  match v with
  | PStr t => Ret (upper t)
  | _ => Raise (AttributeError v "upper")
  end.


(* ================================================================== *)
(** ** Providers, configuration and the effect monad *)

(** What is sent to the generative model: the prompt, and the uploaded
    picture when PIL could open it. *)
Inductive content_item : Type :=
| Prompt (t : str)
| Image (data : list Byte.byte).

(** One entry per call that leaves the process. *)
Inductive event : Type :=
| SarvamPost (input : pyval) (source_language_code target_language_code : str)
| GeminiGenerate (content : list content_item)
| TwilioCreate (from_ to body : str).

Definition history := list event.

(** [httpx.Response]: status and body. *)
Record Response : Type := mk_Response {
  status_code : Z;
  response_text : str
}.

(** The generative model's response: its [text] accessor yields the body
    ([None] and the empty string are not told apart by the code) or
    raises. *)
Record GenerateContentResponse : Type := mk_GenerateContentResponse {
  gen_text : result str
}.

(** [fastapi.UploadFile]: reading it yields bytes or raises. *)
Record UploadFile : Type := mk_UploadFile {
  file_read : result (list Byte.byte)
}.

(** Everything the code takes from outside itself: library functions that
    are not re-implemented here, the start-up configuration, and the three
    providers.  A provider's answer may depend on the calls made so far. *)
Record env : Type := mk_env {
  (* libraries *)
  isdigit : char -> bool;                 (* str.isdigit on one character *)
  json_loads : str -> pyval + str;        (* inr msg: JSONDecodeError(msg) *)
  py_str : pyval -> str;                  (* str(v) for a v that is no str *)
  Image_open : list Byte.byte -> bool;    (* does PIL open the bytes? *)
  round_kb : nat -> Z;                    (* bits of round(n / 1024, 2) *)
  (* configuration read at start-up *)
  SARVAM_API_KEY : option str;
  TWILIO_ENABLED : bool;
  TWILIO_WHATSAPP_NUMBER : str;
  (* providers *)
  sarvam_post : history -> pyval -> str -> str -> result Response;
  generate_content : history -> list content_item ->
                     result GenerateContentResponse;
  messages_create : history -> str -> str -> str -> result str
}.

(** A computation returns a value or raises, and extends the history. *)
Definition M (A : Type) : Type := history -> result A * history.

Definition ret {A} (a : A) : M A := fun h => (Ret a, h).

Definition raise {A} (e : exn) : M A := fun h => (Raise e, h).

Definition lift {A} (r : result A) : M A := fun h => (r, h).

Definition bind {A B} (m : M A) (k : A -> M B) : M B :=
  fun h =>
    match m h with
    | (Ret a, h') => k a h'
    | (Raise e, h') => (Raise e, h')
    end.

Notation "x <- m ;; k" := (bind m (fun x => k))
  (at level 61, m at next level, right associativity).

(** A call to a provider: logged, answered by the provider. *)
Definition request {A} (ev : event) (answer : history -> result A) : M A :=
  fun h => (answer h, h ++ [ev]).

(** [try: m  except Exception as e: handler e] *)
Definition try_except {A} (m : M A) (handler : exn -> M A) : M A :=
  fun h =>
    match m h with
    | (Ret a, h') => (Ret a, h')
    | (Raise e, h') => handler e h'
    end.

(** [try: x = m  except Exception as e: return handler e], followed by
    the rest of the function [k x]. *)
Definition try_or_return {A B} (m : M A) (handler : exn -> M B)
           (k : A -> M B) : M B :=
  fun h =>
    match m h with
    | (Ret a, h') => k a h'
    | (Raise e, h') => handler e h'
    end.

(** A [try] block whose first statement binds a local variable that the
    handlers read: they see it ([Some]) only if that statement returned. *)
Definition try_binding {A B} (first : M A) (rest : A -> M B)
           (handler : option A -> exn -> M B) : M B :=
  fun h =>
    match first h with
    | (Raise e, h') => handler None e h'
    | (Ret a, h') => try_except (rest a) (handler (Some a)) h'
    end.

(** "Process image if provided" (the same block in both services): the
    bytes of the upload, or [None] when there is no upload or reading it
    raises. *)
Definition read_image (image : option UploadFile)
  : option (list Byte.byte) :=
  match image with
  | Some f =>
      match file_read f with
      | Ret b => Some b
      | Raise _ => None
      end
  | None => None
  end.

(** An f-string field [{v}]. *)
Definition fmt (E : env) (v : pyval) : str :=
  match v with
  | PStr t => t
  | _ => py_str E v
  end.

(** [d[k] = v] for a key that is present. *)
Fixpoint dict_set (k : str) (v : pyval) (d : dict) : dict :=
  match d with
  | [] => [(k, v)]
  | (k', v') :: d' =>
      if str_eqb k k' then (k', v) :: d' else (k', v') :: dict_set k v d'
  end.

Definition nl : str := [10%N].
Definition dquote : str := [34%N].

(** [v[key]] for a string key: the entry of a dict, a [KeyError] when the
    key is absent, a [TypeError] for every other kind of value. *)
Definition py_getitem (v : pyval) (key : string) : result pyval :=
  match v with
  | PDict d =>
      match get (lit key) d with
      | Some x => Ret x
      | None => Raise (mk_exn (lit "KeyError")
                              (lit "'" ++ lit key ++ lit "'") OtherException)
      end
  | PList _ =>
      Raise (TypeError (lit "list indices must be integers or slices, not str"))
  | PStr _ =>
      Raise (TypeError (lit "string indices must be integers, not 'str'"))
  | _ =>
      Raise (TypeError (lit "'" ++ type_name v ++
                        lit "' object is not subscriptable"))
  end.

(** [v[0]]: the first element of a list or string, an [IndexError] when
    it is empty; a dict from JSON has no key [0]. *)
Definition py_first (v : pyval) : result pyval :=
  match v with
  | PList (x :: _) => Ret x
  | PList [] =>
      Raise (mk_exn (lit "IndexError") (lit "list index out of range")
                    OtherException)
  | PStr (c :: _) => Ret (PStr [c])
  | PStr [] =>
      Raise (mk_exn (lit "IndexError") (lit "string index out of range")
                    OtherException)
  | PDict _ => Raise (mk_exn (lit "KeyError") (lit "0") OtherException)
  | _ =>
      Raise (TypeError (lit "'" ++ type_name v ++
                        lit "' object is not subscriptable"))
  end.

(* ================================================================== *)
(** ** prompts.py *)

Module Prompts.

Definition TRIAGE_PROMPT : str :=
  nl ++ lit "You are an AI-assisted medical triage system for rural India." ++
  nl ++ nl ++ lit "Your tasks:" ++
  nl ++ lit "1. Summarize symptoms clearly" ++
  nl ++ lit "2. Assign risk: LOW, MODERATE, or HIGH" ++
  nl ++ lit "3. Give conservative advice" ++
  nl ++ nl ++ lit "Rules:" ++
  nl ++ lit "- Do NOT diagnose diseases" ++
  nl ++ lit "- If unsure, choose MODERATE" ++
  nl ++ lit "- Safety first" ++
  nl ++ nl ++ lit "Return STRICT JSON only:" ++
  nl ++ lit "{" ++
  nl ++ lit "  " ++ dquote ++ lit "risk" ++ dquote ++ lit ": " ++
        dquote ++ dquote ++ lit "," ++
  nl ++ lit "  " ++ dquote ++ lit "doctor_summary" ++ dquote ++ lit ": " ++
        dquote ++ dquote ++ lit "," ++
  nl ++ lit "  " ++ dquote ++ lit "advice" ++ dquote ++ lit ": " ++
        dquote ++ dquote ++
  nl ++ lit "}" ++ nl.

End Prompts.

(* ================================================================== *)
(** ** llm.py *)

Module Llm.
Section WithEnv.
Variable E : env.

(** The two [except] clauses of [call_llm] (lines 187-207).  [response] is
    the local variable of that name, bound only once [generate_content]
    has returned. *)
Definition call_llm_handlers (response : option GenerateContentResponse)
           (e : exn) : M dict :=
  match exc_base e with
  | JSONDecodeError =>
      (* logger.error(f"... Raw response text: {response.text}") *)
      match response with
      | None => raise (UnboundLocalError "response")
      | Some r =>
          text <- lift (gen_text r) ;;
          ret [ (lit "error", PStr (lit "Failed to parse AI response as JSON"));
                (lit "raw_error", PStr (exc_str e));
                (lit "raw_text", PStr (firstn 500 text)) ]
      end
  | _ =>
      ret [ (lit "error", PStr (lit "Failed to fetch the details"));
            (lit "raw_error", PStr (exc_str e));
            (lit "exception_type", PStr (exc_type_name e)) ]
  end.

(** Steps 1 and 2 of [call_llm]: the prompt, and the picture when there
    are bytes and PIL opens them. *)
Definition build_content (symptom_text : str)
           (image_bytes : option (list Byte.byte)) : list content_item :=
  let prompt :=
    nl ++ lit "    " ++ Prompts.TRIAGE_PROMPT ++
    nl ++ nl ++ lit "    Patient Symptoms:" ++
    nl ++ lit "    " ++ symptom_text ++ nl ++ lit "    " in
  [Prompt prompt] ++
  match image_bytes with
  | Some ((_ :: _) as b) => if Image_open E b then [Image b] else []
  | _ => []
  end.

Definition call_llm (symptom_text : str)
           (image_bytes : option (list Byte.byte)) : M dict :=
  let content := build_content symptom_text image_bytes in
  try_binding
    (request (GeminiGenerate content)
             (fun h => generate_content E h content))
    (fun response =>
       text <- lift (gen_text response) ;;
       if negb (truthy (PStr text)) then
         ret [ (lit "error", PStr (lit "Empty response from AI"));
               (lit "raw_error",
                PStr (lit "Response text was empty or None")) ]
       else
         parsed_response <-
           match json_loads E text with
           | inl v => ret v
           | inr msg =>
               raise (mk_exn (lit "JSONDecodeError") msg JSONDecodeError)
           end ;;
         (* parsed_response.keys() *)
         match parsed_response with
         | PDict d => ret d
         | v => raise (AttributeError v "keys")
         end)
    call_llm_handlers.

End WithEnv.
End Llm.

(* ================================================================== *)
(** ** sarvam_translator.py *)

Module SarvamTranslator.

Definition LANGUAGE_CODES : list (str * str) :=
  [ (lit "English", lit "en-IN");
    ([0x939; 0x93f; 0x902; 0x926; 0x940]%N, lit "hi-IN");
    ([0xba4; 0xbae; 0xbbf; 0xbb4; 0xbcd]%N, lit "ta-IN");
    ([0xc24; 0xc46; 0xc32; 0xc41; 0xc17; 0xc41]%N, lit "te-IN");
    ([0x92e; 0x930; 0x93e; 0x920; 0x940]%N, lit "mr-IN");
    ([0xc95; 0xca8; 0xccd; 0xca8; 0xca1]%N, lit "kn-IN");
    ([0x9ac; 0x9be; 0x982; 0x9b2; 0x9be]%N, lit "bn-IN");
    ([0xa97; 0xac1; 0xa9c; 0xab0; 0xabe; 0xaa4; 0xac0]%N, lit "gu-IN");
    ([0xd2e; 0xd32; 0xd2f; 0xd3e; 0xd33; 0xd02]%N, lit "ml-IN");
    ([0xa2a; 0xa70; 0xa1c; 0xa3e; 0xa2c; 0xa40]%N, lit "pa-IN") ].

(** [LANGUAGE_CODES.get(language_name, "en-IN")] *)
Fixpoint lookup_code (language_name : str) (table : list (str * str)) : str :=
  match table with
  | [] => lit "en-IN"
  | (name, code) :: table' =>
      if str_eqb language_name name then code
      else lookup_code language_name table'
  end.

Definition get_language_code (language_name : str) : str :=
  lookup_code language_name LANGUAGE_CODES.

(** [d[k] = v] on a table of strings: an existing key keeps its place. *)
Fixpoint table_set (k v : str) (table : list (str * str))
  : list (str * str) :=
  match table with
  | [] => [(k, v)]
  | (k', v') :: table' =>
      if str_eqb k k' then (k', v) :: table'
      else (k', v') :: table_set k v table'
  end.

(** [{v: k for k, v in table.items()}], built entry by entry. *)
Fixpoint reverse_mapping (table acc : list (str * str))
  : list (str * str) :=
  match table with
  | [] => acc
  | (k, v) :: table' => reverse_mapping table' (table_set v k acc)
  end.

Definition CODE_TO_LANGUAGE : list (str * str) :=
  reverse_mapping LANGUAGE_CODES [].

(** [CODE_TO_LANGUAGE.get(language_code, "English")] *)
Fixpoint lookup_name (language_code : str) (table : list (str * str))
  : str :=
  match table with
  | [] => lit "English"
  | (code, name) :: table' =>
      if str_eqb language_code code then name
      else lookup_name language_code table'
  end.

Definition get_language_name (language_code : str) : str :=
  lookup_name language_code CODE_TO_LANGUAGE.

Section WithEnv.
Variable E : env.

(** [self.enabled], set by [__init__]: the key is present and not empty. *)
Definition enabled : bool :=
  match SARVAM_API_KEY E with
  | Some (_ :: _) => true
  | _ => false
  end.

(** [response.json()] *)
Definition response_json (response : Response) : M pyval :=
  match json_loads E (response_text response) with
  | inl v => ret v
  | inr msg => raise (mk_exn (lit "JSONDecodeError") msg JSONDecodeError)
  end.

(** The two [except] clauses of [translate] (lines 141-157). *)
Definition translate_handlers (text : pyval) (e : exn) : M dict :=
  match exc_base e with
  | TimeoutException =>
      ret [ (lit "success", PBool false);
            (lit "error", PStr (lit "Translation request timed out"));
            (lit "original_text", text) ]
  | _ =>
      ret [ (lit "success", PBool false);
            (lit "error", PStr (exc_str e));
            (lit "original_text", text) ]
  end.

(** [SarvamTranslator.translate].  [text] is whatever the caller passes;
    the declared type is [str]. *)
Definition translate (text : pyval) (source_lang target_lang : str)
  : M dict :=
  if negb enabled then
    ret [ (lit "success", PBool false);
          (lit "error", PStr (lit "Translation service not configured"));
          (lit "original_text", text) ]
  else
    (* the two logger.debug lines before the try: len(text), text[:100] *)
    _ <- lift (py_len text) ;;
    _ <- lift (py_slice text) ;;
    try_except
      (response <- request (SarvamPost text source_lang target_lang)
                     (fun h => sarvam_post E h text source_lang target_lang) ;;
       if Z.eqb (status_code response) 200 then
         data <- response_json response ;;
         d <- match data with
              | PDict d => ret d
              | v => raise (AttributeError v "get")
              end ;;
         let translated_text :=
           get_default (lit "translated_text") (PStr []) d in
         _ <- lift (py_slice translated_text) ;;
         ret [ (lit "success", PBool true);
               (lit "original_text", text);
               (lit "translated_text", translated_text);
               (lit "source_language", PStr source_lang);
               (lit "target_language", PStr target_lang);
               (lit "detected_language",
                get_or_none (lit "detected_language") d);
               (lit "confidence",
                get_default (lit "confidence")
                            (PFloat 0x3FF0000000000000) d) ]
       else
         let error_msg := response_text response in
         ret [ (lit "success", PBool false);
               (lit "error",
                PStr (lit "API returned status " ++
                      str_of_Z (status_code response)));
               (lit "original_text", text);
               (lit "details", PStr error_msg) ])
      (translate_handlers text).

(** The passthrough result of both derived operations. *)
Definition skipped (text : pyval) : dict :=
  [ (lit "success", PBool true);
    (lit "original_text", text);
    (lit "translated_text", text);
    (lit "source_language", PStr (lit "en-IN"));
    (lit "target_language", PStr (lit "en-IN"));
    (lit "skipped", PBool true) ].

Definition translate_to_english (text : pyval) (source_language : str)
  : M dict :=
  if str_eqb source_language (lit "English") then ret (skipped text)
  else
    let source_code := get_language_code source_language in
    translate text source_code (lit "en-IN").

Definition translate_from_english (text : pyval) (target_language : str)
  : M dict :=
  if str_eqb target_language (lit "English") then ret (skipped text)
  else
    let target_code := get_language_code target_language in
    translate text (lit "en-IN") target_code.

(** [SarvamTranslator.detect_language]: [None] stands for Python's
    [None]. *)
Definition detect_language (text : pyval) : M pyval :=
  (* logger.debug(f"Detecting language for: {text[:50]}...") *)
  _ <- lift (py_slice text) ;;
  result <- translate text (lit "auto") (lit "en-IN") ;;
  if truthy (get_or_none (lit "success") result) then
    ret (get_default (lit "detected_language") (PStr (lit "en-IN")) result)
  else ret PNone.

(** [bidirectional_translate] *)
Definition bidirectional_translate (user_input : pyval)
           (user_language : str) (gemini_response : pyval) : M dict :=
  (* Step 1: Translate user input to English *)
  input_translation <- translate_to_english user_input user_language ;;
  if negb (truthy (get_or_none (lit "success") input_translation)) then
    ret [ (lit "success", PBool false);
          (lit "error", PStr (lit "Failed to translate user input"));
          (lit "input_translation", PDict input_translation) ]
  else
  let english_input :=
    get_default (lit "translated_text") user_input input_translation in
  (* logger.info(f"... User input translated: {english_input[:50]}...") *)
  _ <- lift (py_slice english_input) ;;
  (* Step 2: Translate Gemini response to user language *)
  response_translation <-
    translate_from_english gemini_response user_language ;;
  if negb (truthy (get_or_none (lit "success") response_translation)) then
    ret [ (lit "success", PBool false);
          (lit "error", PStr (lit "Failed to translate response"));
          (lit "english_input", english_input);
          (lit "english_response", gemini_response);
          (lit "translated_response", gemini_response);
          (lit "response_translation", PDict response_translation) ]
  else
  let translated_response :=
    get_default (lit "translated_text") gemini_response
                response_translation in
  (* logger.info(f"... Response translated: {translated_response[:50]}...") *)
  _ <- lift (py_slice translated_response) ;;
  ret [ (lit "success", PBool true);
        (lit "english_input", english_input);
        (lit "english_response", gemini_response);
        (lit "translated_response", translated_response);
        (lit "input_translation", PDict input_translation);
        (lit "response_translation", PDict response_translation);
        (lit "user_language", PStr user_language) ].

End WithEnv.
End SarvamTranslator.

(* ================================================================== *)
(** ** main.py *)

Module Main.

Definition urgent_keywords : list str :=
  [ lit "chest pain"; lit "breathless"; lit "unconscious";
    lit "bleeding heavily"; lit "severe headache"; lit "can't breathe";
    lit "heart attack"; lit "stroke"; lit "poisoning"; lit "severe burn";
    lit "seizure" ].

Definition valid_risks : list str := [ lit "LOW"; lit "MODERATE"; lit "HIGH" ].

Definition rule : str := repeat 0x2501%N 29.

Section WithEnv.
Variable E : env.

(** The report of step 8, before [.strip()]. *)
Definition report (doc_sum : pyval) (risk_level : str) (advice_text : pyval)
  : str :=
  nl ++ lit "AI TRIAGE SUMMARY" ++ nl ++ rule ++ nl ++
  lit "Symptoms Analysis: " ++ fmt E doc_sum ++
  nl ++ nl ++ lit "Risk Level: " ++ risk_level ++
  nl ++ nl ++ lit "Recommended Action:" ++ nl ++ fmt E advice_text ++
  nl ++ nl ++ rule ++ nl ++ [0x2695; 0xfe0f]%N ++
  lit " Note: This is AI-assisted triage, not a medical diagnosis." ++ nl ++
  lit "For definitive care, please consult a qualified healthcare provider." ++
  nl.

(** [POST /analyze] of the single-language service.  [request_id] is the
    clock reading taken on entry. *)
Definition analyze (symptom_text : str) (image : option UploadFile)
           (request_id : str) : M dict :=
  (* 1. Input validation *)
  if Nat.ltb (List.length (strip symptom_text)) 5 then
    ret [ (lit "risk", PStr (lit "LOW"));
          (lit "doctor_summary",
           PStr (lit "Insufficient symptom detail provided."));
          (lit "advice",
           PStr (lit "Please add more details for better guidance."));
          (lit "status", PStr (lit "incomplete_input")) ]
  else
  (* 2. Quick keyword check for emergency cases *)
  let symptom_lower := lower symptom_text in
  let found_urgent :=
    filter (fun kw => contains kw symptom_lower) urgent_keywords in
  if truthy (PList (map PStr found_urgent)) then
    ret [ (lit "risk", PStr (lit "HIGH"));
          (lit "doctor_summary",
           PStr ([0x26a0; 0xfe0f]%N ++
                 lit " Severe symptoms detected requiring urgent attention."));
          (lit "advice",
           PStr ([0x1f6a8]%N ++
                 lit " IMMEDIATE ACTION: Seek emergency care NOW. Call 108 or visit nearest hospital immediately."));
          (lit "status", PStr (lit "emergency_detected"));
          (lit "debug_keywords", PList (map PStr found_urgent)) ]
  else
  (* 3. Process image if provided *)
  let image_bytes := read_image image in
  (* 4. Call Gemini AI for analysis *)
  try_or_return
    (Llm.call_llm E symptom_text image_bytes)
    (fun e =>
       ret [ (lit "risk", PStr (lit "ERROR"));
             (lit "doctor_summary",
              PStr (lit "System temporarily unavailable"));
             (lit "advice",
              PStr (lit "Please try again or consult a doctor directly."));
             (lit "debug", PStr (exc_str e));
             (lit "status", PStr (lit "ai_error"));
             (lit "request_id", PStr request_id) ])
    (fun result =>
  (* 5. Check if AI returned error *)
  if has_key (lit "error") result then
    ret [ (lit "risk", PStr (lit "MODERATE"));
          (lit "doctor_summary",
           PStr (lit "Analysis incomplete: " ++
                 fmt E (get_default (lit "error")
                                    (PStr (lit "Unknown error")) result)));
          (lit "advice",
           PStr (lit "Please consult a medical professional for proper evaluation."));
          (lit "debug", get_or_none (lit "raw_error") result);
          (lit "status", PStr (lit "ai_partial_failure"));
          (lit "request_id", PStr request_id) ]
  else
  (* 6. Safe variable extraction with defaults *)
  let doc_sum :=
    get_default (lit "doctor_summary")
                (PStr (lit "No detailed summary available")) result in
  risk_level <-
    lift (py_upper (get_default (lit "risk") (PStr (lit "MODERATE")) result)) ;;
  let advice_text :=
    get_default (lit "advice")
                (PStr (lit "Please consult a medical professional.")) result in
  (* the two logger.debug lines that print len(doc_sum), len(advice_text) *)
  _ <- lift (py_len doc_sum) ;;
  _ <- lift (py_len advice_text) ;;
  (* 7. Validate risk level *)
  let risk_level :=
    if negb (str_in risk_level valid_risks) then lit "MODERATE"
    else risk_level in
  (* 8. Construct formatted doctor summary *)
  let doctor_summary := strip (report doc_sum risk_level advice_text) in
  ret [ (lit "risk", PStr risk_level);
        (lit "doctor_summary", PStr doctor_summary);
        (lit "advice", advice_text);
        (lit "status", PStr (lit "success"));
        (lit "request_id", PStr request_id);
        (lit "debug_info",
         PDict [ (lit "symptom_length",
                  PInt (Z.of_nat (List.length symptom_text)));
                 (lit "image_provided",
                  PBool (match image with Some _ => true | None => false end));
                 (lit "image_size_kb",
                  match image_bytes with
                  | Some ((_ :: _) as b) => PFloat (round_kb E (List.length b))
                  | _ => PInt 0
                  end) ]) ]).

(** [POST /translate] ([translate_to_hindi]).  [post] is the outcome of
    the request to the translation endpoint of this function (opening
    the client included); it is an argument because this endpoint is the
    only one that talks to that service. *)
Definition translate_to_hindi (text request_id : str)
           (post : result Response) : M dict :=
  try_except
    (response <- lift post ;;
     if Z.eqb (status_code response) 200 then
       data <- SarvamTranslator.response_json E response ;;
       (* data['data']['translations'][0]['translatedText'] *)
       inner <- lift (py_getitem data "data") ;;
       translations <- lift (py_getitem inner "translations") ;;
       first <- lift (py_first translations) ;;
       translated_text <- lift (py_getitem first "translatedText") ;;
       ret [ (lit "success", PBool true);
             (lit "original", PStr text);
             (lit "translated", translated_text);
             (lit "language", PStr (lit "hindi"));
             (lit "request_id", PStr request_id) ]
     else
       ret [ (lit "success", PBool false);
             (lit "error", PStr (lit "Translation service unavailable"));
             (lit "original", PStr text);
             (lit "request_id", PStr request_id) ])
    (fun e =>
       ret [ (lit "success", PBool false);
             (lit "error", PStr (exc_str e));
             (lit "original", PStr text);
             (lit "note", PStr (lit "Fallback to original text"));
             (lit "request_id", PStr request_id) ]).

End WithEnv.
End Main.

(* ================================================================== *)
(** ** main_multilanguage.py *)

Module MainMultilanguage.

Definition DATA_RETENTION_DAYS : Z := 90.
Definition CONSENT_REQUIRED : bool := true.

Definition urgent_keywords : list str :=
  [ lit "chest pain"; lit "breathless"; lit "unconscious";
    lit "bleeding heavily"; lit "severe headache"; lit "can't breathe";
    lit "heart attack"; lit "stroke"; lit "poisoning"; lit "severe burn";
    lit "seizure"; lit "suicide"; lit "overdose" ].

Definition rule : str := repeat 0x2501%N 29.

Section WithEnv.
Variable E : env.

(** Step 3 (lines 215-239): the working text [english_symptoms]. *)
Definition inbound_translation (symptom_text user_language : str)
  : M pyval :=
  if negb (str_eqb user_language (lit "English")) then
    try_except
      (translation_result <-
         SarvamTranslator.translate_to_english E (PStr symptom_text)
                                               user_language ;;
       if truthy (get_or_none (lit "success") translation_result) then
         let english_symptoms :=
           get_default (lit "translated_text") (PStr symptom_text)
                       translation_result in
         (* logger.debug(f"... Translated: {english_symptoms[:100]}...") *)
         _ <- lift (py_slice english_symptoms) ;;
         ret english_symptoms
       else ret (PStr symptom_text))
      (fun _ => ret (PStr symptom_text))
  else ret (PStr symptom_text).

Definition emergency_response (found_urgent : list str) : dict :=
  [ (lit "risk", PStr (lit "HIGH"));
    (lit "doctor_summary",
     PStr ([0x26a0; 0xfe0f]%N ++
           lit " EMERGENCY: Severe symptoms detected requiring IMMEDIATE medical attention."));
    (lit "advice",
     PStr ([0x1f6a8]%N ++
           lit " CALL 108 NOW or visit nearest emergency room immediately. Do not delay."));
    (lit "status", PStr (lit "emergency_detected"));
    (lit "debug_keywords", PList (map PStr found_urgent));
    (lit "emergency_contacts",
     PDict [ (lit "ambulance", PStr (lit "108"));
             (lit "police", PStr (lit "100"));
             (lit "fire", PStr (lit "101")) ]) ].

(** Lines 269-283: the emergency response, its two texts translated when
    the translation succeeds; any exception keeps what is there. *)
Definition translate_emergency (user_language : str) (response : dict)
  : M dict :=
  if negb (str_eqb user_language (lit "English")) then
    try_or_return
      (SarvamTranslator.translate_from_english E
         (get_or_none (lit "doctor_summary") response) user_language)
      (fun _ => ret response)
      (fun trans =>
         let response :=
           if truthy (get_or_none (lit "success") trans) then
             dict_set (lit "doctor_summary")
                      (get_or_none (lit "translated_text") trans) response
           else response in
         try_or_return
           (SarvamTranslator.translate_from_english E
              (get_or_none (lit "advice") response) user_language)
           (fun _ => ret response)
           (fun trans =>
              ret (if truthy (get_or_none (lit "success") trans) then
                     dict_set (lit "advice")
                              (get_or_none (lit "translated_text") trans)
                              response
                   else response)))
  else ret response.

(** Step 8 (lines 329-350): summary and advice in the user's language. *)
Definition translate_response (user_language : str)
           (doc_sum advice_text : pyval) : M (pyval * pyval) :=
  if negb (str_eqb user_language (lit "English")) then
    try_or_return
      (SarvamTranslator.translate_from_english E doc_sum user_language)
      (fun _ => ret (doc_sum, advice_text))
      (fun trans_summary =>
         let doc_sum :=
           if truthy (get_or_none (lit "success") trans_summary) then
             get_default (lit "translated_text") doc_sum trans_summary
           else doc_sum in
         try_or_return
           (SarvamTranslator.translate_from_english E advice_text
                                                    user_language)
           (fun _ => ret (doc_sum, advice_text))
           (fun trans_advice =>
              let advice_text :=
                if truthy (get_or_none (lit "success") trans_advice) then
                  get_default (lit "translated_text") advice_text trans_advice
                else advice_text in
              ret (doc_sum, advice_text)))
  else ret (doc_sum, advice_text).

(** The report of step 9, before [.strip()]. *)
Definition report (doc_sum : pyval) (risk_level : str) (advice_text : pyval)
  : str :=
  nl ++ lit "AI TRIAGE SUMMARY" ++ nl ++ rule ++ nl ++ fmt E doc_sum ++
  nl ++ nl ++ lit "Risk Level: " ++ risk_level ++
  nl ++ nl ++ lit "Recommended Action:" ++ nl ++ fmt E advice_text ++
  nl ++ nl ++ rule ++ nl ++ [0x2695; 0xfe0f]%N ++
  lit " Medical Disclaimer: This is AI-assisted triage, NOT a medical diagnosis." ++
  nl ++
  lit "Always consult a qualified healthcare provider for proper evaluation." ++
  nl ++ nl ++ [0x1f4cb]%N ++
  lit " Data Privacy: Your data is processed securely and will be auto-deleted after " ++
  str_of_Z DATA_RETENTION_DAYS ++ lit " days." ++ nl.

(** Steps 4 to 9, for a working text that is a string. *)
Definition analyze_english (english_symptoms user_language : str)
           (image : option UploadFile) (request_id : str) : M dict :=
  (* 4. Emergency keyword check *)
  let symptom_lower := lower english_symptoms in
  let found_urgent :=
    filter (fun kw => contains kw symptom_lower) urgent_keywords in
  if truthy (PList (map PStr found_urgent)) then
    translate_emergency user_language (emergency_response found_urgent)
  else
  (* 5. Process image if provided *)
  let image_bytes := read_image image in
  (* 6. Call Gemini AI for analysis *)
  try_or_return
    (Llm.call_llm E english_symptoms image_bytes)
    (fun e =>
       ret [ (lit "risk", PStr (lit "ERROR"));
             (lit "doctor_summary",
              PStr (lit "System temporarily unavailable"));
             (lit "advice",
              PStr (lit "Please try again or consult a doctor directly."));
             (lit "status", PStr (lit "ai_error"));
             (lit "request_id", PStr request_id) ])
    (fun result =>
  (* 7. Extract and validate response *)
  if has_key (lit "error") result then
    ret [ (lit "risk", PStr (lit "MODERATE"));
          (lit "doctor_summary", PStr (lit "Analysis incomplete"));
          (lit "advice",
           PStr (lit "Please consult a medical professional."));
          (lit "status", PStr (lit "ai_partial_failure")) ]
  else
  let doc_sum :=
    get_default (lit "doctor_summary")
                (PStr (lit "No detailed summary available")) result in
  risk_level <-
    lift (py_upper (get_default (lit "risk") (PStr (lit "MODERATE")) result)) ;;
  let advice_text :=
    get_default (lit "advice")
                (PStr (lit "Please consult a medical professional.")) result in
  (* 8. Translate response back to user language *)
  translated <- translate_response user_language doc_sum advice_text ;;
  let doc_sum := fst translated in
  let advice_text := snd translated in
  (* 9. Format final response *)
  let doctor_summary := strip (report doc_sum risk_level advice_text) in
  ret [ (lit "risk", PStr risk_level);
        (lit "doctor_summary", PStr doctor_summary);
        (lit "advice", advice_text);
        (lit "status", PStr (lit "success"));
        (lit "request_id", PStr request_id);
        (lit "user_language", PStr user_language);
        (lit "whatsapp_enabled", PBool (TWILIO_ENABLED E));
        (lit "translation_used",
         PBool (negb (str_eqb user_language (lit "English"))));
        (lit "compliance",
         PDict [ (lit "data_retention_days", PInt DATA_RETENTION_DAYS);
                 (lit "anonymized", PBool true);
                 (lit "audit_logged", PBool true) ]) ]).

(** [POST /analyze] of the multi-language service.  The anonymised copy of
    step 2 is computed and never read, so it is left out. *)
Definition analyze (symptom_text user_language : str)
           (image : option UploadFile) (consent_given : bool)
           (request_id : str) : M dict :=
  (* Check consent *)
  if CONSENT_REQUIRED && negb consent_given then
    ret [ (lit "risk", PStr (lit "ERROR"));
          (lit "doctor_summary", PStr (lit "Consent required to proceed"));
          (lit "advice",
           PStr (lit "Please accept the terms and conditions to use this service."));
          (lit "status", PStr (lit "consent_required"));
          (lit "request_id", PStr request_id) ]
  else
  (* 1. Input validation *)
  if Nat.ltb (List.length (strip symptom_text)) 5 then
    ret [ (lit "risk", PStr (lit "LOW"));
          (lit "doctor_summary",
           PStr (lit "Insufficient symptom detail provided."));
          (lit "advice",
           PStr (lit "Please add more details for better guidance."));
          (lit "status", PStr (lit "incomplete_input")) ]
  else
  (* 3. Translate to English if needed *)
  english_symptoms <- inbound_translation symptom_text user_language ;;
  match english_symptoms with
  | PStr english_symptoms =>
      analyze_english english_symptoms user_language image request_id
  | v =>
      (* symptom_lower = english_symptoms.lower() *)
      raise (AttributeError v "lower")
  end.

(** Lines 413-417 of [send_whatsapp]: the digits of the number, prefixed
    with 91 when there are ten of them and they do not start with 91. *)
Definition clean_phone (phone_number : str) : str :=
  let clean_phone := filter (isdigit E) phone_number in
  if negb (startswith clean_phone (lit "91")) &&
     Nat.eqb (List.length clean_phone) 10
  then lit "91" ++ clean_phone
  else clean_phone.

Definition whatsapp_to (phone_number : str) : str :=
  lit "whatsapp:+" ++ clean_phone phone_number.

Definition message_body (message report : option str) : str :=
  match report with
  | Some ((_ :: _) as report) =>
      [0x1f3e5]%N ++ lit " *NIDAAN-AI Medical Report*" ++ nl ++ nl ++
      report ++ nl ++ nl ++ repeat 0x2501%N 23 ++ nl ++
      [0x2695; 0xfe0f]%N ++
      lit " AI-generated report. Consult a healthcare professional." ++ nl ++
      [0x1f4f1]%N ++ lit " Emergency: Call 108" ++ nl
  | _ =>
      match message with
      | Some ((_ :: _) as message) => message
      | _ => lit "Thank you for using NIDAAN-AI."
      end
  end.

(** [POST /send-whatsapp] *)
Definition send_whatsapp (phone_number : str) (message report : option str)
           (user_language request_id : str) : M dict :=
  if negb (TWILIO_ENABLED E) then
    ret [ (lit "success", PBool false);
          (lit "error", PStr (lit "WhatsApp feature not configured"));
          (lit "status", PStr (lit "twilio_not_configured")) ]
  else
    let to := whatsapp_to phone_number in
    let body := message_body message report in
    try_except
      (_ <- request (TwilioCreate (TWILIO_WHATSAPP_NUMBER E) to body)
              (fun h => messages_create E h (TWILIO_WHATSAPP_NUMBER E) to body) ;;
       ret [ (lit "success", PBool true);
             (lit "message", PStr (lit "Report sent successfully!"));
             (lit "status", PStr (lit "sent"));
             (lit "request_id", PStr request_id) ])
      (fun e =>
         match exc_base e with
         | TwilioRestException =>
             ret [ (lit "success", PBool false);
                   (lit "error", PStr (lit "Failed to send WhatsApp message"));
                   (lit "status", PStr (lit "failed")) ]
         | _ => raise e
         end).

End WithEnv.
End MainMultilanguage.

(* ================================================================== *)
(** ** The two services side by side *)

Inductive variant : Type := SingleLanguage | MultiLanguage.

(** The form fields of [POST /analyze]; the single-language service reads
    neither the language nor the consent flag. *)
Record TriageRequest : Type := mk_TriageRequest {
  symptom_text : str;
  user_language : str;
  image : option UploadFile;
  consent_given : bool;
  request_id : str
}.

Definition analyze (v : variant) (E : env) (rq : TriageRequest) : M dict :=
  match v with
  | SingleLanguage =>
      Main.analyze E (symptom_text rq) (image rq) (request_id rq)
  | MultiLanguage =>
      MainMultilanguage.analyze E (symptom_text rq) (user_language rq)
                                (image rq) (consent_given rq) (request_id rq)
  end.

Definition urgent_keywords (v : variant) : list str :=
  match v with
  | SingleLanguage => Main.urgent_keywords
  | MultiLanguage => MainMultilanguage.urgent_keywords
  end.

(** The text the keyword scan and the AI client work on. *)
Definition working_text (v : variant) (E : env) (rq : TriageRequest)
  : M pyval :=
  match v with
  | SingleLanguage => ret (PStr (symptom_text rq))
  | MultiLanguage =>
      MainMultilanguage.inbound_translation E (symptom_text rq)
                                            (user_language rq)
  end.

(** Consent is asked for by the multi-language service only. *)
Definition consent_granted (v : variant) (rq : TriageRequest) : bool :=
  match v with
  | SingleLanguage => true
  | MultiLanguage =>
      negb (MainMultilanguage.CONSENT_REQUIRED && negb (consent_given rq))
  end.

Definition is_ai_call (ev : event) : bool :=
  match ev with
  | GeminiGenerate _ => true
  | _ => false
  end.

(** The calls to the AI provider recorded in a history. *)
Definition ai_calls (h : history) : list event := filter is_ai_call h.

Definition risk_of (d : dict) : option pyval := get (lit "risk") d.
Definition status_of (d : dict) : option pyval := get (lit "status") d.

Definition is_str (v : pyval) : bool :=
  match v with
  | PStr _ => true
  | _ => false
  end.


(** Step 7 of [main.py]: a level outside the three valid ones becomes
    MODERATE. *)
Definition validated (risk_level : str) : str :=
  if negb (str_in risk_level Main.valid_risks) then lit "MODERATE"
  else risk_level.

(** The four ways a pipeline ends once the working text [w] is known and
    history [h] has been reached: the alarm when [w] contains one of the
    [keywords]; otherwise what the AI client does with [w] decides, and
    [final_risk] is what the variant makes of the upper-cased risk. *)
Definition ends_after (E : env) (keywords : list str)
           (final_risk : str -> str) (w : str) (image : option UploadFile)
           (h : history) (d : dict) : Prop :=
  let found := filter (fun kw => contains kw (lower w)) keywords in
  let ai := fst (Llm.call_llm E w (read_image image) h) in
  (found <> [] /\
   risk_of d = Some (PStr (lit "HIGH")) /\
   status_of d = Some (PStr (lit "emergency_detected")))
  \/
  (found = [] /\ (exists e, ai = Raise e) /\
   risk_of d = Some (PStr (lit "ERROR")) /\
   status_of d = Some (PStr (lit "ai_error")))
  \/
  (found = [] /\
   (exists result, ai = Ret result /\ has_key (lit "error") result = true) /\
   risk_of d = Some (PStr (lit "MODERATE")) /\
   status_of d = Some (PStr (lit "ai_partial_failure")))
  \/
  (found = [] /\
   (exists result r,
      ai = Ret result /\ has_key (lit "error") result = false /\
      get_default (lit "risk") (PStr (lit "MODERATE")) result = PStr r /\
      risk_of d = Some (PStr (final_risk (upper r)))) /\
   status_of d = Some (PStr (lit "success"))).

(** The AI result has a risk that is a string, or none. *)
Definition risk_is_str (d : dict) : bool :=
  is_str (get_default (lit "risk") (PStr (lit "MODERATE")) d).

(** Summary, advice and risk are strings where present. *)
Definition fields_are_str (d : dict) : bool :=
  is_str (get_default (lit "doctor_summary") (PStr []) d) &&
  is_str (get_default (lit "advice") (PStr []) d) &&
  risk_is_str d.

Definition is_translation_call (ev : event) : bool :=
  match ev with
  | SarvamPost _ _ _ => true
  | _ => false
  end.

(** At most [n] calls, all of them to the translation provider. *)
Definition translation_calls (n : nat) (evs : list event) : Prop :=
  List.length evs <= n /\ forallb is_translation_call evs = true.

(** The translation provider returns the text it is given: whenever it is
    asked, it answers 200 with a JSON object whose [translated_text] is the
    text of the request, whatever else the object holds. *)
Definition returns_input (E : env) : Prop :=
  forall (h : history) (t src tgt : str),
  exists body data,
    sarvam_post E h (PStr t) src tgt = Ret (mk_Response 200 body) /\
    json_loads E body = inl (PDict data) /\
    get (lit "translated_text") data = Some (PStr t).

(** The AI provider answers a request the same way whenever it is asked. *)
Definition ai_is_a_function (E : env) : Prop :=
  forall (h h' : history) (c : list content_item),
    generate_content E h c = generate_content E h' c.

(** The AI result names one of the three levels, up to case, or none. *)
Definition risk_is_level (d : dict) : bool :=
  match get_default (lit "risk") (PStr (lit "MODERATE")) d with
  | PStr r => str_in (upper r) Main.valid_risks
  | _ => false
  end.

(* ================================================================== *)
(** ** Stand-ins for the providers, used to run the pipelines *)

Module Mock.

Definition ascii_isdigit (c : char) : bool := ((48 <=? c) && (c <=? 57))%N.

(** The body [{"translated_text": "<t>"}]. *)
Definition translated_prefix : str :=
  lit "{" ++ dquote ++ lit "translated_text" ++ dquote ++ lit ": " ++ dquote.
Definition translated_suffix : str := dquote ++ lit "}".
Definition translated_body (t : str) : str :=
  translated_prefix ++ t ++ translated_suffix.

(** The body [{"risk": <risk>, "doctor_summary": "Mild symptoms",
    "advice": "Rest and hydrate"}]. *)
Definition triage_body (risk : str) : str :=
  lit "{" ++ dquote ++ lit "risk" ++ dquote ++ lit ": " ++ risk ++ lit ", " ++
  dquote ++ lit "doctor_summary" ++ dquote ++ lit ": " ++
  dquote ++ lit "Mild symptoms" ++ dquote ++ lit ", " ++
  dquote ++ lit "advice" ++ dquote ++ lit ": " ++
  dquote ++ lit "Rest and hydrate" ++ dquote ++ lit "}".

Definition triage_dict (risk : pyval) : dict :=
  [ (lit "risk", risk);
    (lit "doctor_summary", PStr (lit "Mild symptoms"));
    (lit "advice", PStr (lit "Rest and hydrate")) ].

Definition quoted (t : str) : str := dquote ++ t ++ dquote.

(** A reader for the handful of documents the stand-ins produce. *)
Definition loads (body : str) : pyval + str :=
  if startswith body translated_prefix then
    let rest := skipn (List.length translated_prefix) body in
    inl (PDict [ (lit "translated_text",
                  PStr (firstn (List.length rest - 2) rest)) ])
  else if str_eqb body (triage_body (quoted (lit "LOW"))) then
    inl (PDict (triage_dict (PStr (lit "LOW"))))
  else if str_eqb body (triage_body (quoted (lit "unknown"))) then
    inl (PDict (triage_dict (PStr (lit "unknown"))))
  else if str_eqb body (triage_body (lit "3")) then
    inl (PDict (triage_dict (PInt 3)))
  else if str_eqb body (lit "{}") then inl (PDict [])
  else inr (lit "Expecting value: line 1 column 1 (char 0)").

(** Translation providers. *)
Definition sarvam_echo (h : history) (input : pyval) (src tgt : str)
  : result Response :=
  match input with
  | PStr t => Ret (mk_Response 200 (translated_body t))
  | _ => Ret (mk_Response 400 (lit "Bad Request"))
  end.

Definition sarvam_answers (t : str) (h : history) (input : pyval)
           (src tgt : str) : result Response :=
  Ret (mk_Response 200 (translated_body t)).

Definition sarvam_status (code : Z) (h : history) (input : pyval)
           (src tgt : str) : result Response :=
  Ret (mk_Response code (lit "Internal Server Error")).

(** AI providers. *)
Definition gemini_answers (body : str) (h : history)
           (content : list content_item) : result GenerateContentResponse :=
  Ret (mk_GenerateContentResponse (Ret body)).

Definition gemini_raises (e : exn) (h : history)
           (content : list content_item) : result GenerateContentResponse :=
  Raise e.

Definition provide
  (sarvam : history -> pyval -> str -> str -> result Response)
  (gemini : history -> list content_item -> result GenerateContentResponse)
  : env :=
  {| isdigit := ascii_isdigit;
     json_loads := loads;
     py_str := fun _ => lit "?";
     Image_open := fun _ => true;
     round_kb := fun _ => 0%Z;
     SARVAM_API_KEY := Some (lit "sk-test");
     TWILIO_ENABLED := true;
     TWILIO_WHATSAPP_NUMBER := lit "whatsapp:+14155238886";
     sarvam_post := sarvam;
     generate_content := gemini;
     messages_create := fun _ _ _ _ => Ret (lit "SM0001") |}.

Definition hindi : str := [0x939; 0x93f; 0x902; 0x926; 0x940]%N.
Definition rid : str := lit "20260101_000000_000000".

End Mock.

(* ================================================================== *)
(** * Properties *)

Unset Implicit Arguments.

(** ** Strings and dictionaries *)

Lemma str_eqb_refl (a : str) : str_eqb a a = true.
Proof.
  induction a as [|x a IH]; simpl; [reflexivity|].
  now rewrite N.eqb_refl, IH.
Qed.

Lemma str_eqb_eq (a b : str) : str_eqb a b = true <-> a = b.
Proof.
  split; [|intros ->; apply str_eqb_refl].
  revert b; induction a as [|x a IH]; destruct b as [|y b]; simpl;
    try discriminate; [reflexivity|].
  intros H. apply andb_true_iff in H as [Hx Ha].
  apply N.eqb_eq in Hx. apply IH in Ha. now subst.
Qed.

Lemma startswith_app (p t : str) : startswith (p ++ t) p = true.
Proof.
  induction p as [|x p IH]; simpl; [reflexivity|].
  now rewrite N.eqb_refl, IH.
Qed.

Lemma contains_startswith (p t : str) :
  startswith t p = true -> contains p t = true.
Proof. intros H. destruct t; simpl; rewrite H; reflexivity. Qed.

Lemma contains_app (p pre suf : str) : contains p (pre ++ p ++ suf) = true.
Proof.
  induction pre as [|x pre IH]; simpl.
  - apply contains_startswith, startswith_app.
  - rewrite IH. apply orb_true_r.
Qed.

Lemma lower_app (a b : str) : lower (a ++ b) = lower a ++ lower b.
Proof. unfold lower. apply flat_map_app. Qed.

(** A text in which a phrase occurs in some spelling that lower-cases to
    the phrase has the phrase in its lower-cased form. *)
Lemma contains_lower (kw pre mid suf : str) :
  lower mid = kw -> contains kw (lower (pre ++ mid ++ suf)) = true.
Proof.
  intros <-. rewrite !lower_app. apply contains_app.
Qed.

Lemma filter_hit {A} (f : A -> bool) (x : A) (l : list A) :
  In x l -> f x = true -> filter f l <> [].
Proof.
  intros Hin Hf Hnil.
  assert (Hx : In x (filter f l)) by (apply filter_In; auto).
  rewrite Hnil in Hx. exact Hx.
Qed.

Lemma truthy_keywords (found : list str) :
  truthy (PList (map PStr found)) = match found with [] => false | _ => true end.
Proof. destruct found; reflexivity. Qed.

Lemma ai_calls_app (h1 h2 : history) :
  ai_calls (h1 ++ h2) = ai_calls h1 ++ ai_calls h2.
Proof. unfold ai_calls. apply filter_app. Qed.

(** Unfolding of the monad's combinators. *)
Ltac run :=
  unfold try_binding, try_or_return, try_except, bind, request, lift, raise,
         ret in *.

(* ------------------------------------------------------------------ *)
(** ** The translation adapter *)

Section Translation.
Variable E : env.

(** A handler of [translate] turns every exception into a failure result
    that carries the text. *)
Lemma translate_handlers_ret (text : pyval) (e : exn) (h : history) :
  exists d,
    SarvamTranslator.translate_handlers text e h = (Ret d, h) /\
    get (lit "success") d = Some (PBool false) /\
    get (lit "original_text") d = Some text /\
    get (lit "error") d
      = Some (PStr (match exc_base e with
                    | TimeoutException => lit "Translation request timed out"
                    | _ => exc_str e
                    end)).
Proof.
  unfold SarvamTranslator.translate_handlers.
  destruct (exc_base e); eexists; repeat split; reflexivity.
Qed.

Lemma translate_handlers_history (text : pyval) (e : exn) (h : history) :
  snd (SarvamTranslator.translate_handlers text e h) = h.
Proof.
  destruct (translate_handlers_ret text e h) as (d & Hd & _).
  now rewrite Hd.
Qed.

(** The adapter contacts no provider other than the translation one, and
    only appends to the history. *)
Lemma translate_history (text : pyval) (src tgt : str) (h : history) :
  exists evs,
    snd (SarvamTranslator.translate E text src tgt h) = h ++ evs /\
    ai_calls evs = [].
Proof.
  unfold SarvamTranslator.translate.
  destruct (SarvamTranslator.enabled E); simpl.
  2:{ exists []. now rewrite app_nil_r. }
  run.
  destruct (py_len text); simpl; [|exists []; now rewrite app_nil_r].
  destruct (py_slice text); simpl; [|exists []; now rewrite app_nil_r].
  exists [SarvamPost text src tgt]. split; [|reflexivity].
  destruct (sarvam_post E h text src tgt) as [resp|e]; simpl.
  - destruct (Z.eqb (status_code resp) 200); simpl; [|reflexivity].
    unfold SarvamTranslator.response_json. run.
    destruct (json_loads E (response_text resp)) as [v|msg]; simpl;
      [|reflexivity].
    destruct v; simpl; try reflexivity.
    destruct (py_slice _) as [|e]; simpl;
      [reflexivity | apply translate_handlers_history].
  - apply translate_handlers_history.
Qed.

End Translation.


(** C6.  [translate] never raises on a text: it returns a dictionary that
    carries the original text.  When the service is not configured the
    dictionary is the "not configured" failure and nothing is sent.
    Otherwise exactly one request is sent, and every failure gives
    [success = False]: a timeout, any other exception of the request, a
    status other than 200 (so every status outside 2xx), and any exception
    raised after a 200 while the answer is read (a body that is not JSON, a
    JSON value that is not an object, a [translated_text] that cannot be
    sliced), the error being the exception's message.  [success] is true
    only for a 200 whose body is a JSON object with a sliceable
    [translated_text]. *)
Theorem translate_never_raises
  (E : env) (text source_lang target_lang : str) (h : history) :
  exists d h',
    SarvamTranslator.translate E (PStr text) source_lang target_lang h
      = (Ret d, h') /\
    get (lit "original_text") d = Some (PStr text) /\
    (SarvamTranslator.enabled E = false ->
       h' = h /\
       get (lit "success") d = Some (PBool false) /\
       get (lit "error") d
         = Some (PStr (lit "Translation service not configured"))) /\
    (SarvamTranslator.enabled E = true ->
       h' = h ++ [SarvamPost (PStr text) source_lang target_lang] /\
       match sarvam_post E h (PStr text) source_lang target_lang with
       | Raise e =>
           get (lit "success") d = Some (PBool false) /\
           get (lit "error") d
             = Some (PStr (match exc_base e with
                           | TimeoutException =>
                               lit "Translation request timed out"
                           | _ => exc_str e
                           end))
       | Ret response =>
           ((status_code response < 200 \/ 300 <= status_code response)%Z ->
            get (lit "success") d = Some (PBool false) /\
            get (lit "error") d
              = Some (PStr (lit "API returned status " ++
                            str_of_Z (status_code response))) /\
            get (lit "details") d = Some (PStr (response_text response))) /\
           (status_code response <> 200%Z ->
            get (lit "success") d = Some (PBool false)) /\
           (status_code response = 200%Z ->
            match json_loads E (response_text response) with
            | inr msg =>
                get (lit "success") d = Some (PBool false) /\
                get (lit "error") d = Some (PStr msg)
            | inl (PDict data) =>
                match py_slice (get_default (lit "translated_text")
                                            (PStr []) data) with
                | Raise e =>
                    get (lit "success") d = Some (PBool false) /\
                    get (lit "error") d = Some (PStr (exc_str e))
                | Ret _ =>
                    get (lit "success") d = Some (PBool true) /\
                    get (lit "translated_text") d
                      = Some (get_default (lit "translated_text")
                                          (PStr []) data)
                end
            | inl v =>
                get (lit "success") d = Some (PBool false) /\
                get (lit "error") d
                  = Some (PStr (exc_str (AttributeError v "get")))
            end)
       end).
Proof.
  unfold SarvamTranslator.translate.
  destruct (SarvamTranslator.enabled E) eqn:Hen; simpl.
  2:{ run. eexists; eexists. split; [reflexivity|].
      split; [reflexivity|]. split; [|discriminate].
      intros _. repeat split; reflexivity. }
  run. simpl.
  set (h1 := h ++ [SarvamPost (PStr text) source_lang target_lang]).
  destruct (sarvam_post E h (PStr text) source_lang target_lang)
    as [resp|e] eqn:Hpost; simpl.
  2:{ destruct (translate_handlers_ret (PStr text) e h1)
        as (d & Hd & Hs & Ho & He).
      exists d, h1. rewrite Hd.
      split; [reflexivity|]. split; [exact Ho|]. split; [discriminate|].
      intros _. split; [reflexivity|]. split; assumption. }
  destruct (Z.eqb (status_code resp) 200) eqn:Hst; simpl.
  2:{ apply Z.eqb_neq in Hst.
      eexists; eexists. split; [reflexivity|].
      split; [reflexivity|]. split; [discriminate|].
      intros _. split; [reflexivity|].
      split; [intros _; repeat split; reflexivity|].
      split; [intros _; reflexivity|].
      intros H200. contradiction. }
  apply Z.eqb_eq in Hst.
  (* a failure inside the try block, after a response with status 200 *)
  assert (Hcaught : forall (e : exn) (P : dict -> Prop),
    exc_base e <> TimeoutException ->
    (forall d, get (lit "success") d = Some (PBool false) ->
               get (lit "error") d = Some (PStr (exc_str e)) -> P d) ->
    exists d h',
      SarvamTranslator.translate_handlers (PStr text) e h1 = (Ret d, h') /\
      get (lit "original_text") d = Some (PStr text) /\
      (true = false ->
         h' = h /\
         get (lit "success") d = Some (PBool false) /\
         get (lit "error") d
           = Some (PStr (lit "Translation service not configured"))) /\
      (true = true ->
         h' = h1 /\
         ((status_code resp < 200 \/ 300 <= status_code resp)%Z ->
          get (lit "success") d = Some (PBool false) /\
          get (lit "error") d
            = Some (PStr (lit "API returned status " ++
                          str_of_Z (status_code resp))) /\
          get (lit "details") d = Some (PStr (response_text resp))) /\
         (status_code resp <> 200%Z ->
          get (lit "success") d = Some (PBool false)) /\
         (status_code resp = 200%Z -> P d))).
  { intros e P Hbase HP.
    destruct (translate_handlers_ret (PStr text) e h1)
      as (d & Hd & Hs & Ho & He).
    exists d, h1. split; [exact Hd|]. split; [exact Ho|].
    split; [discriminate|]. intros _. split; [reflexivity|].
    split; [lia|]. split; [intros _; exact Hs|].
    intros _. apply HP; [exact Hs|].
    rewrite He. destruct (exc_base e); try reflexivity. contradiction. }
  unfold SarvamTranslator.response_json. run.
  destruct (json_loads E (response_text resp)) as [v|msg]; simpl.
  2:{ apply Hcaught; [discriminate|]. intros d Hs He. split; assumption. }
  destruct v; simpl;
    try (apply Hcaught; [discriminate|];
         intros d Hs He; split; assumption).
  destruct (py_slice (get_default (lit "translated_text") (PStr []) d))
    as [[]|e] eqn:Hslice; simpl.
  - eexists; eexists. split; [reflexivity|].
    split; [reflexivity|]. split; [discriminate|].
    intros _. split; [reflexivity|].
    split; [lia|]. split; [intros Hne; contradiction|].
    intros _. split; reflexivity.
  - apply Hcaught.
    + unfold py_slice in Hslice.
      destruct (get_default (lit "translated_text") (PStr []) d);
        try discriminate; injection Hslice as <-; discriminate.
    + intros d0 Hs He. split; assumption.
Qed.

(** C9.  With "English" as the named language, [translate_to_english] and
    [translate_from_english] send nothing (the history is unchanged) and
    return [success = True], the text itself as [translated_text], and
    [skipped = True]. *)
Theorem english_is_passed_through (E : env) (text : str) (h : history) :
  exists d,
    SarvamTranslator.translate_to_english E (PStr text) (lit "English") h
      = (Ret d, h) /\
    SarvamTranslator.translate_from_english E (PStr text) (lit "English") h
      = (Ret d, h) /\
    get (lit "success") d = Some (PBool true) /\
    get (lit "translated_text") d = Some (PStr text) /\
    get (lit "skipped") d = Some (PBool true).
Proof.
  exists (SarvamTranslator.skipped (PStr text)).
  repeat split; reflexivity.
Qed.

(* ------------------------------------------------------------------ *)
(** ** The messaging endpoint *)

(** Let [digits] be the digit characters of the phone number, in order.
    If there are exactly ten of them and they do not start with 91, the
    number becomes 91 followed by the digits, the destination is
    [whatsapp:+91<digits>], and that is the address the message is sent
    to. *)
Lemma local_number_gets_calling_code
  (E : env) (phone_number : str) (message report : option str)
  (user_language request_id : str) (h : history) :
  let digits := filter (isdigit E) phone_number in
  startswith digits (lit "91") = false ->
  List.length digits = 10 ->
  MainMultilanguage.clean_phone E phone_number = lit "91" ++ digits /\
  MainMultilanguage.whatsapp_to E phone_number
    = lit "whatsapp:+" ++ lit "91" ++ digits /\
  (TWILIO_ENABLED E = true ->
   snd (MainMultilanguage.send_whatsapp E phone_number message report
                                        user_language request_id h)
     = h ++ [TwilioCreate (TWILIO_WHATSAPP_NUMBER E)
                          (lit "whatsapp:+" ++ lit "91" ++ digits)
                          (MainMultilanguage.message_body message report)]).
Proof.
  intros digits Hcode Hlen.
  assert (Hclean : MainMultilanguage.clean_phone E phone_number
                   = lit "91" ++ digits).
  { unfold MainMultilanguage.clean_phone. fold digits.
    rewrite Hcode, Hlen. reflexivity. }
  assert (Hto : MainMultilanguage.whatsapp_to E phone_number
                = lit "whatsapp:+" ++ lit "91" ++ digits).
  { unfold MainMultilanguage.whatsapp_to. now rewrite Hclean. }
  repeat split; [exact Hclean | exact Hto |].
  intros Hen. unfold MainMultilanguage.send_whatsapp.
  rewrite Hen, Hto. simpl. run.
  destruct (messages_create E h _ _ _) as [sid|e]; simpl; [reflexivity|].
  destruct (exc_base e); reflexivity.
Qed.

Lemma local_number_gets_calling_code_witness :
  MainMultilanguage.whatsapp_to
    (Mock.provide Mock.sarvam_echo (Mock.gemini_answers []))
    (lit "(987) 654-3210")
  = lit "whatsapp:+919876543210".
Proof.
  apply (local_number_gets_calling_code
           (Mock.provide Mock.sarvam_echo (Mock.gemini_answers []))
           (lit "(987) 654-3210") None None (lit "English") Mock.rid []);
    reflexivity.
Defined.

(** C10.  A ten-digit local number whose first two digits are 9 and 1 is
    taken for a number that already carries the calling code.  Let
    [digits] be the digit characters of the phone number, in order.  If
    there are exactly ten of them and they start with 91, nothing is
    prefixed: the destination is [whatsapp:+<digits>], which is not
    [whatsapp:+91<digits>], and that is the address the message is sent
    to. *)
Theorem local_number_starting_with_91_is_not_prefixed
  (E : env) (phone_number : str) (message report : option str)
  (user_language request_id : str) (h : history) :
  let digits := filter (isdigit E) phone_number in
  List.length digits = 10 ->
  startswith digits (lit "91") = true ->
  MainMultilanguage.clean_phone E phone_number = digits /\
  MainMultilanguage.whatsapp_to E phone_number = lit "whatsapp:+" ++ digits /\
  MainMultilanguage.whatsapp_to E phone_number
    <> lit "whatsapp:+" ++ lit "91" ++ digits /\
  (TWILIO_ENABLED E = true ->
   snd (MainMultilanguage.send_whatsapp E phone_number message report
                                        user_language request_id h)
     = h ++ [TwilioCreate (TWILIO_WHATSAPP_NUMBER E)
                          (lit "whatsapp:+" ++ digits)
                          (MainMultilanguage.message_body message report)]).
Proof.
  intros digits Hlen Hcode.
  assert (Hclean : MainMultilanguage.clean_phone E phone_number = digits).
  { unfold MainMultilanguage.clean_phone. fold digits.
    rewrite Hcode. reflexivity. }
  assert (Hto : MainMultilanguage.whatsapp_to E phone_number
                = lit "whatsapp:+" ++ digits).
  { unfold MainMultilanguage.whatsapp_to. now rewrite Hclean. }
  split; [exact Hclean|]. split; [exact Hto|]. split.
  - rewrite Hto. intros Heq. apply app_inv_head in Heq.
    apply (f_equal (@List.length char)) in Heq.
    rewrite length_app, Hlen in Heq. simpl in Heq. lia.
  - intros Hen. unfold MainMultilanguage.send_whatsapp.
    rewrite Hen, Hto. simpl. run.
    destruct (messages_create E h _ _ _) as [sid|e]; simpl; [reflexivity|].
    destruct (exc_base e); reflexivity.
Qed.

Lemma local_number_starting_with_91_is_not_prefixed_witness :
  let E := Mock.provide Mock.sarvam_echo (Mock.gemini_answers []) in
  MainMultilanguage.whatsapp_to E (lit "91234 56789")
    = lit "whatsapp:+9123456789" /\
  MainMultilanguage.whatsapp_to E (lit "91234 56789")
    <> lit "whatsapp:+919123456789" /\
  snd (MainMultilanguage.send_whatsapp E (lit "91234 56789") None None
                                       (lit "English") Mock.rid [])
    = [TwilioCreate (lit "whatsapp:+14155238886")
                    (lit "whatsapp:+9123456789")
                    (lit "Thank you for using NIDAAN-AI.")].
Proof.
  intros E.
  destruct (local_number_starting_with_91_is_not_prefixed
              E (lit "91234 56789") None None (lit "English") Mock.rid [])
    as (_ & Hto & Hne & Hsend); [reflexivity | reflexivity |].
  split; [exact Hto|]. split; [exact Hne|]. exact (Hsend eq_refl).
Defined.

(* ------------------------------------------------------------------ *)
(** ** Input validation *)

(** C2, as amended.  When consent is granted where the service asks for it
    (the multi-language variant), a symptom text whose trimmed length is
    below 5 yields risk LOW and status incomplete_input in both variants,
    and the history is unchanged: no provider is contacted. *)
Theorem short_text_is_incomplete
  (v : variant) (E : env) (rq : TriageRequest) (h : history) :
  consent_granted v rq = true ->
  List.length (strip (symptom_text rq)) < 5 ->
  exists d,
    analyze v E rq h = (Ret d, h) /\
    risk_of d = Some (PStr (lit "LOW")) /\
    status_of d = Some (PStr (lit "incomplete_input")).
Proof.
  intros Hc Hlen. apply Nat.ltb_lt in Hlen.
  destruct v; simpl in *.
  - unfold Main.analyze. rewrite Hlen.
    eexists. repeat split; reflexivity.
  - unfold MainMultilanguage.analyze.
    apply negb_true_iff in Hc. rewrite Hc, Hlen.
    eexists. repeat split; reflexivity.
Qed.

Lemma short_text_is_incomplete_witness :
  exists d,
    analyze MultiLanguage
            (Mock.provide Mock.sarvam_echo (Mock.gemini_answers []))
            (mk_TriageRequest (lit "  ow  ") Mock.hindi None true Mock.rid) []
      = (Ret d, []) /\
    risk_of d = Some (PStr (lit "LOW")) /\
    status_of d = Some (PStr (lit "incomplete_input")).
Proof.
  apply (short_text_is_incomplete MultiLanguage
           (Mock.provide Mock.sarvam_echo (Mock.gemini_answers []))
           (mk_TriageRequest (lit "  ow  ") Mock.hindi None true Mock.rid) []).
  - reflexivity.
  - vm_compute. lia.
Defined.

(** C2 as stated fails in the multi-language variant: without consent a
    short text is answered by the consent gate, with risk ERROR and status
    consent_required. *)
Lemma short_text_without_consent :
  let rq := mk_TriageRequest (lit "hi") (lit "English") None false Mock.rid in
  let E := Mock.provide Mock.sarvam_echo (Mock.gemini_answers []) in
  List.length (strip (symptom_text rq)) < 5 /\
  exists d,
    analyze MultiLanguage E rq [] = (Ret d, []) /\
    risk_of d = Some (PStr (lit "ERROR")) /\
    status_of d = Some (PStr (lit "consent_required")) /\
    risk_of d <> Some (PStr (lit "LOW")) /\
    status_of d <> Some (PStr (lit "incomplete_input")).
Proof.
  split; [vm_compute; lia|].
  eexists. split; [reflexivity|].
  repeat split; try reflexivity; vm_compute; discriminate.
Qed.

(* ------------------------------------------------------------------ *)
(** ** The emergency short-circuit *)

Section Emergency.
Variable E : env.

Lemma translate_to_english_history (text : pyval) (lang : str) (h : history) :
  exists evs,
    snd (SarvamTranslator.translate_to_english E text lang h) = h ++ evs /\
    ai_calls evs = [].
Proof.
  unfold SarvamTranslator.translate_to_english.
  destruct (str_eqb lang (lit "English")).
  - exists []. now rewrite app_nil_r.
  - apply translate_history.
Qed.

Lemma translate_from_english_history (text : pyval) (lang : str)
      (h : history) :
  exists evs,
    snd (SarvamTranslator.translate_from_english E text lang h) = h ++ evs /\
    ai_calls evs = [].
Proof.
  unfold SarvamTranslator.translate_from_english.
  destruct (str_eqb lang (lit "English")).
  - exists []. now rewrite app_nil_r.
  - apply translate_history.
Qed.

(** The inbound translation contacts the translation provider only. *)
Lemma inbound_translation_history (text lang : str) (h : history) :
  exists evs,
    snd (MainMultilanguage.inbound_translation E text lang h) = h ++ evs /\
    ai_calls evs = [].
Proof.
  unfold MainMultilanguage.inbound_translation.
  destruct (negb (str_eqb lang (lit "English")));
    [|exists []; now rewrite app_nil_r].
  run.
  destruct (translate_to_english_history (PStr text) lang h)
    as (evs & Hh & Hai).
  destruct (SarvamTranslator.translate_to_english E (PStr text) lang h)
    as [[d|e] h1]; simpl in Hh; subst h1; exists evs; (split; [|exact Hai]).
  - destruct (truthy _); simpl; [|reflexivity].
    destruct (py_slice _); reflexivity.
  - reflexivity.
Qed.

(** Translating the emergency response changes neither its risk nor its
    status, never raises, and contacts the translation provider only. *)
Lemma translate_emergency_keeps_alarm (lang : str) (found : list str)
      (h : history) :
  exists d evs,
    MainMultilanguage.translate_emergency E lang
      (MainMultilanguage.emergency_response found) h = (Ret d, h ++ evs) /\
    ai_calls evs = [] /\
    risk_of d = Some (PStr (lit "HIGH")) /\
    status_of d = Some (PStr (lit "emergency_detected")).
Proof.
  unfold MainMultilanguage.translate_emergency.
  destruct (negb (str_eqb lang (lit "English"))).
  2:{ exists (MainMultilanguage.emergency_response found), [].
      rewrite app_nil_r. repeat split; reflexivity. }
  run.
  match goal with
  | |- context [SarvamTranslator.translate_from_english E ?t lang h] =>
      destruct (translate_from_english_history t lang h) as (evs1 & Hh1 & Ha1);
      destruct (SarvamTranslator.translate_from_english E t lang h)
        as [[trans1|e1] h1]
  end; simpl in Hh1; subst h1.
  2:{ eexists; exists evs1. repeat split; [exact Ha1 | reflexivity..]. }
  assert (Hsecond : forall response : dict,
    risk_of response = Some (PStr (lit "HIGH")) ->
    status_of response = Some (PStr (lit "emergency_detected")) ->
    (forall v, risk_of (dict_set (lit "advice") v response)
               = Some (PStr (lit "HIGH"))) ->
    (forall v, status_of (dict_set (lit "advice") v response)
               = Some (PStr (lit "emergency_detected"))) ->
    exists d evs,
      (let (r, h') :=
         SarvamTranslator.translate_from_english E
           (get_or_none (lit "advice") response) lang (h ++ evs1) in
       match r with
       | Ret trans =>
           (Ret (if truthy (get_or_none (lit "success") trans)
                 then dict_set (lit "advice")
                        (get_or_none (lit "translated_text") trans) response
                 else response), h')
       | Raise _ => (Ret response, h')
       end) = (Ret d, h ++ evs) /\
      ai_calls evs = [] /\
      risk_of d = Some (PStr (lit "HIGH")) /\
      status_of d = Some (PStr (lit "emergency_detected"))).
  { intros response Hr Hs Hr' Hs'.
    destruct (translate_from_english_history
                (get_or_none (lit "advice") response) lang (h ++ evs1))
      as (evs2 & Hh2 & Ha2).
    destruct (SarvamTranslator.translate_from_english E _ lang (h ++ evs1))
      as [[trans2|e2] h2]; simpl in Hh2; subst h2;
      eexists; exists (evs1 ++ evs2); rewrite app_assoc;
      (split; [reflexivity|]); rewrite ai_calls_app, Ha1, Ha2;
      (split; [reflexivity|]).
    - destruct (truthy _); auto.
    - auto. }
  destruct (truthy (get_or_none (lit "success") trans1));
    apply Hsecond; intros; reflexivity.
Qed.

End Emergency.

(** C1, as amended.  In both variants, for a request that passes the
    consent gate and the length check: if the working text (the symptom
    text itself in the single-language variant; in the multi-language
    variant the result of the inbound translation stage) contains a
    configured urgent phrase in any spelling that lower-cases to it, the
    response has risk HIGH and status emergency_detected and the AI
    provider is not called, whatever the providers would have answered. *)
Theorem urgent_phrase_short_circuits
  (v : variant) (E : env) (rq : TriageRequest) (h h1 : history)
  (w kw pre mid suf : str) :
  consent_granted v rq = true ->
  5 <= List.length (strip (symptom_text rq)) ->
  working_text v E rq h = (Ret (PStr w), h1) ->
  In kw (urgent_keywords v) ->
  w = pre ++ mid ++ suf ->
  lower mid = kw ->
  exists d h2,
    analyze v E rq h = (Ret d, h2) /\
    risk_of d = Some (PStr (lit "HIGH")) /\
    status_of d = Some (PStr (lit "emergency_detected")) /\
    ai_calls h2 = ai_calls h.
Proof.
  intros Hc Hlen Hw Hin Hsplit Hlow.
  assert (Hlen' : Nat.ltb (List.length (strip (symptom_text rq))) 5 = false)
    by (apply Nat.ltb_ge; exact Hlen).
  assert (Hhit : forall kws, In kw kws ->
            truthy (PList (map PStr
              (filter (fun kw => contains kw (lower w)) kws))) = true).
  { intros kws Hkw. rewrite truthy_keywords.
    destruct (filter _ kws) eqn:Hf; [|reflexivity].
    exfalso. revert Hf. apply (filter_hit _ kw); [exact Hkw|].
    subst w. now apply contains_lower. }
  destruct v; unfold analyze, urgent_keywords, working_text, consent_granted
    in *.
  - unfold ret in Hw. injection Hw as <- <-.
    unfold Main.analyze. rewrite Hlen', (Hhit _ Hin).
    eexists; eexists. repeat split; reflexivity.
  - unfold MainMultilanguage.analyze.
    apply negb_true_iff in Hc. rewrite Hc, Hlen'.
    destruct (inbound_translation_history E (symptom_text rq)
                (user_language rq) h) as (evs & Hh & Hai).
    unfold bind at 1. rewrite Hw in *. simpl in Hh. subst h1.
    unfold MainMultilanguage.analyze_english.
    rewrite (Hhit _ Hin).
    destruct (translate_emergency_keeps_alarm E (user_language rq)
                (filter (fun kw => contains kw (lower w))
                        MainMultilanguage.urgent_keywords) (h ++ evs))
      as (d & evs' & Hd & Hai' & Hr & Hs).
    exists d, ((h ++ evs) ++ evs'). rewrite Hd.
    repeat split; try assumption.
    rewrite !ai_calls_app, Hai, Hai', !app_nil_r. reflexivity.
Qed.

Lemma urgent_phrase_short_circuits_witness :
  exists d h2,
    analyze MultiLanguage
      (Mock.provide (Mock.sarvam_status 500)
                    (Mock.gemini_raises (UnboundLocalError "unused")))
      (mk_TriageRequest (lit "Severe CHEST Pain since morning") Mock.hindi
                        None true Mock.rid) []
      = (Ret d, h2) /\
    risk_of d = Some (PStr (lit "HIGH")) /\
    status_of d = Some (PStr (lit "emergency_detected")) /\
    ai_calls h2 = ai_calls [].
Proof.
  eapply (urgent_phrase_short_circuits MultiLanguage
            (Mock.provide (Mock.sarvam_status 500)
                          (Mock.gemini_raises (UnboundLocalError "unused")))
            (mk_TriageRequest (lit "Severe CHEST Pain since morning")
                              Mock.hindi None true Mock.rid)
            [] _ _ (lit "chest pain")
            (lit "Severe ") (lit "CHEST Pain") (lit " since morning")).
  - reflexivity.
  - vm_compute. lia.
  - vm_compute. reflexivity.
  - left. reflexivity.
  - reflexivity.
  - reflexivity.
Defined.

(** C1 as stated fails in the multi-language variant: the scan reads the
    translation, not the symptom text.  The text "chest pain", sent with
    a user language other than English and answered by the translation
    provider with "pain in the chest", reaches the AI provider and comes
    back with the AI's risk. *)
Lemma urgent_phrase_lost_in_translation :
  let rq := mk_TriageRequest (lit "chest pain") Mock.hindi None true
                             Mock.rid in
  let E := Mock.provide
             (Mock.sarvam_answers (lit "pain in the chest"))
             (Mock.gemini_answers (Mock.triage_body (Mock.quoted (lit "LOW"))))
  in
  consent_granted MultiLanguage rq = true /\
  5 <= List.length (strip (symptom_text rq)) /\
  In (lit "chest pain") (urgent_keywords MultiLanguage) /\
  contains (lit "chest pain") (lower (symptom_text rq)) = true /\
  exists d h2,
    analyze MultiLanguage E rq [] = (Ret d, h2) /\
    risk_of d = Some (PStr (lit "LOW")) /\
    status_of d = Some (PStr (lit "success")) /\
    risk_of d <> Some (PStr (lit "HIGH")) /\
    ai_calls h2 <> [].
Proof.
  split; [reflexivity|].
  split; [vm_compute; lia|].
  split; [left; reflexivity|].
  split; [reflexivity|].
  eexists; eexists.
  split; [vm_compute; reflexivity|].
  repeat split; try reflexivity; vm_compute; discriminate.
Qed.

(* ------------------------------------------------------------------ *)
(** ** The AI stage *)

Section AiStage.
Variable E : env.

(** [call_llm] contacts the AI provider once, and its result is decided
    by the provider's answer. *)
Lemma call_llm_run (text : str) (img : option (list Byte.byte))
      (h : history) :
  let c := Llm.build_content E text img in
  snd (Llm.call_llm E text img h) = h ++ [GeminiGenerate c] /\
  forall h', generate_content E h c = generate_content E h' c ->
             fst (Llm.call_llm E text img h)
             = fst (Llm.call_llm E text img h').
Proof.
  intros c. unfold Llm.call_llm. fold c. generalize c. clear c. intros c.
  run. split.
  - destruct (generate_content E h c) as [resp|e]; simpl.
    + destruct (gen_text resp) as [body|e] eqn:Hbody; simpl.
      * destruct body as [|x body]; simpl; [reflexivity|].
        destruct (json_loads E (x :: body)) as [v|msg]; simpl.
        -- destruct v; reflexivity.
        -- unfold Llm.call_llm_handlers; simpl. run.
           rewrite Hbody. reflexivity.
      * unfold Llm.call_llm_handlers. run.
        destruct (exc_base e); simpl; try reflexivity.
        rewrite Hbody. reflexivity.
    + unfold Llm.call_llm_handlers. run. destruct (exc_base e); reflexivity.
  - intros h' <-.
    destruct (generate_content E h c) as [resp|e]; simpl.
    + destruct (gen_text resp) as [body|e] eqn:Hbody; simpl.
      * destruct body as [|x body]; simpl; [reflexivity|].
        destruct (json_loads E (x :: body)) as [v|msg]; simpl.
        -- destruct v; reflexivity.
        -- unfold Llm.call_llm_handlers; simpl. run.
           rewrite Hbody. reflexivity.
      * unfold Llm.call_llm_handlers. run.
        destruct (exc_base e); simpl; try reflexivity.
        rewrite Hbody. reflexivity.
    + unfold Llm.call_llm_handlers. run. destruct (exc_base e); reflexivity.
Qed.

(** Apart from exceptions that are instances of [json.JSONDecodeError],
    whatever the provider does, [call_llm] returns a dictionary. *)
Lemma call_llm_returns (text : str) (img : option (list Byte.byte))
      (h : history) :
  (forall c e, generate_content E h c = Raise e ->
               exc_base e <> JSONDecodeError) ->
  (forall c r e, generate_content E h c = Ret r -> gen_text r = Raise e ->
                 exc_base e <> JSONDecodeError) ->
  exists d, fst (Llm.call_llm E text img h) = Ret d.
Proof.
  intros Hgen Htext. unfold Llm.call_llm.
  generalize (Llm.build_content E text img). intros c. run.
  destruct (generate_content E h c) as [resp|e] eqn:Hg; simpl.
  - destruct (gen_text resp) as [body|e] eqn:Hbody; simpl.
    + destruct body as [|x body]; simpl; [eexists; reflexivity|].
      destruct (json_loads E (x :: body)) as [v|msg]; simpl.
      * destruct v; eexists; reflexivity.
      * unfold Llm.call_llm_handlers; simpl. run.
        rewrite Hbody. eexists; reflexivity.
    + unfold Llm.call_llm_handlers. run.
      specialize (Htext _ _ _ Hg Hbody).
      destruct (exc_base e); simpl; try (eexists; reflexivity).
      contradiction.
  - unfold Llm.call_llm_handlers. run.
    specialize (Hgen _ _ Hg).
    destruct (exc_base e); simpl; try (eexists; reflexivity).
    contradiction.
Qed.

(** Step 8 of the multi-language service never raises and contacts the
    translation provider only. *)
Lemma translate_response_ret (lang : str) (doc_sum advice_text : pyval)
      (h : history) :
  exists p evs,
    MainMultilanguage.translate_response E lang doc_sum advice_text h
      = (Ret p, h ++ evs) /\
    ai_calls evs = [].
Proof.
  unfold MainMultilanguage.translate_response.
  destruct (negb (str_eqb lang (lit "English"))).
  2:{ eexists; exists []. rewrite app_nil_r. split; reflexivity. }
  run.
  destruct (translate_from_english_history E doc_sum lang h)
    as (evs1 & Hh1 & Ha1).
  destruct (SarvamTranslator.translate_from_english E doc_sum lang h)
    as [[trans1|e1] h1]; simpl in Hh1; subst h1.
  2:{ eexists; exists evs1. split; [reflexivity | exact Ha1]. }
  destruct (translate_from_english_history E advice_text lang (h ++ evs1))
    as (evs2 & Hh2 & Ha2).
  destruct (SarvamTranslator.translate_from_english E advice_text lang
              (h ++ evs1)) as [[trans2|e2] h2]; simpl in Hh2; subst h2;
    eexists; exists (evs1 ++ evs2); rewrite app_assoc;
    (split; [reflexivity|]); rewrite ai_calls_app, Ha1, Ha2; reflexivity.
Qed.

(** What the multi-language service answers from the working text on,
    provided the AI result's risk, when there is one, is a string. *)
Lemma analyze_english_outcome (w lang : str) (image : option UploadFile)
      (rid : str) (h : history) :
  (forall result,
     fst (Llm.call_llm E w (read_image image) h) = Ret result ->
     has_key (lit "error") result = false ->
     risk_is_str result = true) ->
  exists d h',
    MainMultilanguage.analyze_english E w lang image rid h = (Ret d, h') /\
    ends_after E MainMultilanguage.urgent_keywords (fun r => r) w image h d.
Proof.
  intros Hrisk. unfold ends_after.
  set (found := filter (fun kw => contains kw (lower w))
                       MainMultilanguage.urgent_keywords).
  unfold MainMultilanguage.analyze_english. fold found.
  rewrite truthy_keywords.
  destruct found as [|kw found'] eqn:Hfound.
  2:{ destruct (translate_emergency_keeps_alarm E lang (kw :: found') h)
        as (d & evs & Hd & _ & Hr & Hs).
      exists d, (h ++ evs). split; [exact Hd|].
      left. repeat split; try assumption. discriminate. }
  run.
  destruct (Llm.call_llm E w (read_image image) h) as [[result|e] h1] eqn:Hllm;
    simpl in Hrisk; cbv zeta; simpl fst.
  2:{ eexists; eexists. split; [reflexivity|].
      right; left. repeat split; try reflexivity. now exists e. }
  destruct (has_key (lit "error") result) eqn:Herr.
  { eexists; eexists. split; [reflexivity|].
    right; right; left. repeat split; try reflexivity. now exists result. }
  specialize (Hrisk result eq_refl Herr). unfold risk_is_str in Hrisk.
  destruct (get_default (lit "risk") (PStr (lit "MODERATE")) result)
    as [| | | |r| |] eqn:Hr; try discriminate.
  unfold py_upper. cbv beta iota.
  match goal with
  | |- context [MainMultilanguage.translate_response E lang ?a ?b h1] =>
      destruct (translate_response_ret lang a b h1) as (p & evs & Hp & _)
  end.
  rewrite Hp.
  eexists; eexists. split; [reflexivity|].
  right; right; right. repeat split; try reflexivity.
  exists result, r. repeat split; try assumption; reflexivity.
Qed.

(** What the single-language service answers once the length check has
    passed, provided the three fields of the AI result are strings where
    present. *)
Lemma analyze_single_outcome (text : str) (image : option UploadFile)
      (rid : str) (h : history) :
  5 <= List.length (strip text) ->
  (forall result,
     fst (Llm.call_llm E text (read_image image) h) = Ret result ->
     has_key (lit "error") result = false ->
     fields_are_str result = true) ->
  exists d h',
    Main.analyze E text image rid h = (Ret d, h') /\
    ends_after E Main.urgent_keywords validated text image h d.
Proof.
  intros Hlen Hwf. unfold ends_after.
  set (found := filter (fun kw => contains kw (lower text))
                       Main.urgent_keywords).
  apply Nat.ltb_ge in Hlen.
  unfold Main.analyze. fold found. rewrite Hlen, truthy_keywords.
  destruct found as [|kw found'] eqn:Hfound.
  2:{ eexists; eexists. split; [reflexivity|].
      left. repeat split; try reflexivity. discriminate. }
  run.
  destruct (Llm.call_llm E text (read_image image) h)
    as [[result|e] h1] eqn:Hllm; simpl in Hwf; cbv zeta; simpl fst.
  2:{ eexists; eexists. split; [reflexivity|].
      right; left. repeat split; try reflexivity. now exists e. }
  destruct (has_key (lit "error") result) eqn:Herr.
  { eexists; eexists. split; [reflexivity|].
    right; right; left. repeat split; try reflexivity. now exists result. }
  specialize (Hwf result eq_refl Herr).
  unfold fields_are_str, risk_is_str in Hwf.
  apply andb_true_iff in Hwf as [Hwf Hrisk].
  apply andb_true_iff in Hwf as [Hsum Hadv].
  destruct (get_default (lit "risk") (PStr (lit "MODERATE")) result)
    as [| | | |r| |] eqn:Hr; try discriminate.
  assert (Hsum' : exists n, py_len (get_default (lit "doctor_summary")
             (PStr (lit "No detailed summary available")) result) = Ret n).
  { unfold get_default in *. destruct (get (lit "doctor_summary") result)
      as [[]|]; try discriminate; eexists; reflexivity. }
  assert (Hadv' : exists n, py_len (get_default (lit "advice")
             (PStr (lit "Please consult a medical professional.")) result)
             = Ret n).
  { unfold get_default in *. destruct (get (lit "advice") result)
      as [[]|]; try discriminate; eexists; reflexivity. }
  destruct Hsum' as (n1 & Hn1). destruct Hadv' as (n2 & Hn2).
  cbv beta iota. rewrite Hn1, Hn2. unfold py_upper. cbv beta iota.
  eexists; eexists. split; [reflexivity|].
  right; right; right. repeat split; try reflexivity.
  exists result, r. repeat split; try assumption; reflexivity.
Qed.

End AiStage.

(* ------------------------------------------------------------------ *)
(** ** Inbound translation *)

(** C7, as amended.  For a request that passes the consent gate and the
    length check, with a user language other than English, and an AI
    result whose risk, when there is one, is a string: when the inbound
    translation fails (it raises, or its result has no true [success]),
    the working text is the original symptom text, and the pipeline
    returns a response.  That response is the one the later stages give
    for the original text: emergency_detected with risk HIGH when it
    contains an urgent phrase; otherwise success with the upper-cased AI
    risk when the AI client returns a result without an error entry,
    ai_partial_failure with risk MODERATE when its result has one, and
    ai_error with risk ERROR when the AI client raises. *)
Theorem translation_failure_falls_back
  (E : env) (rq : TriageRequest) (h h1 : history) (r : result dict) :
  consent_granted MultiLanguage rq = true ->
  5 <= List.length (strip (symptom_text rq)) ->
  str_eqb (user_language rq) (lit "English") = false ->
  SarvamTranslator.translate_to_english E (PStr (symptom_text rq))
                                        (user_language rq) h = (r, h1) ->
  match r with
  | Ret t => truthy (get_or_none (lit "success") t) = false
  | Raise _ => True
  end ->
  (forall result,
     fst (Llm.call_llm E (symptom_text rq) (read_image (image rq)) h1)
       = Ret result ->
     has_key (lit "error") result = false ->
     risk_is_str result = true) ->
  working_text MultiLanguage E rq h = (Ret (PStr (symptom_text rq)), h1) /\
  exists d h2,
    analyze MultiLanguage E rq h = (Ret d, h2) /\
    ends_after E MainMultilanguage.urgent_keywords (fun level => level)
               (symptom_text rq) (image rq) h1 d.
Proof.
  intros Hc Hlen Hlang Htr Hfail Hrisk.
  assert (Hw : MainMultilanguage.inbound_translation E (symptom_text rq)
                 (user_language rq) h = (Ret (PStr (symptom_text rq)), h1)).
  { unfold MainMultilanguage.inbound_translation. rewrite Hlang. cbn [negb].
    run. cbv beta iota. rewrite Htr.
    destruct r as [t|e]; [rewrite Hfail|]; reflexivity. }
  split; [exact Hw|].
  unfold analyze, consent_granted in *.
  unfold MainMultilanguage.analyze.
  apply negb_true_iff in Hc. apply Nat.ltb_ge in Hlen. rewrite Hc, Hlen.
  unfold bind. rewrite Hw.
  apply analyze_english_outcome. exact Hrisk.
Qed.

Lemma translation_failure_falls_back_witness :
  let rq := mk_TriageRequest (lit "fever and body ache since two days")
                             Mock.hindi None true Mock.rid in
  let E := Mock.provide
             (Mock.sarvam_status 500)
             (Mock.gemini_answers (Mock.triage_body (Mock.quoted (lit "LOW"))))
  in
  working_text MultiLanguage E rq []
    = (Ret (PStr (symptom_text rq)),
       [SarvamPost (PStr (symptom_text rq)) (lit "hi-IN") (lit "en-IN")]) /\
  exists d h2,
    analyze MultiLanguage E rq [] = (Ret d, h2) /\
    ends_after E MainMultilanguage.urgent_keywords (fun level => level)
               (symptom_text rq) (image rq)
               [SarvamPost (PStr (symptom_text rq)) (lit "hi-IN") (lit "en-IN")]
               d.
Proof.
  intros rq E.
  eapply (translation_failure_falls_back E rq [] _ _).
  - reflexivity.
  - vm_compute. lia.
  - reflexivity.
  - vm_compute. reflexivity.
  - reflexivity.
  - intros result Hres _. vm_compute in Hres.
    injection Hres as <-. reflexivity.
Defined.

(** C7 as stated fails: after a failed translation the outcome need not be
    success or emergency_detected.  With the translation provider
    answering 500 and the AI provider returning an empty body, the
    response has status ai_partial_failure. *)
Lemma translation_failure_then_ai_failure :
  let rq := mk_TriageRequest (lit "fever and body ache since two days")
                             Mock.hindi None true Mock.rid in
  let E := Mock.provide (Mock.sarvam_status 500) (Mock.gemini_answers []) in
  str_eqb (user_language rq) (lit "English") = false /\
  (exists t h1,
     SarvamTranslator.translate_to_english E (PStr (symptom_text rq))
                                           (user_language rq) [] = (Ret t, h1) /\
     get (lit "success") t = Some (PBool false) /\
     get (lit "error") t = Some (PStr (lit "API returned status 500"))) /\
  exists d h2,
    analyze MultiLanguage E rq [] = (Ret d, h2) /\
    risk_of d = Some (PStr (lit "MODERATE")) /\
    status_of d = Some (PStr (lit "ai_partial_failure")) /\
    status_of d <> Some (PStr (lit "success")) /\
    status_of d <> Some (PStr (lit "emergency_detected")).
Proof.
  split; [reflexivity|]. split.
  - eexists; eexists. split; [vm_compute; reflexivity|].
    split; reflexivity.
  - eexists; eexists. split; [vm_compute; reflexivity|].
    repeat split; try reflexivity; vm_compute; discriminate.
Qed.

(* ------------------------------------------------------------------ *)
(** ** The two variants under an identity translation *)

Section Identity.
Variable E : env.
Hypothesis Hecho : returns_input E.

(** With such a provider the working text is the symptom text, whether
    or not the translation service is configured. *)
Lemma inbound_translation_identity (text lang : str) (h : history) :
  exists h',
    MainMultilanguage.inbound_translation E text lang h
      = (Ret (PStr text), h').
Proof.
  unfold MainMultilanguage.inbound_translation.
  destruct (str_eqb lang (lit "English")) eqn:Hlang; cbn [negb];
    [eexists; reflexivity|].
  unfold SarvamTranslator.translate_to_english. rewrite Hlang.
  unfold SarvamTranslator.translate.
  destruct (SarvamTranslator.enabled E); cbn [negb]; run; cbv beta iota.
  2:{ eexists; reflexivity. }
  simpl py_len. simpl py_slice. cbv beta iota.
  destruct (Hecho h text (SarvamTranslator.get_language_code lang)
                  (lit "en-IN")) as (body & data & Hpost & Hjson & Hget).
  rewrite Hpost. unfold SarvamTranslator.response_json.
  cbn [status_code response_text]. change (Z.eqb 200 200) with true.
  cbv beta iota. rewrite Hjson. run. cbv beta iota.
  unfold get_default. rewrite Hget. cbn [py_slice]. cbv beta iota.
  unfold get_or_none, get_default.
  change (get (lit "success") ((lit "success", PBool true) :: ?d))
    with (Some (PBool true)).
  eexists. reflexivity.
Qed.

End Identity.

(** The multi-language list is the single-language list followed by two
    more phrases. *)
Lemma keywords_extend (f : str -> bool) :
  f (lit "suicide") = false ->
  f (lit "overdose") = false ->
  filter f MainMultilanguage.urgent_keywords = filter f Main.urgent_keywords.
Proof.
  intros Hs Ho.
  change MainMultilanguage.urgent_keywords
    with (Main.urgent_keywords ++ [lit "suicide"; lit "overdose"]).
  rewrite filter_app. cbn [filter]. rewrite Hs, Ho. apply app_nil_r.
Qed.

(** Where the two pipelines agree.  Let the translation provider return
    the text it is given and let the AI provider answer equal requests
    equally.  For a request with consent given whose lower-cased symptom
    text contains neither "suicide" nor "overdose", and an AI result that,
    when it has no error entry, has strings for its fields and a risk that
    names LOW, MODERATE or HIGH up to case, the single-language and the
    multi-language pipeline both return a response, and the two responses
    carry the same risk. *)
Lemma identity_translation_same_risk
  (E : env) (rq : TriageRequest) (h h' : history) :
  returns_input E ->
  ai_is_a_function E ->
  consent_given rq = true ->
  contains (lit "suicide") (lower (symptom_text rq)) = false ->
  contains (lit "overdose") (lower (symptom_text rq)) = false ->
  (forall h0 result,
     fst (Llm.call_llm E (symptom_text rq) (read_image (image rq)) h0)
       = Ret result ->
     has_key (lit "error") result = false ->
     fields_are_str result = true /\ risk_is_level result = true) ->
  exists d1 h1 d2 h2 r,
    analyze SingleLanguage E rq h = (Ret d1, h1) /\
    analyze MultiLanguage E rq h' = (Ret d2, h2) /\
    risk_of d1 = Some r /\
    risk_of d2 = Some r.
Proof.
  intros Hecho Hai Hconsent Hsui Hover Hwf.
  unfold analyze.
  destruct (Nat.ltb (List.length (strip (symptom_text rq))) 5) eqn:Hlen.
  { unfold Main.analyze, MainMultilanguage.analyze.
    rewrite Hlen, Hconsent. cbn [negb andb]. run.
    do 5 eexists. repeat split; reflexivity. }
  apply Nat.ltb_ge in Hlen.
  (* the single-language pipeline *)
  destruct (analyze_single_outcome E (symptom_text rq) (image rq)
              (request_id rq) h Hlen) as (d1 & h1 & Hd1 & Hend1).
  { intros result Hres Herr. now apply (Hwf h result). }
  (* the multi-language pipeline *)
  destruct (inbound_translation_identity E Hecho (symptom_text rq)
              (user_language rq) h') as (h'' & Hin).
  destruct (analyze_english_outcome E (symptom_text rq) (user_language rq)
              (image rq) (request_id rq) h'') as (d2 & h2 & Hd2 & Hend2).
  { intros result Hres Herr. destruct (Hwf h'' result Hres Herr) as [Hf _].
    unfold fields_are_str in Hf. now apply andb_true_iff in Hf as [_ Hf]. }
  assert (Hm : MainMultilanguage.analyze E (symptom_text rq)
                 (user_language rq) (image rq) (consent_given rq)
                 (request_id rq) h' = (Ret d2, h2)).
  { unfold MainMultilanguage.analyze. apply Nat.ltb_ge in Hlen.
    rewrite Hconsent, Hlen. unfold MainMultilanguage.CONSENT_REQUIRED.
    cbn [negb andb]. unfold bind. cbv beta iota.
    rewrite Hin. exact Hd2. }
  exists d1, h1, d2, h2.
  (* same keywords found, same AI result *)
  unfold ends_after in Hend1, Hend2.
  rewrite (keywords_extend _ Hsui Hover) in Hend2.
  destruct (call_llm_run E (symptom_text rq) (read_image (image rq)) h)
    as [_ Hsame].
  rewrite (Hsame h'' (Hai _ _ _)) in Hend1.
  set (found := filter _ Main.urgent_keywords) in *.
  set (ai := fst (Llm.call_llm E (symptom_text rq)
                               (read_image (image rq)) h'')) in *.
  destruct Hend1 as [(Hf1 & Hr1 & _)
                    |[(Hf1 & (e1 & Ha1) & Hr1 & _)
                    |[(Hf1 & (res1 & Ha1 & He1) & Hr1 & _)
                    |(Hf1 & (res1 & r1 & Ha1 & He1 & Hk1 & Hr1) & _)]]];
  destruct Hend2 as [(Hf2 & Hr2 & _)
                    |[(Hf2 & (e2 & Ha2) & Hr2 & _)
                    |[(Hf2 & (res2 & Ha2 & He2) & Hr2 & _)
                    |(Hf2 & (res2 & r2 & Ha2 & He2 & Hk2 & Hr2) & _)]]];
  try contradiction;
  try (rewrite Ha1 in Ha2; discriminate);
  try (rewrite Ha1 in Ha2; injection Ha2 as ->; congruence).
  - eexists. repeat split; eassumption.
  - eexists. repeat split; eassumption.
  - eexists. repeat split; eassumption.
  - rewrite Ha1 in Ha2. injection Ha2 as <-.
    rewrite Hk1 in Hk2. injection Hk2 as <-.
    destruct (Hwf h'' res1 Ha1 He1) as [_ Hlevel].
    unfold risk_is_level in Hlevel. rewrite Hk1 in Hlevel.
    unfold validated in Hr1. rewrite Hlevel in Hr1. cbn [negb] in Hr1.
    eexists. repeat split; eassumption.
Qed.

(** The echoing stand-in is such a provider. *)
Lemma echo_returns_input
      (gemini : history -> list content_item -> result GenerateContentResponse) :
  returns_input (Mock.provide Mock.sarvam_echo gemini).
Proof.
  intros h t src tgt.
  exists (Mock.translated_body t), [(lit "translated_text", PStr t)].
  split; [reflexivity|]. split; [|reflexivity].
  unfold Mock.provide, json_loads, Mock.loads, Mock.translated_body.
  simpl. rewrite length_app, firstn_app. simpl.
  rewrite Nat.add_sub, Nat.sub_diag, firstn_all. simpl.
  now rewrite app_nil_r.
Qed.

Lemma identity_translation_same_risk_witness :
  let rq := mk_TriageRequest (lit "I have a mild headache since yesterday")
                             Mock.hindi None true Mock.rid in
  let E := Mock.provide
             Mock.sarvam_echo
             (Mock.gemini_answers (Mock.triage_body (Mock.quoted (lit "LOW"))))
  in
  exists d1 h1 d2 h2 r,
    analyze SingleLanguage E rq [] = (Ret d1, h1) /\
    analyze MultiLanguage E rq [] = (Ret d2, h2) /\
    risk_of d1 = Some r /\
    risk_of d2 = Some r.
Proof.
  intros rq E.
  apply (identity_translation_same_risk E rq [] []).
  - apply echo_returns_input.
  - intros h h' c. reflexivity.
  - reflexivity.
  - reflexivity.
  - reflexivity.
  - intros h0 result Hres _. vm_compute in Hres.
    injection Hres as <-. split; reflexivity.
Defined.

(** The text below, with an echoing translation provider and an AI
    provider that answers LOW, is rated LOW by the single-language
    pipeline and HIGH by the multi-language one. *)
Lemma overdose_is_rated_differently :
  let rq := mk_TriageRequest (lit "I took an overdose of sleeping pills")
                             Mock.hindi None true Mock.rid in
  let E := Mock.provide
             Mock.sarvam_echo
             (Mock.gemini_answers (Mock.triage_body (Mock.quoted (lit "LOW"))))
  in
  returns_input E /\
  ai_is_a_function E /\
  exists d1 h1 d2 h2,
    analyze SingleLanguage E rq [] = (Ret d1, h1) /\
    analyze MultiLanguage E rq [] = (Ret d2, h2) /\
    risk_of d1 = Some (PStr (lit "LOW")) /\
    risk_of d2 = Some (PStr (lit "HIGH")) /\
    risk_of d1 <> risk_of d2.
Proof.
  split; [apply echo_returns_input|].
  split; [intros h h' c; reflexivity|].
  do 4 eexists.
  split; [vm_compute; reflexivity|].
  split; [vm_compute; reflexivity|].
  repeat split; try reflexivity. vm_compute. discriminate.
Qed.

(** Past the length check and without a phrase of its own list, the
    single-language service makes exactly the call of [call_llm]. *)
Lemma analyze_single_history (E : env) (text : str)
      (image : option UploadFile) (rid : str) (h : history) :
  5 <= List.length (strip text) ->
  filter (fun kw => contains kw (lower text)) Main.urgent_keywords = [] ->
  snd (Main.analyze E text image rid h)
  = h ++ [GeminiGenerate (Llm.build_content E text (read_image image))].
Proof.
  intros Hlen Hfound. apply Nat.ltb_ge in Hlen.
  destruct (call_llm_run E text (read_image image) h) as [Hh _].
  cbv zeta in Hh. rewrite <- Hh.
  unfold Main.analyze. rewrite Hlen, truthy_keywords, Hfound. run.
  destruct (Llm.call_llm E text (read_image image) h) as [[result|e] h1];
    cbv beta iota; cbn [snd]; [|reflexivity].
  destruct (has_key (lit "error") result); [reflexivity|].
  destruct (py_upper _); cbv beta iota; [|reflexivity].
  destruct (py_len _); cbv beta iota; [|reflexivity].
  destruct (py_len _); reflexivity.
Qed.

(** C5.  The single-language service does not scan for "suicide" and
    "overdose", the last two phrases of the list its sibling scans.  Let
    the translation provider return the text it is given.  For a request
    with consent given and trimmed length at least 5 whose lower-cased
    text contains one of the two phrases and none of the eleven others,
    the multi-language pipeline raises the alarm (risk HIGH, status
    emergency_detected, the AI provider not called), while the
    single-language pipeline sends the text to the AI provider and answers
    with whatever that gives: ERROR when the client raises, MODERATE for
    an error outcome, and otherwise the validated AI risk.  Unless the AI
    itself says HIGH, the two risks differ. *)
Theorem single_language_misses_suicide_and_overdose
  (E : env) (rq : TriageRequest) (h h' : history) :
  let text := symptom_text rq in
  let ai := fst (Llm.call_llm E text (read_image (image rq)) h) in
  returns_input E ->
  consent_given rq = true ->
  5 <= List.length (strip text) ->
  contains (lit "suicide") (lower text) = true \/
  contains (lit "overdose") (lower text) = true ->
  filter (fun kw => contains kw (lower text)) Main.urgent_keywords = [] ->
  (forall result,
     ai = Ret result -> has_key (lit "error") result = false ->
     fields_are_str result = true) ->
  exists d1 h1 d2 h2,
    analyze SingleLanguage E rq h = (Ret d1, h1) /\
    analyze MultiLanguage E rq h' = (Ret d2, h2) /\
    (* the multi-language service *)
    risk_of d2 = Some (PStr (lit "HIGH")) /\
    status_of d2 = Some (PStr (lit "emergency_detected")) /\
    ai_calls h2 = ai_calls h' /\
    (* the single-language service *)
    h1 = h ++ [GeminiGenerate
                 (Llm.build_content E text (read_image (image rq)))] /\
    status_of d1 <> Some (PStr (lit "emergency_detected")) /\
    match ai with
    | Raise _ => risk_of d1 = Some (PStr (lit "ERROR"))
    | Ret result =>
        if has_key (lit "error") result
        then risk_of d1 = Some (PStr (lit "MODERATE"))
        else exists r,
               get_default (lit "risk") (PStr (lit "MODERATE")) result
                 = PStr r /\
               risk_of d1 = Some (PStr (validated (upper r)))
    end /\
    ((forall result r,
        ai = Ret result ->
        get_default (lit "risk") (PStr (lit "MODERATE")) result = PStr r ->
        upper r <> lit "HIGH") ->
     risk_of d1 <> risk_of d2).
Proof.
  intros text ai Hecho Hconsent Hlen Hphrase Hnone Hwf.
  (* the single-language pipeline *)
  destruct (analyze_single_outcome E text (image rq) (request_id rq) h Hlen
              Hwf) as (d1 & h1 & Hd1 & Hend1).
  pose proof (analyze_single_history E text (image rq) (request_id rq) h
                Hlen Hnone) as Hh1.
  unfold text in Hd1, Hh1. unfold analyze.
  rewrite Hd1 in Hh1. cbn [snd] in Hh1.
  (* the multi-language pipeline *)
  destruct (inbound_translation_identity E Hecho text (user_language rq) h')
    as (h'' & Hin).
  destruct (inbound_translation_history E text (user_language rq) h')
    as (evs & Hh'' & Hai).
  rewrite Hin in Hh''. cbn [snd] in Hh''. subst h''.
  set (found := filter (fun kw => contains kw (lower text))
                       MainMultilanguage.urgent_keywords).
  assert (Hfound : found <> []).
  { destruct Hphrase as [Hp|Hp].
    - apply (filter_hit _ (lit "suicide")); [|exact Hp].
      do 11 right. left. reflexivity.
    - apply (filter_hit _ (lit "overdose")); [|exact Hp].
      do 12 right. left. reflexivity. }
  destruct (translate_emergency_keeps_alarm E (user_language rq) found
              (h' ++ evs)) as (d2 & evs' & Hd2 & Hai' & Hr2 & Hs2).
  assert (Hm : MainMultilanguage.analyze E (symptom_text rq)
                 (user_language rq) (image rq) (consent_given rq)
                 (request_id rq) h' = (Ret d2, (h' ++ evs) ++ evs')).
  { unfold MainMultilanguage.analyze. apply Nat.ltb_ge in Hlen.
    fold text. rewrite Hconsent, Hlen.
    unfold MainMultilanguage.CONSENT_REQUIRED.
    cbn [negb andb]. unfold bind. cbv beta iota.
    rewrite Hin. unfold MainMultilanguage.analyze_english.
    fold found. rewrite truthy_keywords.
    destruct found; [contradiction|]. exact Hd2. }
  exists d1, h1, d2, ((h' ++ evs) ++ evs').
  split; [exact Hd1|]. split; [exact Hm|].
  split; [exact Hr2|]. split; [exact Hs2|].
  split; [rewrite !ai_calls_app, Hai, Hai', !app_nil_r; reflexivity|].
  split; [exact Hh1|].
  (* what the single-language service answers *)
  unfold ends_after in Hend1. cbv zeta in Hend1. fold ai in Hend1.
  rewrite Hnone in Hend1.
  destruct Hend1 as [(Hf1 & _)
                    |[(_ & (e1 & Ha1) & Hr1 & Hs1)
                    |[(_ & (res1 & Ha1 & He1) & Hr1 & Hs1)
                    |(_ & (res1 & r1 & Ha1 & He1 & Hk1 & Hr1) & Hs1)]]].
  - contradiction.
  - rewrite Ha1, Hr1, Hs1, Hr2.
    split; [intros [=]|]. split; [reflexivity|]. intros _ [=].
  - rewrite Ha1, He1, Hr1, Hs1, Hr2.
    split; [intros [=]|]. split; [reflexivity|]. intros _ [=].
  - rewrite Ha1, He1, Hr1, Hs1, Hr2.
    split; [intros [=]|]. split; [now exists r1|].
    intros Hnot [= Heq]. specialize (Hnot res1 r1 eq_refl Hk1).
    unfold validated in Heq.
    destruct (negb (str_in (upper r1) Main.valid_risks));
      [discriminate Heq | contradiction].
Qed.

Lemma single_language_misses_suicide_and_overdose_witness :
  let rq := mk_TriageRequest (lit "I took an overdose of sleeping pills")
                             Mock.hindi None true Mock.rid in
  let E := Mock.provide
             Mock.sarvam_echo
             (Mock.gemini_answers (Mock.triage_body (Mock.quoted (lit "LOW"))))
  in
  exists d1 h1 d2 h2,
    analyze SingleLanguage E rq [] = (Ret d1, h1) /\
    analyze MultiLanguage E rq [] = (Ret d2, h2) /\
    risk_of d2 = Some (PStr (lit "HIGH")) /\
    status_of d2 = Some (PStr (lit "emergency_detected")) /\
    ai_calls h2 = ai_calls [] /\
    h1 = [] ++ [GeminiGenerate
                  (Llm.build_content E (symptom_text rq)
                                     (read_image (image rq)))] /\
    status_of d1 <> Some (PStr (lit "emergency_detected")) /\
    risk_of d1 = Some (PStr (lit "LOW")) /\
    risk_of d1 <> risk_of d2.
Proof.
  intros rq E.
  destruct (single_language_misses_suicide_and_overdose E rq [] [])
    as (d1 & h1 & d2 & h2 & Hd1 & Hd2 & Hr2 & Hs2 & Hai & Hh1 & Hs1 & Hr1
        & Hdiff).
  - apply echo_returns_input.
  - reflexivity.
  - vm_compute. lia.
  - right. reflexivity.
  - reflexivity.
  - intros result Hres _. vm_compute in Hres.
    injection Hres as <-. reflexivity.
  - exists d1, h1, d2, h2.
    split; [exact Hd1|]. split; [exact Hd2|]. split; [exact Hr2|].
    split; [exact Hs2|]. split; [exact Hai|]. split; [exact Hh1|].
    split; [exact Hs1|]. split.
    + destruct Hr1 as (r & Hk & Hr1). rewrite Hr1.
      injection Hk as <-. reflexivity.
    + apply Hdiff. intros result r Hres Hk. vm_compute in Hres.
      injection Hres as <-. injection Hk as <-. vm_compute. discriminate.
Defined.

(* ------------------------------------------------------------------ *)
(** ** Where the code departs from the specification *)

(** C3.  An AI result whose risk is present and not a string makes the
    pipeline raise, in both variants: [.upper()] is called on it outside
    every [try].  For a request that passes the gates, with a working text
    [w] free of urgent phrases, if [call_llm] returns a result without an
    error entry whose risk is [x], not a string, then [analyze] ends in
    the [AttributeError] of [x.upper()]. *)
Theorem non_string_risk_escapes
  (v : variant) (E : env) (rq : TriageRequest) (h h1 h2 : history)
  (w : str) (result : dict) (x : pyval) :
  consent_granted v rq = true ->
  5 <= List.length (strip (symptom_text rq)) ->
  working_text v E rq h = (Ret (PStr w), h1) ->
  filter (fun kw => contains kw (lower w)) (urgent_keywords v) = [] ->
  Llm.call_llm E w (read_image (image rq)) h1 = (Ret result, h2) ->
  has_key (lit "error") result = false ->
  get (lit "risk") result = Some x ->
  is_str x = false ->
  analyze v E rq h = (Raise (AttributeError x "upper"), h2).
Proof.
  intros Hc Hlen Hw Hfound Hllm Herr Hrisk Hx.
  apply Nat.ltb_ge in Hlen.
  assert (Hup : py_upper (get_default (lit "risk") (PStr (lit "MODERATE"))
                                      result)
                = Raise (AttributeError x "upper")).
  { unfold get_default. rewrite Hrisk. destruct x; try reflexivity.
    discriminate. }
  destruct v; unfold analyze, urgent_keywords, working_text, consent_granted
    in *.
  - unfold ret in Hw. injection Hw as <- <-.
    unfold Main.analyze. rewrite Hlen, Hfound. cbn [map truthy].
    run. cbv beta iota. rewrite Hllm, Herr, Hup. reflexivity.
  - apply negb_true_iff in Hc.
    unfold MainMultilanguage.analyze. rewrite Hc, Hlen.
    unfold bind at 1. rewrite Hw.
    unfold MainMultilanguage.analyze_english. rewrite Hfound.
    cbn [map truthy]. run. cbv beta iota. rewrite Hllm, Herr, Hup.
    reflexivity.
Qed.

Lemma non_string_risk_escapes_witness :
  let rq := mk_TriageRequest (lit "I have a mild headache since yesterday")
                             (lit "English") None true Mock.rid in
  let E := Mock.provide Mock.sarvam_echo
                        (Mock.gemini_answers (Mock.triage_body (lit "3"))) in
  fst (Llm.call_llm E (symptom_text rq) None [])
    = Ret (Mock.triage_dict (PInt 3)) /\
  fst (analyze SingleLanguage E rq [])
    = Raise (AttributeError (PInt 3) "upper") /\
  fst (analyze MultiLanguage E rq [])
    = Raise (AttributeError (PInt 3) "upper").
Proof.
  intros rq E.
  split; [vm_compute; reflexivity|].
  split.
  - erewrite (non_string_risk_escapes SingleLanguage E rq [] _ _ _ _ (PInt 3));
      [reflexivity | reflexivity | vm_compute; lia | reflexivity
      | reflexivity | vm_compute; reflexivity | reflexivity | reflexivity
      | reflexivity].
  - erewrite (non_string_risk_escapes MultiLanguage E rq [] _ _ _ _ (PInt 3));
      [reflexivity | reflexivity | vm_compute; lia | reflexivity
      | reflexivity | vm_compute; reflexivity | reflexivity | reflexivity
      | reflexivity].
Defined.

(** C4.  The multi-language pipeline upper-cases the AI's risk and
    returns it unchecked.  For a request that passes the gates, with a
    working text [w] free of urgent phrases, if [call_llm] returns a
    result without an error entry whose risk is the string [r], the
    response has status success and risk [upper r], whether or not that
    is one of LOW, MODERATE, HIGH. *)
Theorem multi_language_risk_is_unchecked
  (E : env) (rq : TriageRequest) (h h1 h2 : history) (w : str)
  (result : dict) (r : str) :
  consent_granted MultiLanguage rq = true ->
  5 <= List.length (strip (symptom_text rq)) ->
  working_text MultiLanguage E rq h = (Ret (PStr w), h1) ->
  filter (fun kw => contains kw (lower w)) MainMultilanguage.urgent_keywords
    = [] ->
  Llm.call_llm E w (read_image (image rq)) h1 = (Ret result, h2) ->
  has_key (lit "error") result = false ->
  get (lit "risk") result = Some (PStr r) ->
  exists d h3,
    analyze MultiLanguage E rq h = (Ret d, h3) /\
    risk_of d = Some (PStr (upper r)) /\
    status_of d = Some (PStr (lit "success")).
Proof.
  intros Hc Hlen Hw Hfound Hllm Herr Hrisk.
  apply Nat.ltb_ge in Hlen.
  unfold analyze, working_text, consent_granted in *.
  apply negb_true_iff in Hc.
  unfold MainMultilanguage.analyze. rewrite Hc, Hlen.
  unfold bind at 1. rewrite Hw.
  unfold MainMultilanguage.analyze_english. rewrite Hfound.
  assert (Hr : get_default (lit "risk") (PStr (lit "MODERATE")) result
               = PStr r) by (unfold get_default; now rewrite Hrisk).
  cbn [map truthy]. run. cbv beta iota. rewrite Hllm, Herr, Hr.
  unfold py_upper. cbv beta iota.
  match goal with
  | |- context [MainMultilanguage.translate_response E ?l ?a ?b h2] =>
      destruct (translate_response_ret E l a b h2) as (p & evs & Hp & _)
  end.
  rewrite Hp. eexists; eexists. repeat split; reflexivity.
Qed.

Lemma multi_language_risk_is_unchecked_witness :
  let rq := mk_TriageRequest (lit "I have a mild headache since yesterday")
                             (lit "English") None true Mock.rid in
  let E := Mock.provide
             Mock.sarvam_echo
             (Mock.gemini_answers
                (Mock.triage_body (Mock.quoted (lit "unknown")))) in
  (exists d h3,
     analyze MultiLanguage E rq [] = (Ret d, h3) /\
     risk_of d = Some (PStr (lit "UNKNOWN")) /\
     status_of d = Some (PStr (lit "success"))) /\
  (exists d h3,
     analyze SingleLanguage E rq [] = (Ret d, h3) /\
     risk_of d = Some (PStr (lit "MODERATE"))).
Proof.
  intros rq E. split.
  - eapply (multi_language_risk_is_unchecked E rq [] _ _ _ _
              (lit "unknown")).
    + reflexivity.
    + vm_compute. lia.
    + reflexivity.
    + reflexivity.
    + vm_compute. reflexivity.
    + reflexivity.
    + reflexivity.
  - eexists; eexists. split; [vm_compute; reflexivity | reflexivity].
Defined.

(** The single-language pipeline does keep the risk within the four
    levels, whatever the providers answer. *)
Lemma single_language_risk_is_a_level
      (E : env) (text : str) (image : option UploadFile) (rid : str)
      (h h' : history) (d : dict) :
  Main.analyze E text image rid h = (Ret d, h') ->
  exists level,
    risk_of d = Some (PStr level) /\
    In level [lit "LOW"; lit "MODERATE"; lit "HIGH"; lit "ERROR"].
Proof.
  unfold Main.analyze.
  destruct (Nat.ltb _ 5).
  { unfold ret. intros [= <- <-]. eexists. split; [reflexivity|].
    left; reflexivity. }
  destruct (truthy _).
  { unfold ret. intros [= <- <-]. eexists. split; [reflexivity|].
    right; right; left; reflexivity. }
  run. destruct (Llm.call_llm E text (read_image image) h) as [[result|e] h1].
  2:{ intros [= <- <-]. eexists. split; [reflexivity|].
      do 3 right; left; reflexivity. }
  destruct (has_key (lit "error") result).
  { intros [= <- <-]. eexists. split; [reflexivity|].
    right; left; reflexivity. }
  destruct (py_upper _) as [level|]; [|discriminate].
  destruct (py_len _); [|discriminate].
  destruct (py_len _); [|discriminate].
  destruct (str_in level Main.valid_risks) eqn:Hin; cbn [negb];
    intros [= <- <-].
  - exists level. split; [reflexivity|].
    unfold str_in, Main.valid_risks in Hin. cbn [existsb] in Hin.
    repeat (apply orb_true_iff in Hin as [Hin|Hin];
            [apply str_eqb_eq in Hin; subst level; simpl; tauto|]).
    discriminate.
  - eexists. split; [reflexivity|]. right; left; reflexivity.
Qed.

(** C8.  When [generate_content] raises an exception that is an instance
    of [json.JSONDecodeError], the handler for that class reads
    [response.text] although [response] was never bound, and the
    resulting [UnboundLocalError] leaves [call_llm]. *)
Theorem call_llm_raises_on_decode_error_from_provider
  (E : env) (text : str) (img : option (list Byte.byte)) (h : history)
  (e : exn) :
  generate_content E h (Llm.build_content E text img) = Raise e ->
  exc_base e = JSONDecodeError ->
  Llm.call_llm E text img h
    = (Raise (UnboundLocalError "response"),
       h ++ [GeminiGenerate (Llm.build_content E text img)]).
Proof.
  intros Hg Hb. unfold Llm.call_llm. run. cbv beta iota zeta.
  rewrite Hg. unfold Llm.call_llm_handlers. rewrite Hb. reflexivity.
Qed.

Lemma call_llm_raises_on_decode_error_from_provider_witness :
  let e := mk_exn (lit "JSONDecodeError")
                  (lit "Expecting value: line 1 column 1 (char 0)")
                  JSONDecodeError in
  let E := Mock.provide Mock.sarvam_echo (Mock.gemini_raises e) in
  fst (Llm.call_llm E (lit "I have a mild headache since yesterday") None [])
    = Raise (UnboundLocalError "response").
Proof.
  intros e E.
  rewrite (call_llm_raises_on_decode_error_from_provider
             E (lit "I have a mild headache since yesterday") None [] e);
    reflexivity.
Defined.

(** The other outcomes of [call_llm] are as the specification lists
    them. *)
Lemma call_llm_error_outcomes
      (E : env) (text : str) (img : option (list Byte.byte)) (h : history) :
  let c := Llm.build_content E text img in
  (* empty body *)
  (forall r, generate_content E h c = Ret r -> gen_text r = Ret [] ->
     exists d, fst (Llm.call_llm E text img h) = Ret d /\
       get (lit "error") d = Some (PStr (lit "Empty response from AI"))) /\
  (* a body that does not parse *)
  (forall r body msg,
     generate_content E h c = Ret r -> gen_text r = Ret body ->
     body <> [] -> json_loads E body = inr msg ->
     exists d, fst (Llm.call_llm E text img h) = Ret d /\
       get (lit "error") d
         = Some (PStr (lit "Failed to parse AI response as JSON")) /\
       get (lit "raw_error") d = Some (PStr msg) /\
       get (lit "raw_text") d = Some (PStr (firstn 500 body))) /\
  (* an exception of any other class *)
  (forall e, generate_content E h c = Raise e ->
     exc_base e <> JSONDecodeError ->
     exists d, fst (Llm.call_llm E text img h) = Ret d /\
       get (lit "error") d = Some (PStr (lit "Failed to fetch the details")) /\
       get (lit "raw_error") d = Some (PStr (exc_str e)) /\
       get (lit "exception_type") d = Some (PStr (exc_type_name e))).
Proof.
  intros c. unfold Llm.call_llm. fold c. generalize c. clear c. intros c.
  run. repeat split.
  - intros r Hg Ht. rewrite Hg. cbv beta iota. rewrite Ht. simpl.
    eexists. split; reflexivity.
  - intros r body msg Hg Ht Hne Hj. rewrite Hg. cbv beta iota. rewrite Ht.
    destruct body as [|x body]; [contradiction|]. simpl. rewrite Hj. simpl.
    unfold Llm.call_llm_handlers. simpl. run. rewrite Ht.
    eexists. repeat split; reflexivity.
  - intros e Hg Hb. rewrite Hg. cbv beta iota.
    unfold Llm.call_llm_handlers. run.
    destruct (exc_base e); try contradiction;
      eexists; repeat split; reflexivity.
Qed.

(* ================================================================== *)
(** * Further properties of the code *)

(** ** The language table *)

(** Every pair of the table is recovered in both directions: the code of
    a listed name is its code, and the name of that code is the name. *)
Theorem language_table_round_trip (name code : str) :
  In (name, code) SarvamTranslator.LANGUAGE_CODES ->
  SarvamTranslator.get_language_code name = code /\
  SarvamTranslator.get_language_name code = name.
Proof.
  intros Hin. unfold SarvamTranslator.LANGUAGE_CODES in Hin.
  cbn [In] in Hin.
  repeat (destruct Hin as [Hin|Hin];
          [injection Hin as <- <-; split; vm_compute; reflexivity|]).
  contradiction.
Qed.

Lemma language_table_round_trip_witness :
  SarvamTranslator.get_language_code Mock.hindi = lit "hi-IN" /\
  SarvamTranslator.get_language_name (lit "hi-IN") = Mock.hindi.
Proof.
  apply (language_table_round_trip Mock.hindi (lit "hi-IN")).
  right; left. reflexivity.
Defined.

Lemma lookup_code_unlisted (name : str) (table : list (str * str)) :
  (forall code, ~ In (name, code) table) ->
  SarvamTranslator.lookup_code name table = lit "en-IN".
Proof.
  induction table as [|[n c] table IH]; intros Hout; [reflexivity|].
  cbn [SarvamTranslator.lookup_code].
  destruct (str_eqb name n) eqn:Heq.
  - apply str_eqb_eq in Heq. subst n. exfalso. apply (Hout c). now left.
  - apply IH. intros code Hin. apply (Hout code). now right.
Qed.

(** A language name that is not in the table is given the English code,
    so a request in such a language is sent to the provider as a
    translation from English to English. *)
Theorem unlisted_language_is_sent_as_english
  (E : env) (text : pyval) (name : str) (h : history) :
  (forall code, ~ In (name, code) SarvamTranslator.LANGUAGE_CODES) ->
  SarvamTranslator.get_language_code name = lit "en-IN" /\
  SarvamTranslator.translate_to_english E text name h
    = SarvamTranslator.translate E text (lit "en-IN") (lit "en-IN") h.
Proof.
  intros Hout.
  assert (Hcode : SarvamTranslator.get_language_code name = lit "en-IN")
    by (apply lookup_code_unlisted; exact Hout).
  split; [exact Hcode|].
  unfold SarvamTranslator.translate_to_english.
  destruct (str_eqb name (lit "English")) eqn:Heq.
  - apply str_eqb_eq in Heq. subst name. exfalso.
    apply (Hout (lit "en-IN")). left. reflexivity.
  - now rewrite Hcode.
Qed.

Lemma unlisted_language_is_sent_as_english_witness :
  snd (SarvamTranslator.translate_to_english
         (Mock.provide Mock.sarvam_echo (Mock.gemini_answers []))
         (PStr (lit "bonjour")) (lit "French") [])
  = [SarvamPost (PStr (lit "bonjour")) (lit "en-IN") (lit "en-IN")].
Proof.
  destruct (unlisted_language_is_sent_as_english
              (Mock.provide Mock.sarvam_echo (Mock.gemini_answers []))
              (PStr (lit "bonjour")) (lit "French") []) as [_ Heq].
  - intros code Hin. unfold SarvamTranslator.LANGUAGE_CODES in Hin.
    cbn [In] in Hin.
    repeat (destruct Hin as [Hin|Hin]; [discriminate Hin|]).
    contradiction.
  - rewrite Heq. reflexivity.
Defined.

(* ------------------------------------------------------------------ *)
(** ** The messaging endpoint, continued *)

Lemma filter_filter {A} (f : A -> bool) (l : list A) :
  filter f (filter f l) = filter f l.
Proof.
  induction l as [|x l IH]; [reflexivity|]. cbn [filter].
  destruct (f x) eqn:Hx; [|exact IH].
  cbn [filter]. now rewrite Hx, IH.
Qed.

(** Normalising a phone number twice gives what normalising it once
    gives, as soon as 9 and 1 count as digits. *)
Theorem clean_phone_idempotent (E : env) (phone_number : str) :
  isdigit E 57%N = true ->
  isdigit E 49%N = true ->
  MainMultilanguage.clean_phone E (MainMultilanguage.clean_phone E phone_number)
    = MainMultilanguage.clean_phone E phone_number.
Proof.
  intros H9 H1. unfold MainMultilanguage.clean_phone.
  set (digits := filter (isdigit E) phone_number).
  assert (Hd : filter (isdigit E) digits = digits) by apply filter_filter.
  destruct (negb (startswith digits (lit "91")) &&
            Nat.eqb (List.length digits) 10) eqn:Hcond.
  - change (lit "91" ++ digits) with (57%N :: 49%N :: digits).
    cbn [filter]. rewrite H9, H1, Hd.
    change (startswith (57%N :: 49%N :: digits) (lit "91")) with true.
    reflexivity.
  - rewrite Hd, Hcond. reflexivity.
Qed.

Lemma clean_phone_idempotent_witness :
  let E := Mock.provide Mock.sarvam_echo (Mock.gemini_answers []) in
  MainMultilanguage.clean_phone E
    (MainMultilanguage.clean_phone E (lit "98765-43210"))
  = MainMultilanguage.clean_phone E (lit "98765-43210").
Proof.
  intros E. apply (clean_phone_idempotent E (lit "98765-43210"));
    reflexivity.
Defined.

(** What [send_whatsapp] does.  Not configured: nothing is sent and the
    answer says so.  Configured: one message is handed to the provider;
    its acceptance gives status sent, a [TwilioRestException] gives status
    failed, and an exception of any other class leaves the endpoint. *)
Theorem send_whatsapp_outcomes
  (E : env) (phone_number : str) (message report : option str)
  (user_language request_id : str) (h : history) :
  let run := MainMultilanguage.send_whatsapp E phone_number message report
                                             user_language request_id h in
  let to := MainMultilanguage.whatsapp_to E phone_number in
  let body := MainMultilanguage.message_body message report in
  let answer := messages_create E h (TWILIO_WHATSAPP_NUMBER E) to body in
  (TWILIO_ENABLED E = false ->
     snd run = h /\
     exists d, fst run = Ret d /\
       get (lit "success") d = Some (PBool false) /\
       get (lit "status") d = Some (PStr (lit "twilio_not_configured"))) /\
  (TWILIO_ENABLED E = true ->
     snd run = h ++ [TwilioCreate (TWILIO_WHATSAPP_NUMBER E) to body] /\
     match answer with
     | Ret _ =>
         exists d, fst run = Ret d /\
           get (lit "success") d = Some (PBool true) /\
           get (lit "status") d = Some (PStr (lit "sent"))
     | Raise e =>
         match exc_base e with
         | TwilioRestException =>
             exists d, fst run = Ret d /\
               get (lit "success") d = Some (PBool false) /\
               get (lit "status") d = Some (PStr (lit "failed"))
         | _ => fst run = Raise e
         end
     end).
Proof.
  cbv zeta. unfold MainMultilanguage.send_whatsapp. split; intros Hen;
    rewrite Hen; cbn [negb].
  - run. cbn [fst snd]. split; [reflexivity|].
    eexists. repeat split; reflexivity.
  - run. cbv beta iota.
    destruct (messages_create E h _ _ _) as [sid|e]; cbn [fst snd].
    + split; [reflexivity|]. eexists. repeat split; reflexivity.
    + destruct (exc_base e); cbn [fst snd]; (split; [reflexivity|]);
        try reflexivity.
      eexists. repeat split; reflexivity.
Qed.

(* ------------------------------------------------------------------ *)
(** ** The translation adapter, continued *)

Section Adapter.
Variable E : env.

(** On a text, [translate] returns, and a result that reports success
    carries a translated text that can be sliced. *)
Lemma translate_text_result (text src tgt : str) (h : history) :
  exists d h',
    SarvamTranslator.translate E (PStr text) src tgt h = (Ret d, h') /\
    (truthy (get_or_none (lit "success") d) = true ->
     forall default,
       py_slice (get_default (lit "translated_text") default d) = Ret tt).
Proof.
  unfold SarvamTranslator.translate.
  destruct (SarvamTranslator.enabled E); cbn [negb]; run; cbv beta iota.
  2:{ eexists; eexists. split; [reflexivity|]. discriminate. }
  simpl py_len. simpl py_slice. cbv beta iota.
  set (h1 := h ++ [SarvamPost (PStr text) src tgt]).
  assert (Hcaught : forall e, exists d h',
            SarvamTranslator.translate_handlers (PStr text) e h1 = (Ret d, h') /\
            (truthy (get_or_none (lit "success") d) = true ->
             forall default,
               py_slice (get_default (lit "translated_text") default d)
                 = Ret tt)).
  { intros e. destruct (translate_handlers_ret (PStr text) e h1)
      as (d & Hd & Hs & _).
    exists d, h1. split; [exact Hd|].
    unfold get_or_none, get_default. rewrite Hs. discriminate. }
  destruct (sarvam_post E h (PStr text) src tgt) as [resp|e];
    cbv beta iota; [|apply Hcaught].
  destruct (Z.eqb (status_code resp) 200); cbv beta iota.
  2:{ eexists; eexists. split; [reflexivity|]. discriminate. }
  unfold SarvamTranslator.response_json. run.
  destruct (json_loads E (response_text resp)) as [v|msg]; cbv beta iota;
    [|apply Hcaught].
  destruct v; cbv beta iota; try apply Hcaught.
  destruct (py_slice (get_default (lit "translated_text") (PStr []) d))
    as [[]|e] eqn:Hslice; cbv beta iota; [|apply Hcaught].
  eexists; eexists. split; [reflexivity|].
  intros _ default. exact Hslice.
Qed.

Lemma translate_to_english_text_result (text lang : str) (h : history) :
  exists d h',
    SarvamTranslator.translate_to_english E (PStr text) lang h = (Ret d, h') /\
    (truthy (get_or_none (lit "success") d) = true ->
     forall default,
       py_slice (get_default (lit "translated_text") default d) = Ret tt).
Proof.
  unfold SarvamTranslator.translate_to_english.
  destruct (str_eqb lang (lit "English")); [|apply translate_text_result].
  eexists; eexists. split; [reflexivity|]. intros _ default. reflexivity.
Qed.

Lemma translate_from_english_text_result (text lang : str) (h : history) :
  exists d h',
    SarvamTranslator.translate_from_english E (PStr text) lang h
      = (Ret d, h') /\
    (truthy (get_or_none (lit "success") d) = true ->
     forall default,
       py_slice (get_default (lit "translated_text") default d) = Ret tt).
Proof.
  unfold SarvamTranslator.translate_from_english.
  destruct (str_eqb lang (lit "English")); [|apply translate_text_result].
  eexists; eexists. split; [reflexivity|]. intros _ default. reflexivity.
Qed.

End Adapter.

(** A translation succeeds when the provider answers 200 with a JSON
    object whose translated text is a string or a list.  The result then
    has [success = True], the two language codes, the provider's
    translated text (the empty string when the object has none), its
    detected language ([None] when absent) and its confidence (1.0 when
    absent). *)
Theorem translate_success
  (E : env) (text src tgt : str) (h : history) (body : str) (d : dict) :
  SarvamTranslator.enabled E = true ->
  sarvam_post E h (PStr text) src tgt = Ret (mk_Response 200 body) ->
  json_loads E body = inl (PDict d) ->
  py_slice (get_default (lit "translated_text") (PStr []) d) = Ret tt ->
  exists r,
    SarvamTranslator.translate E (PStr text) src tgt h
      = (Ret r, h ++ [SarvamPost (PStr text) src tgt]) /\
    get (lit "success") r = Some (PBool true) /\
    get (lit "original_text") r = Some (PStr text) /\
    get (lit "translated_text") r
      = Some (get_default (lit "translated_text") (PStr []) d) /\
    get (lit "source_language") r = Some (PStr src) /\
    get (lit "target_language") r = Some (PStr tgt) /\
    get (lit "detected_language") r
      = Some (get_or_none (lit "detected_language") d) /\
    get (lit "confidence") r
      = Some (get_default (lit "confidence") (PFloat 0x3FF0000000000000) d).
Proof.
  intros Hen Hpost Hjson Hslice.
  unfold SarvamTranslator.translate. rewrite Hen. cbn [negb]. run.
  cbv beta iota. simpl py_len. simpl py_slice. cbv beta iota.
  rewrite Hpost. cbn [status_code]. change (Z.eqb 200 200) with true.
  cbv beta iota. unfold SarvamTranslator.response_json.
  cbn [response_text]. rewrite Hjson. run. cbv beta iota.
  rewrite Hslice.
  eexists. split; [reflexivity|]. repeat split; reflexivity.
Qed.

Lemma translate_success_witness :
  let E := Mock.provide (Mock.sarvam_answers (lit "I have a fever"))
                        (Mock.gemini_answers []) in
  exists r,
    SarvamTranslator.translate E (PStr (lit "mujhe bukhar hai"))
                               (lit "hi-IN") (lit "en-IN") []
      = (Ret r, [SarvamPost (PStr (lit "mujhe bukhar hai"))
                            (lit "hi-IN") (lit "en-IN")]) /\
    get (lit "success") r = Some (PBool true) /\
    get (lit "translated_text") r = Some (PStr (lit "I have a fever")) /\
    get (lit "confidence") r = Some (PFloat 0x3FF0000000000000).
Proof.
  intros E.
  destruct (translate_success E (lit "mujhe bukhar hai") (lit "hi-IN")
              (lit "en-IN") []
              (Mock.translated_body (lit "I have a fever"))
              [(lit "translated_text", PStr (lit "I have a fever"))])
    as (r & Hr & Hs & _ & Ht & _ & _ & _ & Hc);
    [reflexivity | reflexivity | reflexivity | reflexivity |].
  exists r. repeat split; assumption.
Defined.

(** A status in the 2xx range other than 200 is treated as a failure:
    the result has [success = False] and the body is passed on as
    [details]. *)
Theorem translate_other_2xx_is_failure
  (E : env) (text src tgt : str) (h : history) (response : Response) :
  SarvamTranslator.enabled E = true ->
  sarvam_post E h (PStr text) src tgt = Ret response ->
  (200 < status_code response < 300)%Z ->
  exists r,
    SarvamTranslator.translate E (PStr text) src tgt h
      = (Ret r, h ++ [SarvamPost (PStr text) src tgt]) /\
    get (lit "success") r = Some (PBool false) /\
    get (lit "error") r
      = Some (PStr (lit "API returned status " ++
                    str_of_Z (status_code response))) /\
    get (lit "details") r = Some (PStr (response_text response)) /\
    get (lit "translated_text") r = None.
Proof.
  intros Hen Hpost Hst.
  assert (Hne : Z.eqb (status_code response) 200 = false)
    by (apply Z.eqb_neq; lia).
  unfold SarvamTranslator.translate. rewrite Hen. cbn [negb]. run.
  cbv beta iota. simpl py_len. simpl py_slice. cbv beta iota.
  rewrite Hpost, Hne. cbv beta iota.
  eexists. split; [reflexivity|]. repeat split; reflexivity.
Qed.

Lemma translate_other_2xx_is_failure_witness :
  let E := Mock.provide (Mock.sarvam_status 204) (Mock.gemini_answers []) in
  exists r,
    SarvamTranslator.translate E (PStr (lit "mujhe bukhar hai"))
                               (lit "hi-IN") (lit "en-IN") []
      = (Ret r, [SarvamPost (PStr (lit "mujhe bukhar hai"))
                            (lit "hi-IN") (lit "en-IN")]) /\
    get (lit "success") r = Some (PBool false) /\
    get (lit "error") r = Some (PStr (lit "API returned status 204")).
Proof.
  intros E.
  destruct (translate_other_2xx_is_failure E (lit "mujhe bukhar hai")
              (lit "hi-IN") (lit "en-IN") []
              (mk_Response 204 (lit "Internal Server Error")))
    as (r & Hr & Hs & He & _);
    [reflexivity | reflexivity | cbn; lia |].
  exists r. repeat split; assumption.
Defined.

(** With the service configured, a value without a length (a number,
    [None], a boolean) makes [translate] raise before anything is sent:
    the [TypeError] of the log line in front of the [try]. *)
Theorem translate_raises_on_unsized_text
  (E : env) (text : pyval) (src tgt : str) (h : history) (e : exn) :
  SarvamTranslator.enabled E = true ->
  py_len text = Raise e ->
  SarvamTranslator.translate E text src tgt h = (Raise e, h).
Proof.
  intros Hen Hlen. unfold SarvamTranslator.translate.
  rewrite Hen. cbn [negb]. run. cbv beta iota. now rewrite Hlen.
Qed.

Lemma translate_raises_on_unsized_text_witness :
  SarvamTranslator.translate
    (Mock.provide Mock.sarvam_echo (Mock.gemini_answers []))
    (PInt 7) (lit "en-IN") (lit "hi-IN") []
  = (Raise (TypeError (lit "object of type 'int' has no len()")), []).
Proof.
  apply (translate_raises_on_unsized_text
           (Mock.provide Mock.sarvam_echo (Mock.gemini_answers []))
           (PInt 7) (lit "en-IN") (lit "hi-IN") []); reflexivity.
Defined.

(** The run of [translate] on the successful path, written out. *)
Lemma translate_ok_run
  (E : env) (text src tgt : str) (h : history) (body : str) (d : dict) :
  SarvamTranslator.enabled E = true ->
  sarvam_post E h (PStr text) src tgt = Ret (mk_Response 200 body) ->
  json_loads E body = inl (PDict d) ->
  py_slice (get_default (lit "translated_text") (PStr []) d) = Ret tt ->
  SarvamTranslator.translate E (PStr text) src tgt h
  = (Ret [ (lit "success", PBool true);
           (lit "original_text", PStr text);
           (lit "translated_text",
            get_default (lit "translated_text") (PStr []) d);
           (lit "source_language", PStr src);
           (lit "target_language", PStr tgt);
           (lit "detected_language", get_or_none (lit "detected_language") d);
           (lit "confidence",
            get_default (lit "confidence") (PFloat 0x3FF0000000000000) d) ],
     h ++ [SarvamPost (PStr text) src tgt]).
Proof.
  intros Hen Hpost Hjson Hslice.
  unfold SarvamTranslator.translate. rewrite Hen. cbn [negb]. run.
  cbv beta iota. simpl py_len. simpl py_slice. cbv beta iota.
  rewrite Hpost. cbn [status_code]. change (Z.eqb 200 200) with true.
  cbv beta iota. unfold SarvamTranslator.response_json.
  cbn [response_text]. rewrite Hjson. run. cbv beta iota.
  rewrite Hslice. reflexivity.
Qed.

(** [detect_language] never raises on a text.  It answers [None] when the
    service is not configured; when the translation succeeds it answers
    the provider's [detected_language], and [None] when the provider
    gave none: the "en-IN" default of the lookup is never used, because
    a successful result always has the key. *)
Theorem detect_language_result (E : env) (text : str) (h : history) :
  exists v h',
    SarvamTranslator.detect_language E (PStr text) h = (Ret v, h') /\
    (SarvamTranslator.enabled E = false -> v = PNone /\ h' = h) /\
    (forall body d,
       SarvamTranslator.enabled E = true ->
       sarvam_post E h (PStr text) (lit "auto") (lit "en-IN")
         = Ret (mk_Response 200 body) ->
       json_loads E body = inl (PDict d) ->
       py_slice (get_default (lit "translated_text") (PStr []) d) = Ret tt ->
       v = get_or_none (lit "detected_language") d).
Proof.
  unfold SarvamTranslator.detect_language. simpl py_slice. run.
  cbv beta iota.
  destruct (translate_text_result E text (lit "auto") (lit "en-IN") h)
    as (r & h' & Hr & _).
  rewrite Hr.
  exists (if truthy (get_or_none (lit "success") r)
          then get_default (lit "detected_language") (PStr (lit "en-IN")) r
          else PNone), h'.
  split; [destruct (truthy _); reflexivity|]. split.
  - intros Hen. unfold SarvamTranslator.translate in Hr.
    rewrite Hen in Hr. cbn [negb] in Hr. unfold ret in Hr.
    injection Hr as <- <-. split; reflexivity.
  - intros body d Hen Hpost Hjson Hslice.
    rewrite (translate_ok_run E text _ _ h body d Hen Hpost Hjson Hslice)
      in Hr.
    injection Hr as <- <-. reflexivity.
Qed.

(** For English the whole round trip is local: nothing is sent, and the
    result hands back the input and the response as they are. *)
Theorem bidirectional_translate_english
  (E : env) (user_input gemini_response : str) (h : history) :
  exists d,
    SarvamTranslator.bidirectional_translate
      E (PStr user_input) (lit "English") (PStr gemini_response) h
      = (Ret d, h) /\
    get (lit "success") d = Some (PBool true) /\
    get (lit "english_input") d = Some (PStr user_input) /\
    get (lit "english_response") d = Some (PStr gemini_response) /\
    get (lit "translated_response") d = Some (PStr gemini_response).
Proof.
  eexists. split; [reflexivity|]. repeat split; reflexivity.
Qed.

(** When the translation of the user's input fails, the round trip stops
    there: the response is not sent for translation (the history is the
    one the first translation left), and the result reports the failure
    together with the failed translation. *)
Theorem bidirectional_translate_stops_at_input_failure
  (E : env) (user_input : pyval) (user_language : str)
  (gemini_response : pyval) (h h1 : history) (t : dict) :
  SarvamTranslator.translate_to_english E user_input user_language h
    = (Ret t, h1) ->
  truthy (get_or_none (lit "success") t) = false ->
  exists d,
    SarvamTranslator.bidirectional_translate
      E user_input user_language gemini_response h = (Ret d, h1) /\
    get (lit "success") d = Some (PBool false) /\
    get (lit "error") d = Some (PStr (lit "Failed to translate user input")) /\
    get (lit "input_translation") d = Some (PDict t) /\
    get (lit "translated_response") d = None.
Proof.
  intros Htr Hfail. unfold SarvamTranslator.bidirectional_translate.
  unfold bind at 1. rewrite Htr, Hfail. cbn [negb].
  eexists. split; [reflexivity|]. repeat split; reflexivity.
Qed.

Lemma bidirectional_translate_stops_at_input_failure_witness :
  let E := Mock.provide (Mock.sarvam_status 500) (Mock.gemini_answers []) in
  exists d,
    SarvamTranslator.bidirectional_translate
      E (PStr (lit "mujhe bukhar hai")) Mock.hindi
      (PStr (lit "Rest and hydrate")) []
      = (Ret d, [SarvamPost (PStr (lit "mujhe bukhar hai"))
                            (lit "hi-IN") (lit "en-IN")]) /\
    get (lit "success") d = Some (PBool false) /\
    get (lit "error") d = Some (PStr (lit "Failed to translate user input")).
Proof.
  intros E.
  edestruct (bidirectional_translate_stops_at_input_failure
               E (PStr (lit "mujhe bukhar hai")) Mock.hindi
               (PStr (lit "Rest and hydrate")) [])
    as (d & Hd & Hs & He & _);
    [vm_compute; reflexivity | reflexivity |].
  exists d. repeat split; assumption.
Defined.

(** When the input is translated and the translation of the response
    fails, the result reports the failure and falls back to the English
    response as the translated response. *)
Theorem bidirectional_translate_falls_back_to_english
  (E : env) (user_input : pyval) (user_language : str)
  (gemini_response : pyval) (h h1 h2 : history) (t1 t2 : dict) :
  SarvamTranslator.translate_to_english E user_input user_language h
    = (Ret t1, h1) ->
  truthy (get_or_none (lit "success") t1) = true ->
  py_slice (get_default (lit "translated_text") user_input t1) = Ret tt ->
  SarvamTranslator.translate_from_english E gemini_response user_language h1
    = (Ret t2, h2) ->
  truthy (get_or_none (lit "success") t2) = false ->
  exists d,
    SarvamTranslator.bidirectional_translate
      E user_input user_language gemini_response h = (Ret d, h2) /\
    get (lit "success") d = Some (PBool false) /\
    get (lit "error") d = Some (PStr (lit "Failed to translate response")) /\
    get (lit "english_input") d
      = Some (get_default (lit "translated_text") user_input t1) /\
    get (lit "english_response") d = Some gemini_response /\
    get (lit "translated_response") d = Some gemini_response.
Proof.
  intros Htr1 Hok1 Hslice Htr2 Hfail2.
  unfold SarvamTranslator.bidirectional_translate.
  unfold bind at 1. rewrite Htr1, Hok1. cbn [negb]. run. cbv beta iota.
  rewrite Hslice, Htr2, Hfail2. cbn [negb].
  eexists. split; [reflexivity|]. repeat split; reflexivity.
Qed.

(** A provider that translates the first request and refuses the
    second. *)
Lemma bidirectional_translate_falls_back_to_english_witness :
  let sarvam := fun (h : history) (input : pyval) (src tgt : str) =>
                  match h with
                  | [] => Mock.sarvam_answers (lit "I have a fever")
                                              h input src tgt
                  | _ => Mock.sarvam_status 429 h input src tgt
                  end in
  let E := Mock.provide sarvam (Mock.gemini_answers []) in
  exists d h2,
    SarvamTranslator.bidirectional_translate
      E (PStr (lit "mujhe bukhar hai")) Mock.hindi
      (PStr (lit "Rest and hydrate")) [] = (Ret d, h2) /\
    get (lit "english_input") d = Some (PStr (lit "I have a fever")) /\
    get (lit "translated_response") d = Some (PStr (lit "Rest and hydrate")).
Proof.
  intros sarvam E.
  edestruct (bidirectional_translate_falls_back_to_english
               E (PStr (lit "mujhe bukhar hai")) Mock.hindi
               (PStr (lit "Rest and hydrate")) [])
    as (d & Hd & _ & _ & Hin & _ & Hout);
    [vm_compute; reflexivity | reflexivity | reflexivity
    | vm_compute; reflexivity | reflexivity |].
  exists d. eexists. split; [exact Hd|]. split; assumption.
Defined.

(** On texts the round trip never raises, whatever the provider does. *)
Theorem bidirectional_translate_returns
  (E : env) (user_input user_language gemini_response : str) (h : history) :
  exists d h',
    SarvamTranslator.bidirectional_translate
      E (PStr user_input) user_language (PStr gemini_response) h
      = (Ret d, h') /\
    exists b, get (lit "success") d = Some (PBool b).
Proof.
  unfold SarvamTranslator.bidirectional_translate.
  destruct (translate_to_english_text_result E user_input user_language h)
    as (t1 & h1 & Ht1 & Hs1).
  unfold bind at 1. rewrite Ht1.
  destruct (truthy (get_or_none (lit "success") t1)) eqn:Hok1; cbn [negb].
  2:{ eexists; eexists. split; [reflexivity|]. eexists; reflexivity. }
  run. cbv beta iota. rewrite (Hs1 eq_refl).
  destruct (translate_from_english_text_result E gemini_response
              user_language h1) as (t2 & h2 & Ht2 & Hs2).
  rewrite Ht2.
  destruct (truthy (get_or_none (lit "success") t2)) eqn:Hok2; cbn [negb].
  2:{ eexists; eexists. split; [reflexivity|]. eexists; reflexivity. }
  rewrite (Hs2 eq_refl).
  eexists; eexists. split; [reflexivity|]. eexists; reflexivity.
Qed.

(* ------------------------------------------------------------------ *)
(** ** The AI client, continued *)

Lemma call_llm_returns_witness :
  exists d,
    fst (Llm.call_llm
           (Mock.provide Mock.sarvam_echo
              (Mock.gemini_answers (Mock.triage_body (Mock.quoted (lit "LOW")))))
           (lit "I have a mild headache since yesterday") None [])
    = Ret d.
Proof.
  apply (call_llm_returns
           (Mock.provide Mock.sarvam_echo
              (Mock.gemini_answers (Mock.triage_body (Mock.quoted (lit "LOW")))))
           (lit "I have a mild headache since yesterday") None []).
  - intros c e He. discriminate He.
  - intros c r e Hr He. injection Hr as <-. discriminate He.
Defined.

(** A body that parses is handed on as it is when it is a JSON object,
    whatever fields it has; any other JSON value (a list, a string, a
    number, null) gives the error outcome of an [AttributeError]. *)
Theorem call_llm_parsed_body
  (E : env) (text : str) (img : option (list Byte.byte)) (h : history)
  (r : GenerateContentResponse) (body : str) (v : pyval) :
  generate_content E h (Llm.build_content E text img) = Ret r ->
  gen_text r = Ret body ->
  body <> [] ->
  json_loads E body = inl v ->
  fst (Llm.call_llm E text img h)
  = Ret match v with
        | PDict d => d
        | _ =>
            [ (lit "error", PStr (lit "Failed to fetch the details"));
              (lit "raw_error",
               PStr (lit "'" ++ type_name v ++
                     lit "' object has no attribute 'keys'"));
              (lit "exception_type", PStr (lit "AttributeError")) ]
        end.
Proof.
  intros Hg Ht Hne Hj. unfold Llm.call_llm. run. cbv beta iota zeta.
  rewrite Hg. cbv beta iota. rewrite Ht.
  destruct body as [|x body]; [contradiction|].
  cbn [truthy negb]. cbv beta iota. rewrite Hj. cbv beta iota.
  destruct v; reflexivity.
Qed.

Lemma call_llm_parsed_body_witness :
  fst (Llm.call_llm
         (Mock.provide Mock.sarvam_echo (Mock.gemini_answers (lit "{}")))
         (lit "I have a mild headache since yesterday") None [])
  = Ret [].
Proof.
  apply (call_llm_parsed_body
           (Mock.provide Mock.sarvam_echo (Mock.gemini_answers (lit "{}")))
           (lit "I have a mild headache since yesterday") None []
           (mk_GenerateContentResponse (Ret (lit "{}"))) (lit "{}")
           (PDict []));
    try reflexivity.
  discriminate.
Defined.

(** Every call of [call_llm] sends exactly one request.  Its prompt
    contains the triage instructions and the symptom text, unaltered; the
    picture goes with it exactly when there are bytes and they open as
    an image. *)
Theorem call_llm_request
  (E : env) (text : str) (img : option (list Byte.byte)) (h : history) :
  exists prompt,
    snd (Llm.call_llm E text img h)
      = h ++ [GeminiGenerate
                (Prompt prompt ::
                 match img with
                 | Some ((_ :: _) as b) =>
                     if Image_open E b then [Image b] else []
                 | _ => []
                 end)] /\
    contains Prompts.TRIAGE_PROMPT prompt = true /\
    contains text prompt = true.
Proof.
  destruct (call_llm_run E text img h) as [Hsnd _]. cbv zeta in Hsnd.
  eexists. split; [exact Hsnd|]. split.
  - apply (contains_app Prompts.TRIAGE_PROMPT (nl ++ lit "    ")).
  - match goal with
    | |- contains text ?p = true =>
        replace p with
          ((nl ++ lit "    " ++ Prompts.TRIAGE_PROMPT ++ nl ++ nl ++
            lit "    Patient Symptoms:" ++ nl ++ lit "    ")
           ++ text ++ (nl ++ lit "    "))
          by (rewrite <- !app_assoc; reflexivity)
    end.
    apply contains_app.
Qed.

(* ------------------------------------------------------------------ *)
(** ** The single-language service, continued *)

Lemma single_language_risk_is_a_level_witness :
  let E := Mock.provide
             Mock.sarvam_echo
             (Mock.gemini_answers
                (Mock.triage_body (Mock.quoted (lit "unknown")))) in
  exists d h',
    Main.analyze E (lit "I have a mild headache since yesterday") None
                 Mock.rid [] = (Ret d, h') /\
    exists level,
      risk_of d = Some (PStr level) /\
      In level [lit "LOW"; lit "MODERATE"; lit "HIGH"; lit "ERROR"].
Proof.
  intros E. eexists; eexists. split; [vm_compute; reflexivity|].
  eapply (single_language_risk_is_a_level
            E (lit "I have a mild headache since yesterday") None Mock.rid []).
  vm_compute. reflexivity.
Defined.

(* ------------------------------------------------------------------ *)
(** ** The calls a request makes *)

Lemma translation_calls_nil (n : nat) : translation_calls n [].
Proof. split; [cbn; lia | reflexivity]. Qed.

Lemma translation_calls_app (n m : nat) (a b : list event) :
  translation_calls n a -> translation_calls m b ->
  translation_calls (n + m) (a ++ b).
Proof.
  intros [Hn Ha] [Hm Hb]. split.
  - rewrite length_app. lia.
  - rewrite forallb_app, Ha, Hb. reflexivity.
Qed.

Ltac no_calls :=
  exists []; rewrite app_nil_r; split; [reflexivity|];
  split; [apply translation_calls_nil | intros; reflexivity].

Section Calls.
Variable E : env.

Lemma translate_calls (text : pyval) (src tgt : str) (h : history) :
  exists evs,
    snd (SarvamTranslator.translate E text src tgt h) = h ++ evs /\
    translation_calls 1 evs.
Proof.
  unfold SarvamTranslator.translate.
  destruct (SarvamTranslator.enabled E); cbn [negb].
  2:{ exists []. rewrite app_nil_r. split;
        [reflexivity | apply translation_calls_nil]. }
  run. cbv beta iota.
  destruct (py_len text); cbv beta iota;
    [|exists []; rewrite app_nil_r; split;
      [reflexivity | apply translation_calls_nil]].
  destruct (py_slice text); cbv beta iota;
    [|exists []; rewrite app_nil_r; split;
      [reflexivity | apply translation_calls_nil]].
  exists [SarvamPost text src tgt]. split; [|split; [cbn; lia | reflexivity]].
  destruct (sarvam_post E h text src tgt) as [resp|e]; cbv beta iota;
    [|apply translate_handlers_history].
  destruct (Z.eqb (status_code resp) 200); cbv beta iota; [|reflexivity].
  unfold SarvamTranslator.response_json. run.
  destruct (json_loads E (response_text resp)) as [v|msg]; cbv beta iota;
    [|apply translate_handlers_history].
  destruct v; cbv beta iota; try apply translate_handlers_history.
  destruct (py_slice _) as [|e]; cbv beta iota;
    [reflexivity | apply translate_handlers_history].
Qed.

Lemma translate_to_english_calls (text : pyval) (lang : str) (h : history) :
  exists evs,
    snd (SarvamTranslator.translate_to_english E text lang h) = h ++ evs /\
    translation_calls 1 evs /\
    (str_eqb lang (lit "English") = true -> evs = []).
Proof.
  unfold SarvamTranslator.translate_to_english.
  destruct (str_eqb lang (lit "English")).
  - no_calls.
  - destruct (translate_calls text (SarvamTranslator.get_language_code lang)
                (lit "en-IN") h) as (evs & Hh & Hc).
    exists evs. split; [exact Hh|]. split; [exact Hc | discriminate].
Qed.

Lemma translate_from_english_calls (text : pyval) (lang : str)
      (h : history) :
  exists evs,
    snd (SarvamTranslator.translate_from_english E text lang h) = h ++ evs /\
    translation_calls 1 evs /\
    (str_eqb lang (lit "English") = true -> evs = []).
Proof.
  unfold SarvamTranslator.translate_from_english.
  destruct (str_eqb lang (lit "English")).
  - no_calls.
  - destruct (translate_calls text (lit "en-IN")
                (SarvamTranslator.get_language_code lang) h)
      as (evs & Hh & Hc).
    exists evs. split; [exact Hh|]. split; [exact Hc | discriminate].
Qed.

Lemma inbound_translation_calls (text lang : str) (h : history) :
  exists evs,
    snd (MainMultilanguage.inbound_translation E text lang h) = h ++ evs /\
    translation_calls 1 evs /\
    (str_eqb lang (lit "English") = true -> evs = []).
Proof.
  unfold MainMultilanguage.inbound_translation.
  destruct (str_eqb lang (lit "English")) eqn:Hlang; cbn [negb].
  { no_calls. }
  run. cbv beta iota.
  destruct (translate_to_english_calls (PStr text) lang h)
    as (evs & Hh & Hc & _).
  destruct (SarvamTranslator.translate_to_english E (PStr text) lang h)
    as [[d|e] h1]; cbn [snd] in Hh; subst h1; exists evs;
    (split; [|split; [exact Hc | discriminate]]).
  - destruct (truthy _); cbv beta iota; [|reflexivity].
    destruct (py_slice _); reflexivity.
  - reflexivity.
Qed.

(** Two translations in a row, each of whose failure ends the block. *)
Lemma two_translations_calls {A} (lang : str) (t1 : pyval)
      (t2 : dict -> pyval) (stop : A) (mid : dict -> A)
      (done : dict -> dict -> A) (h : history) :
  exists evs,
    snd (try_or_return
           (SarvamTranslator.translate_from_english E t1 lang)
           (fun _ => ret stop)
           (fun a =>
              try_or_return
                (SarvamTranslator.translate_from_english E (t2 a) lang)
                (fun _ => ret (mid a))
                (fun b => ret (done a b))) h) = h ++ evs /\
    translation_calls 2 evs.
Proof.
  run. cbv beta iota.
  destruct (translate_from_english_calls t1 lang h) as (evs1 & Hh1 & Hc1 & _).
  destruct (SarvamTranslator.translate_from_english E t1 lang h)
    as [[a|e] h1]; cbn [snd] in Hh1; subst h1.
  2:{ exists evs1. split; [reflexivity|].
      destruct Hc1 as [Hn Hf]. split; [lia | exact Hf]. }
  destruct (translate_from_english_calls (t2 a) lang (h ++ evs1))
    as (evs2 & Hh2 & Hc2 & _).
  exists (evs1 ++ evs2). rewrite app_assoc. split.
  - destruct (SarvamTranslator.translate_from_english E (t2 a) lang
                (h ++ evs1)) as [[b|e] h2]; cbn [snd] in *; exact Hh2.
  - apply (translation_calls_app 1 1); assumption.
Qed.

Lemma translate_emergency_calls (lang : str) (response : dict)
      (h : history) :
  exists evs,
    snd (MainMultilanguage.translate_emergency E lang response h)
      = h ++ evs /\
    translation_calls 2 evs /\
    (str_eqb lang (lit "English") = true -> evs = []).
Proof.
  unfold MainMultilanguage.translate_emergency.
  destruct (str_eqb lang (lit "English")) eqn:Hlang; cbn [negb].
  { no_calls. }
  match goal with
  | |- exists evs, snd ?X = _ /\ _ =>
      cut (exists evs, snd X = h ++ evs /\ translation_calls 2 evs);
        [intros (evs & Hh & Hc); exists evs;
         split; [exact Hh | split; [exact Hc | discriminate]]
        |apply two_translations_calls]
  end.
Qed.

Lemma translate_response_calls (lang : str) (doc_sum advice_text : pyval)
      (h : history) :
  exists evs,
    snd (MainMultilanguage.translate_response E lang doc_sum advice_text h)
      = h ++ evs /\
    translation_calls 2 evs /\
    (str_eqb lang (lit "English") = true -> evs = []).
Proof.
  unfold MainMultilanguage.translate_response.
  destruct (str_eqb lang (lit "English")) eqn:Hlang; cbn [negb].
  { no_calls. }
  match goal with
  | |- exists evs, snd ?X = _ /\ _ =>
      cut (exists evs, snd X = h ++ evs /\ translation_calls 2 evs);
        [intros (evs & Hh & Hc); exists evs;
         split; [exact Hh | split; [exact Hc | discriminate]]
        |apply two_translations_calls]
  end.
Qed.

End Calls.

Lemma analyze_english_calls
      (E : env) (w lang : str) (image : option UploadFile) (rid : str)
      (h : history) :
  exists ai outbound,
    snd (MainMultilanguage.analyze_english E w lang image rid h)
      = h ++ ai ++ outbound /\
    (ai = [] \/
     ai = [GeminiGenerate (Llm.build_content E w (read_image image))]) /\
    translation_calls 2 outbound /\
    (str_eqb lang (lit "English") = true -> outbound = []).
Proof.
  unfold MainMultilanguage.analyze_english.
  destruct (truthy _).
  { destruct (translate_emergency_calls E lang
                (MainMultilanguage.emergency_response
                   (filter (fun kw => contains kw (lower w))
                           MainMultilanguage.urgent_keywords)) h)
      as (evs & Hh & Hc & He).
    exists [], evs. cbn [app]. repeat split; try apply Hc; auto. }
  run. cbv beta iota.
  destruct (call_llm_run E w (read_image image) h) as [Hsnd _].
  cbv zeta in Hsnd.
  set (ai := [GeminiGenerate (Llm.build_content E w (read_image image))])
    in *.
  assert (Hstop : exists ai0 outbound : list event,
            h ++ ai = h ++ ai0 ++ outbound /\
            (ai0 = [] \/ ai0 = ai) /\
            translation_calls 2 outbound /\
            (str_eqb lang (lit "English") = true -> outbound = [])).
  { exists ai, []. rewrite app_nil_r. split; [reflexivity|].
    split; [now right|]. split; [apply translation_calls_nil | reflexivity]. }
  destruct (Llm.call_llm E w (read_image image) h) as [[result|e] h1];
    cbn [snd] in Hsnd; subst h1; cbn [snd]; [|exact Hstop].
  destruct (has_key (lit "error") result); cbn [snd]; [exact Hstop|].
  destruct (py_upper _) as [level|e]; cbv beta iota; cbn [snd];
    [|exact Hstop].
  match goal with
  | |- context [MainMultilanguage.translate_response E lang ?a ?b ?hh] =>
      destruct (translate_response_calls E lang a b hh)
        as (evs & Hh & Hc & He);
      destruct (MainMultilanguage.translate_response E lang a b hh)
        as [[p|e] h2]
  end; cbn [snd] in Hh; subst h2; cbn [snd];
    exists ai, evs; rewrite <- app_assoc;
    (split; [reflexivity|]); (split; [now right|]);
    (split; [exact Hc | exact He]).
Qed.

(** The calls of a multi-language request come in this order and in
    these numbers: at most one to the translation provider (inbound), at
    most one to the AI provider, then at most two to the translation
    provider (outbound).  The messaging provider is never called. *)
Theorem multi_language_calls
  (E : env) (text lang : str) (image : option UploadFile) (consent : bool)
  (rid : str) (h : history) :
  exists inbound ai outbound,
    snd (MainMultilanguage.analyze E text lang image consent rid h)
      = h ++ inbound ++ ai ++ outbound /\
    translation_calls 1 inbound /\
    (ai = [] \/
     exists w,
       ai = [GeminiGenerate (Llm.build_content E w (read_image image))]) /\
    translation_calls 2 outbound.
Proof.
  assert (Hnone : exists inbound ai outbound : list event,
            h = h ++ inbound ++ ai ++ outbound /\
            translation_calls 1 inbound /\
            (ai = [] \/
             exists w,
               ai = [GeminiGenerate
                       (Llm.build_content E w (read_image image))]) /\
            translation_calls 2 outbound).
  { exists [], [], []. rewrite app_nil_r.
    repeat split; try (cbn; lia); auto. }
  unfold MainMultilanguage.analyze.
  destruct (MainMultilanguage.CONSENT_REQUIRED && negb consent);
    [exact Hnone|].
  destruct (Nat.ltb _ 5); [exact Hnone|].
  unfold bind.
  destruct (inbound_translation_calls E text lang h) as (evs & Hh & Hc & _).
  assert (Hin : exists inbound ai outbound : list event,
            h ++ evs = h ++ inbound ++ ai ++ outbound /\
            translation_calls 1 inbound /\
            (ai = [] \/
             exists w,
               ai = [GeminiGenerate
                       (Llm.build_content E w (read_image image))]) /\
            translation_calls 2 outbound).
  { exists evs, [], []. rewrite app_nil_r.
    split; [reflexivity|]. split; [exact Hc|]. split; [now left|].
    apply translation_calls_nil. }
  destruct (MainMultilanguage.inbound_translation E text lang h)
    as [[v|e] h1]; cbn [snd] in Hh; subst h1; [|exact Hin].
  destruct v; try exact Hin.
  destruct (analyze_english_calls E t lang image rid (h ++ evs))
    as (ai & outbound & Hsnd & Hai & Hout & _).
  exists evs, ai, outbound. rewrite Hsnd, <- app_assoc.
  split; [reflexivity|]. split; [exact Hc|]. split; [|exact Hout].
  destruct Hai as [->| ->]; [now left | right; now exists t].
Qed.

(** A single-language request, and a multi-language request in English,
    make no call at all or exactly one: the AI call, whose content is
    built from the symptom text as it was sent.  The translation provider
    is not contacted. *)
Theorem english_request_calls
  (v : variant) (E : env) (rq : TriageRequest) (h : history) :
  (v = MultiLanguage -> user_language rq = lit "English") ->
  snd (analyze v E rq h) = h \/
  snd (analyze v E rq h)
    = h ++ [GeminiGenerate
              (Llm.build_content E (symptom_text rq)
                                 (read_image (image rq)))].
Proof.
  intros Hlang. destruct v; unfold analyze.
  - unfold Main.analyze.
    destruct (Nat.ltb _ 5); [now left|].
    destruct (truthy _); [now left|].
    run. cbv beta iota.
    destruct (call_llm_run E (symptom_text rq) (read_image (image rq)) h)
      as [Hsnd _]. cbv zeta in Hsnd.
    destruct (Llm.call_llm E (symptom_text rq) (read_image (image rq)) h)
      as [[result|e] h1]; cbn [snd] in Hsnd; subst h1; [|now right].
    destruct (has_key (lit "error") result); [now right|].
    destruct (py_upper _); cbv beta iota; [|now right].
    destruct (py_len _); cbv beta iota; [|now right].
    destruct (py_len _); cbv beta iota; now right.
  - rewrite (Hlang eq_refl). unfold MainMultilanguage.analyze.
    destruct (MainMultilanguage.CONSENT_REQUIRED && negb (consent_given rq));
      [now left|].
    destruct (Nat.ltb _ 5); [now left|].
    change (MainMultilanguage.inbound_translation E (symptom_text rq)
              (lit "English"))
      with (@ret pyval (PStr (symptom_text rq))).
    unfold bind, ret. cbv beta iota.
    destruct (analyze_english_calls E (symptom_text rq) (lit "English")
                (image rq) (request_id rq) h)
      as (ai & outbound & Hsnd & Hai & _ & Hnone).
    rewrite Hsnd, (Hnone eq_refl), app_nil_r.
    destruct Hai as [->| ->]; [left; apply app_nil_r | now right].
Qed.

Lemma english_request_calls_witness :
  let rq := mk_TriageRequest (lit "I have a mild headache since yesterday")
                             (lit "English") None true Mock.rid in
  let E := Mock.provide
             Mock.sarvam_echo
             (Mock.gemini_answers (Mock.triage_body (Mock.quoted (lit "LOW"))))
  in
  snd (analyze MultiLanguage E rq [])
  = [GeminiGenerate (Llm.build_content E (symptom_text rq) None)].
Proof.
  intros rq E.
  destruct (english_request_calls MultiLanguage E rq [] (fun _ => eq_refl))
    as [Hnone|Hone].
  - vm_compute in Hnone. discriminate Hnone.
  - exact Hone.
Defined.

(* ------------------------------------------------------------------ *)
(** ** The multi-language service, continued *)

Ltac pick := cbn [In]; repeat (first [left; reflexivity | right]).

(** Whenever the multi-language service returns a response, its status
    is one of six, and unless the status is success its risk is one of
    LOW, MODERATE, HIGH, ERROR. *)
Theorem multi_language_status_is_terminal
  (E : env) (text lang : str) (image : option UploadFile) (consent : bool)
  (rid : str) (h h' : history) (d : dict) :
  MainMultilanguage.analyze E text lang image consent rid h = (Ret d, h') ->
  exists s,
    status_of d = Some (PStr s) /\
    In s [ lit "consent_required"; lit "incomplete_input";
           lit "emergency_detected"; lit "ai_error";
           lit "ai_partial_failure"; lit "success" ] /\
    (s <> lit "success" ->
     exists level,
       risk_of d = Some (PStr level) /\
       In level [lit "LOW"; lit "MODERATE"; lit "HIGH"; lit "ERROR"]).
Proof.
  unfold MainMultilanguage.analyze.
  destruct (MainMultilanguage.CONSENT_REQUIRED && negb consent).
  { unfold ret. intros [= <- <-]. exists (lit "consent_required").
    split; [reflexivity|]. split; [pick|].
    intros _. exists (lit "ERROR"). split; [reflexivity | pick]. }
  destruct (Nat.ltb _ 5).
  { unfold ret. intros [= <- <-]. exists (lit "incomplete_input").
    split; [reflexivity|]. split; [pick|].
    intros _. exists (lit "LOW"). split; [reflexivity | pick]. }
  unfold bind.
  destruct (MainMultilanguage.inbound_translation E text lang h)
    as [[v|e] h1]; [|discriminate].
  destruct v; try discriminate.
  unfold MainMultilanguage.analyze_english.
  destruct (truthy _).
  { destruct (translate_emergency_keeps_alarm E lang
                (filter (fun kw => contains kw (lower t))
                        MainMultilanguage.urgent_keywords) h1)
      as (d0 & evs & Hd0 & _ & Hr & Hs).
    rewrite Hd0. intros [= <- <-]. exists (lit "emergency_detected").
    split; [exact Hs|]. split; [pick|].
    intros _. exists (lit "HIGH"). split; [exact Hr | pick]. }
  run. cbv beta iota.
  destruct (Llm.call_llm E t (read_image image) h1) as [[result|e] h2].
  2:{ intros [= <- <-]. exists (lit "ai_error").
      split; [reflexivity|]. split; [pick|].
      intros _. exists (lit "ERROR"). split; [reflexivity | pick]. }
  destruct (has_key (lit "error") result).
  { intros [= <- <-]. exists (lit "ai_partial_failure").
    split; [reflexivity|]. split; [pick|].
    intros _. exists (lit "MODERATE"). split; [reflexivity | pick]. }
  destruct (py_upper _) as [level|e]; cbv beta iota; [|discriminate].
  destruct (MainMultilanguage.translate_response E lang _ _ h2)
    as [[p|e] h3]; [|discriminate].
  intros [= <- <-]. exists (lit "success").
  split; [reflexivity|]. split; [pick|].
  intros Hne. exfalso. apply Hne. reflexivity.
Qed.

Lemma multi_language_status_is_terminal_witness :
  let E := Mock.provide (Mock.sarvam_status 500) (Mock.gemini_answers []) in
  exists d h',
    MainMultilanguage.analyze E (lit "fever and body ache since two days")
                              Mock.hindi None true Mock.rid [] = (Ret d, h') /\
    exists s,
      status_of d = Some (PStr s) /\
      In s [ lit "consent_required"; lit "incomplete_input";
             lit "emergency_detected"; lit "ai_error";
             lit "ai_partial_failure"; lit "success" ] /\
      (s <> lit "success" ->
       exists level,
         risk_of d = Some (PStr level) /\
         In level [lit "LOW"; lit "MODERATE"; lit "HIGH"; lit "ERROR"]).
Proof.
  intros E. eexists; eexists. split; [vm_compute; reflexivity|].
  eapply (multi_language_status_is_terminal
            E (lit "fever and body ache since two days") Mock.hindi None true
            Mock.rid []).
  vm_compute. reflexivity.
Defined.

(** When the inbound translation succeeds, the working text is what the
    provider sent as [translated_text]; when the provider's answer has no
    such entry, the working text is the empty string. *)
Theorem translated_text_becomes_working_text
  (E : env) (text lang : str) (h : history) (body : str) (d : dict) :
  str_eqb lang (lit "English") = false ->
  SarvamTranslator.enabled E = true ->
  sarvam_post E h (PStr text) (SarvamTranslator.get_language_code lang)
              (lit "en-IN") = Ret (mk_Response 200 body) ->
  json_loads E body = inl (PDict d) ->
  py_slice (get_default (lit "translated_text") (PStr []) d) = Ret tt ->
  MainMultilanguage.inbound_translation E text lang h
  = (Ret (get_default (lit "translated_text") (PStr []) d),
     h ++ [SarvamPost (PStr text) (SarvamTranslator.get_language_code lang)
                      (lit "en-IN")]) /\
  (get (lit "translated_text") d = None ->
   fst (MainMultilanguage.inbound_translation E text lang h) = Ret (PStr [])).
Proof.
  intros Hlang Hen Hpost Hjson Hslice.
  assert (Hrun : MainMultilanguage.inbound_translation E text lang h
    = (Ret (get_default (lit "translated_text") (PStr []) d),
       h ++ [SarvamPost (PStr text) (SarvamTranslator.get_language_code lang)
                        (lit "en-IN")])).
  { unfold MainMultilanguage.inbound_translation. rewrite Hlang.
    cbn [negb]. unfold SarvamTranslator.translate_to_english.
    rewrite Hlang. run. cbv beta iota.
    rewrite (translate_ok_run E text _ _ h body d Hen Hpost Hjson Hslice).
    change (truthy (get_or_none (lit "success")
              ((lit "success", PBool true) :: _))) with true.
    cbv beta iota.
    match goal with
    | |- context [get_default (lit "translated_text") (PStr text) ?r] =>
        change (get_default (lit "translated_text") (PStr text) r)
          with (get_default (lit "translated_text") (PStr []) d)
    end.
    rewrite Hslice. reflexivity. }
  split; [exact Hrun|].
  intros Hnone. rewrite Hrun. unfold get_default. now rewrite Hnone.
Qed.

Lemma translated_text_becomes_working_text_witness :
  let E := Mock.provide (Mock.sarvam_answers (lit "I have a fever"))
                        (Mock.gemini_answers []) in
  fst (MainMultilanguage.inbound_translation E (lit "mujhe bukhar hai")
                                             Mock.hindi [])
  = Ret (PStr (lit "I have a fever")).
Proof.
  intros E.
  destruct (translated_text_becomes_working_text
              E (lit "mujhe bukhar hai") Mock.hindi []
              (Mock.translated_body (lit "I have a fever"))
              [(lit "translated_text", PStr (lit "I have a fever"))])
    as [Hrun _];
    [reflexivity | reflexivity | reflexivity | reflexivity | reflexivity |].
  rewrite Hrun. reflexivity.
Defined.

(* ------------------------------------------------------------------ *)
(** ** The single-language service: AI errors and the translate endpoint *)

(** When the AI client returns an error outcome, the single-language
    service answers MODERATE with status ai_partial_failure, puts the
    client's error message into the summary and its raw error into
    [debug]. *)
Theorem ai_error_message_is_shown
  (E : env) (text : str) (image : option UploadFile) (rid : str)
  (h h1 : history) (result : dict) (msg : str) :
  5 <= List.length (strip text) ->
  filter (fun kw => contains kw (lower text)) Main.urgent_keywords = [] ->
  Llm.call_llm E text (read_image image) h = (Ret result, h1) ->
  get (lit "error") result = Some (PStr msg) ->
  exists d,
    Main.analyze E text image rid h = (Ret d, h1) /\
    risk_of d = Some (PStr (lit "MODERATE")) /\
    status_of d = Some (PStr (lit "ai_partial_failure")) /\
    get (lit "doctor_summary") d
      = Some (PStr (lit "Analysis incomplete: " ++ msg)) /\
    get (lit "debug") d = Some (get_or_none (lit "raw_error") result) /\
    get (lit "request_id") d = Some (PStr rid).
Proof.
  intros Hlen Hfound Hllm Herr. apply Nat.ltb_ge in Hlen.
  unfold Main.analyze. rewrite Hlen, Hfound. cbn [map truthy].
  run. cbv beta iota. rewrite Hllm.
  unfold has_key, get_default. rewrite Herr. cbn [fmt].
  eexists. split; [reflexivity|]. repeat split; reflexivity.
Qed.

Lemma ai_error_message_is_shown_witness :
  let E := Mock.provide Mock.sarvam_echo (Mock.gemini_answers []) in
  exists d h1,
    Main.analyze E (lit "I have a mild headache since yesterday") None
                 Mock.rid [] = (Ret d, h1) /\
    get (lit "doctor_summary") d
      = Some (PStr (lit "Analysis incomplete: Empty response from AI")) /\
    get (lit "debug") d
      = Some (PStr (lit "Response text was empty or None")).
Proof.
  intros E.
  edestruct (ai_error_message_is_shown
               E (lit "I have a mild headache since yesterday") None Mock.rid
               []
               (snd (Llm.call_llm
                       E (lit "I have a mild headache since yesterday")
                       None []))
               [ (lit "error", PStr (lit "Empty response from AI"));
                 (lit "raw_error",
                  PStr (lit "Response text was empty or None")) ]
               (lit "Empty response from AI"))
    as (d & Hd & _ & _ & Hsum & Hdebug & _);
    [vm_compute; lia | reflexivity | vm_compute; reflexivity
    | reflexivity |].
  exists d. eexists. split; [exact Hd|]. split; assumption.
Defined.

(** [POST /translate] never raises and contacts none of the three
    providers of the history.  Every answer carries the text as
    [original] and the request id.  A status other than 200 gives
    "Translation service unavailable", without a note.  An exception gives
    [success = False], its message as the error and the note "Fallback to
    original text", whether the request itself raises or, after a 200,
    reading the answer does: a body that is not JSON, or a document in
    which [data], [translations], a first element or [translatedText]
    cannot be read.  [success] is true only when all of these are read,
    and the answer then carries the text read. *)
Theorem translate_to_hindi_result
  (E : env) (text rid : str) (post : result Response) (h : history) :
  exists d,
    Main.translate_to_hindi E text rid post h = (Ret d, h) /\
    get (lit "original") d = Some (PStr text) /\
    get (lit "request_id") d = Some (PStr rid) /\
    let failed (message : str) :=
      get (lit "success") d = Some (PBool false) /\
      get (lit "error") d = Some (PStr message) /\
      get (lit "note") d = Some (PStr (lit "Fallback to original text")) in
    match post with
    | Raise e => failed (exc_str e)
    | Ret response =>
        (status_code response <> 200%Z ->
         get (lit "success") d = Some (PBool false) /\
         get (lit "error") d
           = Some (PStr (lit "Translation service unavailable")) /\
         get (lit "note") d = None) /\
        (status_code response = 200%Z ->
         match json_loads E (response_text response) with
         | inr message => failed message
         | inl data =>
         match py_getitem data "data" with
         | Raise e => failed (exc_str e)
         | Ret inner =>
         match py_getitem inner "translations" with
         | Raise e => failed (exc_str e)
         | Ret translations =>
         match py_first translations with
         | Raise e => failed (exc_str e)
         | Ret first =>
         match py_getitem first "translatedText" with
         | Raise e => failed (exc_str e)
         | Ret translated_text =>
             get (lit "success") d = Some (PBool true) /\
             get (lit "translated") d = Some translated_text /\
             get (lit "language") d = Some (PStr (lit "hindi"))
         end end end end end)
    end.
Proof.
  unfold Main.translate_to_hindi. run. cbv beta iota.
  destruct post as [response|e]; cbv beta iota.
  2:{ eexists. split; [reflexivity|]. repeat split; reflexivity. }
  destruct (Z.eqb (status_code response) 200) eqn:Hst; cbv beta iota.
  2:{ apply Z.eqb_neq in Hst. eexists. split; [reflexivity|].
      split; [reflexivity|]. split; [reflexivity|]. cbv zeta. split.
      - intros _. repeat split; reflexivity.
      - intros H200. contradiction. }
  apply Z.eqb_eq in Hst.
  unfold SarvamTranslator.response_json. run.
  destruct (json_loads E (response_text response)) as [v|msg];
    cbv beta iota.
  2:{ eexists. split; [reflexivity|].
      split; [reflexivity|]. split; [reflexivity|]. cbv zeta.
      split; [intros Hne; contradiction|]. intros _.
      repeat split; reflexivity. }
  destruct (py_getitem v "data") as [inner|e]; cbv beta iota.
  2:{ eexists. split; [reflexivity|].
      split; [reflexivity|]. split; [reflexivity|]. cbv zeta.
      split; [intros Hne; contradiction|]. intros _.
      repeat split; reflexivity. }
  destruct (py_getitem inner "translations") as [translations|e];
    cbv beta iota.
  2:{ eexists. split; [reflexivity|].
      split; [reflexivity|]. split; [reflexivity|]. cbv zeta.
      split; [intros Hne; contradiction|]. intros _.
      repeat split; reflexivity. }
  destruct (py_first translations) as [first|e]; cbv beta iota.
  2:{ eexists. split; [reflexivity|].
      split; [reflexivity|]. split; [reflexivity|]. cbv zeta.
      split; [intros Hne; contradiction|]. intros _.
      repeat split; reflexivity. }
  destruct (py_getitem first "translatedText") as [translated|e];
    cbv beta iota.
  2:{ eexists. split; [reflexivity|].
      split; [reflexivity|]. split; [reflexivity|]. cbv zeta.
      split; [intros Hne; contradiction|]. intros _.
      repeat split; reflexivity. }
  eexists. split; [reflexivity|].
  split; [reflexivity|]. split; [reflexivity|]. cbv zeta.
  split; [intros Hne; contradiction|]. intros _.
  repeat split; reflexivity.
Qed.

(** On a 200 whose body has the shape
    [{"data": {"translations": [{"translatedText": x}, ...]}}] the answer
    is a success that carries [x]. *)
Theorem translate_to_hindi_success
  (E : env) (text rid : str) (body : str) (h : history)
  (top inner first : dict) (rest : list pyval) (x : pyval) :
  json_loads E body = inl (PDict top) ->
  get (lit "data") top = Some (PDict inner) ->
  get (lit "translations") inner = Some (PList (PDict first :: rest)) ->
  get (lit "translatedText") first = Some x ->
  exists d,
    Main.translate_to_hindi E text rid (Ret (mk_Response 200 body)) h
      = (Ret d, h) /\
    get (lit "success") d = Some (PBool true) /\
    get (lit "translated") d = Some x /\
    get (lit "original") d = Some (PStr text) /\
    get (lit "language") d = Some (PStr (lit "hindi")).
Proof.
  intros Hjson Hdata Htr Hfirst.
  unfold Main.translate_to_hindi. run. cbv beta iota.
  cbn [status_code]. change (Z.eqb 200 200) with true. cbv beta iota.
  unfold SarvamTranslator.response_json. cbn [response_text].
  rewrite Hjson. run. cbv beta iota.
  unfold py_getitem at 1. rewrite Hdata. cbv beta iota.
  unfold py_getitem at 1. rewrite Htr. cbv beta iota.
  cbn [py_first]. cbv beta iota.
  unfold py_getitem. rewrite Hfirst.
  eexists. split; [reflexivity|]. repeat split; reflexivity.
Qed.

Lemma translate_to_hindi_success_witness :
  let answer :=
    PDict [ (lit "data",
             PDict [ (lit "translations",
                      PList [ PDict [ (lit "translatedText",
                                       PStr (lit "namaste")) ] ]) ]) ] in
  let E := mk_env Mock.ascii_isdigit (fun _ => inl answer)
                  (fun _ => lit "?") (fun _ => true) (fun _ => 0%Z)
                  None false [] Mock.sarvam_echo (Mock.gemini_answers [])
                  (fun _ _ _ _ => Ret []) in
  exists d,
    Main.translate_to_hindi E (lit "hello") Mock.rid
                            (Ret (mk_Response 200 (lit "{...}"))) []
      = (Ret d, []) /\
    get (lit "success") d = Some (PBool true) /\
    get (lit "translated") d = Some (PStr (lit "namaste")).
Proof.
  intros answer E.
  edestruct (translate_to_hindi_success E (lit "hello") Mock.rid
               (lit "{...}") [])
    as (d & Hd & Hs & Ht & _);
    [reflexivity | reflexivity | reflexivity | reflexivity |].
  exists d. repeat split; assumption.
Defined.
